(** * Session and run orchestration of the Deep Research tool servers

    A shallow embedding of [async_research_mcp_final.py] (the server that
    waits for a run inside [research_question]) and of
    [async_research_mcp.py] (the server whose sessions the caller polls),
    followed by the properties of the session registry, the completion
    wait, the result extraction and the assistant cache that the
    specification states, and by further properties of the tools of both
    servers.

    Layout: strings, decoded JSON, the world and the monad; the texts the
    tools return; the code of the servers (section [Server]); the
    vocabulary of the properties and the mock engines of the concrete
    runs; the lemmas and theorems (section [ServerProperties]); the
    concrete runs.

    Conventions of the embedding
    - A decoded JSON document is a [json] value; Python's dynamic operations
      on it ([.get], indexing, [in], [.lower()], truthiness) are total
      functions into [res], which carries the exception they raise.
    - The two module globals [active_sessions] and [assistant_id], the wall
      clock, the transcript of HTTP exchanges and the number of UUIDs drawn
      form the [world]; every function of the servers is a computation in
      the monad [M] over it.
    - The LangGraph server is a parameter [remote]: it answers a request
      from the time of the request and the transcript so far.
    - [time.time()] is an integer number of time units; a Python [str] is
      held as its UTF-8 bytes, so [lower] acts on ASCII letters, and a slice
      of a text the caller supplies counts code points ([take_chars]), not
      bytes. *)

From Stdlib Require Import String Ascii List ZArith NArith QArith Bool Lia.
From Stdlib Require Import DecimalString.
Import ListNotations.
Local Open Scope string_scope.
Local Open Scope Z_scope.
Local Set Warnings "-register-all".

(* ================================================================== *)
(** ** Strings *)

Definition nl : string := String "010"%char "".

(** [str(n)] for a Python [int]. *)
Definition str_int (n : Z) : string := NilZero.string_of_int (Z.to_int n).

(** [needle in s] for two Python strings. *)
Fixpoint contains (needle s : string) : bool :=
  String.prefix needle s
  || match s with
     | EmptyString => false
     | String _ s' => contains needle s'
     end.

Definition lower_ascii (c : ascii) : ascii :=
  let n := nat_of_ascii c in
  if ((65 <=? n) && (n <=? 90))%nat then ascii_of_nat (n + 32) else c.

(** [s.lower()]. *)
Fixpoint lower (s : string) : string :=
  match s with
  | EmptyString => EmptyString
  | String c s' => String (lower_ascii c) (lower s')
  end.

(** [s[:n]] for a text of ASCII characters (the text of a UUID), where a
    character is a byte. *)
Definition take (n : nat) (s : string) : string := String.substring 0 n s.

(** A byte that continues the UTF-8 encoding of a code point: [10xxxxxx]. *)
Definition continuation_byte (c : ascii) : bool :=
  let n := nat_of_ascii c in
  ((128 <=? n) && (n <=? 191))%nat.

(** [s[:n]] for any Python [str]: the bytes of its first [n] code points.
    A byte that starts a code point is kept while [n] is not used up, and
    the bytes that continue a code point go with the byte that starts it. *)
Fixpoint take_chars (n : nat) (s : string) : string :=
  match s with
  | EmptyString => EmptyString
  | String c s' =>
      if continuation_byte c then String c (take_chars n s')
      else
        match n with
        | O => EmptyString
        | S n' => String c (take_chars n' s')
        end
  end.

(** [s[-1]] of a non-empty string, as a one-character string. *)
Fixpoint last_char (s : string) : string :=
  match s with
  | EmptyString => EmptyString
  | String c EmptyString => String c EmptyString
  | String _ s' => last_char s'
  end.

Definition first_char (s : string) : string :=
  match s with
  | EmptyString => EmptyString
  | String c _ => String c EmptyString
  end.

(** [sub] occurs in [s]: the propositional reading of [contains]. *)
Definition occurs_in (sub s : string) : Prop :=
  exists pre post, s = pre ++ sub ++ post.

(* ================================================================== *)
(** ** Decoded JSON and Python's operations on it *)

Inductive json : Type :=
| JNull
| JBool (b : bool)
| JInt (n : Z)
| JFloat (q : Q)
| JStr (s : string)
| JList (items : list json)
| JDict (items : list (string * json)).

Inductive exn : Type :=
| RequestException (msg : string)
| JSONDecodeError (msg : string)
| AttributeError (msg : string)
| TypeError (msg : string)
| KeyError (key_repr : string)
| IndexError (msg : string).

(** [str(e)]. *)
Definition str_exn (e : exn) : string :=
  match e with
  | RequestException m | JSONDecodeError m | AttributeError m
  | TypeError m | IndexError m => m
  | KeyError k => k
  end.

(** The result of a Python expression: a value, or the exception it
    raises. *)
Inductive res (A : Type) : Type :=
| Ok (a : A)
| Err (e : exn).
Arguments Ok {A} a.
Arguments Err {A} e.

Definition res_bind {A B} (r : res A) (k : A -> res B) : res B :=
  match r with
  | Ok a => k a
  | Err e => Err e
  end.

(** [bool(v)]. *)
Definition truthy (v : json) : bool :=
  match v with
  | JNull => false
  | JBool b => b
  | JInt n => negb (n =? 0)
  | JFloat q => negb (Qnum q =? 0)
  | JStr s => negb (String.eqb s "")
  | JList l => match l with [] => false | _ :: _ => true end
  | JDict l => match l with [] => false | _ :: _ => true end
  end.

(** [type(v).__name__]. *)
Definition type_name (v : json) : string :=
  match v with
  | JNull => "NoneType"
  | JBool _ => "bool"
  | JInt _ => "int"
  | JFloat _ => "float"
  | JStr _ => "str"
  | JList _ => "list"
  | JDict _ => "dict"
  end.

(** [v == "s"] for a string literal. *)
Definition is_str (v : json) (s : string) : bool :=
  match v with
  | JStr t => String.eqb t s
  | _ => false
  end.

Fixpoint assoc {A} (k : string) (l : list (string * A)) : option A :=
  match l with
  | [] => None
  | (k', v) :: l' => if String.eqb k k' then Some v else assoc k l'
  end.

Definition no_attribute (v : json) (attr : string) : exn :=
  AttributeError ("'" ++ type_name v ++ "' object has no attribute '" ++ attr ++ "'").

Definition not_subscriptable (v : json) : exn :=
  TypeError ("'" ++ type_name v ++ "' object is not subscriptable").

(** [d.get(key, default)]; only a dict has the method. *)
Definition py_get (d : json) (key : string) (default : json) : res json :=
  match d with
  | JDict kv => Ok (match assoc key kv with Some v => v | None => default end)
  | _ => Err (no_attribute d "get")
  end.

(** [v["key"]]. *)
Definition py_getitem (v : json) (key : string) : res json :=
  match v with
  | JDict kv =>
      match assoc key kv with
      | Some x => Ok x
      | None => Err (KeyError ("'" ++ key ++ "'"))
      end
  | JList _ => Err (TypeError "list indices must be integers or slices, not str")
  | JStr _ => Err (TypeError "string indices must be integers, not 'str'")
  | _ => Err (not_subscriptable v)
  end.

(** [v[0]]. The keys of a decoded JSON object are strings, so the integer
    key is never found in a dict. *)
Definition py_first (v : json) : res json :=
  match v with
  | JList [] => Err (IndexError "list index out of range")
  | JList (x :: _) => Ok x
  | JStr "" => Err (IndexError "string index out of range")
  | JStr s => Ok (JStr (first_char s))
  | JDict _ => Err (KeyError "0")
  | _ => Err (not_subscriptable v)
  end.

(** [v[-1]]. *)
Definition py_last (v : json) : res json :=
  match v with
  | JList [] => Err (IndexError "list index out of range")
  | JList (x :: l) => Ok (List.last l x)
  | JStr "" => Err (IndexError "string index out of range")
  | JStr s => Ok (JStr (last_char s))
  | JDict _ => Err (KeyError "-1")
  | _ => Err (not_subscriptable v)
  end.

(** ["needle" in v]: substring of a string, element of a list, key of a
    dict; a type error on the scalars. *)
Definition py_in (needle : string) (v : json) : res bool :=
  match v with
  | JStr s => Ok (contains needle s)
  | JList l => Ok (existsb (fun x => is_str x needle) l)
  | JDict kv => Ok (existsb (fun p => String.eqb (fst p) needle) kv)
  | _ => Err (TypeError ("argument of type '" ++ type_name v ++ "' is not iterable"))
  end.

(** [v.lower()]. *)
Definition py_lower (v : json) : res string :=
  match v with
  | JStr s => Ok (lower s)
  | _ => Err (no_attribute v "lower")
  end.

(* ================================================================== *)
(** ** HTTP exchanges, sessions and the world *)

Inductive request : Type :=
| GET (url : string)
| POST (url : string) (body : json).

(** What the servers read of a [requests.Response]: [.status_code],
    [.text] and the outcome of [.json()]. *)
Record response : Type := mkResponse {
  status_code : Z;
  text : string;
  json_body : res json
}.

(** The answer to one request: the time it took, and either the response
    or the exception [requests] raised. *)
Record reply : Type := mkReply {
  latency : N;
  answer : res response
}.

Definition transcript : Type := list (request * res response).

(** The remote engine, seen from the server. *)
Definition engine : Type := Z -> transcript -> request -> reply.

(** A value of the [active_sessions] dict. [async_research_mcp.py] stores
    a ["status"] key, [async_research_mcp_final.py] does not. *)
Record session : Type := mkSession {
  thread_id : json;
  run_id : json;
  question : string;
  status : option string;
  started_at : Z
}.

(** A Python dict with string keys: its items in insertion order. *)
Definition dict (A : Type) : Type := list (string * A).

Fixpoint dict_in {A} (k : string) (d : dict A) : bool :=
  match d with
  | [] => false
  | (k', _) :: d' => String.eqb k k' || dict_in k d'
  end.

(** [d[k] = v]: an existing key keeps its place. *)
Fixpoint dict_set {A} (k : string) (v : A) (d : dict A) : dict A :=
  match d with
  | [] => [(k, v)]
  | (k', v') :: d' =>
      if String.eqb k k' then (k', v) :: d' else (k', v') :: dict_set k v d'
  end.

(** [del d[k]] for a key that is present. *)
Fixpoint dict_del {A} (k : string) (d : dict A) : dict A :=
  match d with
  | [] => []
  | (k', v') :: d' =>
      if String.eqb k k' then d' else (k', v') :: dict_del k d'
  end.

Record world : Type := mkWorld {
  now : Z;
  log : transcript;
  active_sessions : dict session;
  assistant_id : json;
  uuids_drawn : nat
}.

(** The state of a freshly started process at time [t]. *)
Definition boot (t : Z) : world :=
  {| now := t; log := []; active_sessions := []; assistant_id := JNull;
     uuids_drawn := 0 |}.

Definition with_sessions (d : dict session) (w : world) : world :=
  {| now := now w; log := log w; active_sessions := d;
     assistant_id := assistant_id w; uuids_drawn := uuids_drawn w |}.

Definition with_assistant (a : json) (w : world) : world :=
  {| now := now w; log := log w; active_sessions := active_sessions w;
     assistant_id := a; uuids_drawn := uuids_drawn w |}.

(* ================================================================== *)
(** ** The monad of server code *)

(** How a piece of server code ends: with a value, with an exception
    that propagates, or [OutOfFuel] when a loop of the model was cut short. *)
Inductive outcome (A : Type) : Type :=
| Returns (a : A)
| Raises (e : exn)
| OutOfFuel.
Arguments Returns {A} a.
Arguments Raises {A} e.
Arguments OutOfFuel {A}.

Definition M (A : Type) : Type := world -> outcome A * world.

Definition ret {A} (a : A) : M A := fun w => (Returns a, w).

Definition bind {A B} (m : M A) (k : A -> M B) : M B :=
  fun w =>
    match m w with
    | (Returns a, w') => k a w'
    | (Raises e, w') => (Raises e, w')
    | (OutOfFuel, w') => (OutOfFuel, w')
    end.

(** A pure step that may raise. *)
Definition lift {A} (r : res A) : M A :=
  fun w =>
    match r with
    | Ok a => (Returns a, w)
    | Err e => (Raises e, w)
    end.

(** [try: m  except Exception as e: h e]. *)
Definition try_except {A} (m : M A) (h : exn -> M A) : M A :=
  fun w =>
    match m w with
    | (Raises e, w') => h e w'
    | other => other
    end.

Declare Scope py_scope.
Delimit Scope py_scope with py.
Notation "x <- m ;; k" := (bind m (fun x => k))
  (at level 61, m at next level, right associativity) : py_scope.
Notation "m ;; k" := (bind m (fun _ => k))
  (at level 61, right associativity) : py_scope.
Local Open Scope py_scope.

(** [time.time()]. *)
Definition time_time : M Z := fun w => (Returns (now w), w).

(** [await asyncio.sleep(d)]: the clock moves on by [d]. *)
Definition asyncio_sleep (d : Z) : M unit :=
  fun w =>
    (Returns tt,
     {| now := now w + d; log := log w; active_sessions := active_sessions w;
        assistant_id := assistant_id w; uuids_drawn := uuids_drawn w |}).

Definition get_sessions : M (dict session) :=
  fun w => (Returns (active_sessions w), w).

Definition put_sessions (d : dict session) : M unit :=
  fun w => (Returns tt, with_sessions d w).

Definition get_assistant_id : M json :=
  fun w => (Returns (assistant_id w), w).

Definition put_assistant_id (a : json) : M unit :=
  fun w => (Returns tt, with_assistant a w).

(* ================================================================== *)
(** ** The texts the tools return *)

Definition report_instruction : string :=
  "[INSTRUCTION: Present the above research report to the user exactly as written, without summarizing, modifying, or adding commentary. This is the complete, final research report.]".

Definition report_msg (final_report : string) : string :=
  "RESEARCH_REPORT_COMPLETE" ++ nl ++ nl ++ final_report ++ nl ++ nl
  ++ report_instruction.

Definition wait_clarification_msg (content thread : string) : string :=
  "🤔 **Clarification Needed**" ++ nl ++ nl ++ content ++ nl ++ nl
  ++ "**Thread ID:** " ++ thread ++ nl ++ nl
  ++ "*Use `continue_research_with_clarification()` to provide your answer.*".

Definition wait_no_results_msg (thread : string) : string :=
  "❌ Research completed but no results found. Thread ID: " ++ thread.

Definition wait_failed_msg (run_status thread : string) : string :=
  "❌ Research failed with status: " ++ run_status ++ ". Thread ID: " ++ thread
  ++ " (you can try to recover results later)".

Definition wait_error_msg (e thread : string) : string :=
  "❌ Error during research: " ++ e ++ ". Thread ID: " ++ thread.

Definition wait_timed_out_msg (timeout : Z) (thread : string) : string :=
  "⏰ Research timed out after " ++ str_int timeout ++ " seconds. Thread ID: "
  ++ thread ++ nl ++ nl
  ++ "The research may still be running. Use `get_research_by_thread_id('"
  ++ thread ++ "')` to check for results later.".

Definition server_unavailable_msg : string :=
  "❌ Deep Research server not available at http://localhost:2024".

Definition no_assistant_msg : string := "❌ Could not get research assistant".

Definition no_thread_msg : string := "❌ Could not create research thread".

Definition failed_to_start_msg (response_text : string) : string :=
  "❌ Failed to start research: " ++ response_text.

Definition research_error_msg (e thread : string) : string :=
  "❌ Research error: " ++ e ++ ". Thread ID: " ++ thread.

Definition no_access_msg (thread : string) : string :=
  "❌ Could not access thread " ++ thread
  ++ ". It may not exist or may have expired.".

Definition thread_clarification_msg (content thread : string) : string :=
  "🤔 **Clarification Needed**" ++ nl ++ nl ++ content ++ nl ++ nl
  ++ "*Use `continue_research_with_clarification()` with thread_id='" ++ thread
  ++ "' to provide your answer.*".

Definition in_progress_msg (thread : string) : string :=
  "🔍 Research is still in progress for thread " ++ thread
  ++ ". Please check again later.".

Definition thread_no_results_msg (thread : string) : string :=
  "❓ No results found for thread " ++ thread
  ++ ". Research may not be complete or may have encountered an issue.".

Definition retrieve_error_msg (e : string) : string :=
  "❌ Error retrieving results: " ++ e.

Definition no_session_no_thread_msg : string :=
  "❌ No active research sessions found and no thread_id provided.".

Definition failed_to_continue_msg (response_text : string) : string :=
  "❌ Failed to continue research: " ++ response_text.

Definition continued_msg (thread : string) : string :=
  "✅ Research continued with your clarification!" ++ nl ++ nl
  ++ "Thread ID: " ++ thread ++ nl ++ nl
  ++ "The research is now running in the background. Use `get_research_by_thread_id('"
  ++ thread ++ "')` to check for results.".

Definition continue_error_msg (e : string) : string :=
  "❌ Error continuing research: " ++ e.

Definition server_ready_msg : string :=
  "✅ Deep Research server is running and ready".

Definition server_status_msg (code : Z) : string :=
  "❌ Server responded with status " ++ str_int code.

Definition server_down_msg (e : string) : string :=
  "❌ Deep Research server not available: " ++ e.

Definition no_sessions_msg : string := "No active research sessions.".

Definition sessions_header : string :=
  "📋 **Active Research Sessions:**" ++ nl ++ nl.

Definition session_entry (session_id thread question80 elapsed : string) : string :=
  "• **Session " ++ session_id ++ "**" ++ nl
  ++ "  Thread ID: " ++ thread ++ nl
  ++ "  Question: " ++ question80 ++ "..." ++ nl
  ++ "  Running for: " ++ elapsed ++ " seconds" ++ nl ++ nl.

Definition research_started_msg (session_id : string) : string :=
  "✅ Research started! Session ID: **" ++ session_id ++ "**" ++ nl ++ nl
  ++ "Use `check_research_progress('" ++ session_id ++ "')` to monitor progress.".

Definition start_error_msg (e : string) : string := "❌ Research error: " ++ e.

(** The texts of [async_research_mcp.py]. *)
Definition session_unknown_msg (session_id : string) : string :=
  "❌ Session " ++ session_id ++ " not found. Use start_research() to begin.".

Definition progress_completed_msg (session_id : string) : string :=
  "✅ Research completed for session " ++ session_id ++ "!" ++ nl ++ nl
  ++ "Use `get_research_results('" ++ session_id ++ "')` to retrieve the report.".

Definition progress_failed_msg (session_id run_status : string) : string :=
  "❌ Research failed for session " ++ session_id ++ " with status: " ++ run_status.

Definition progress_running_msg (session_id elapsed run_status : string) : string :=
  "🔍 Research in progress for session " ++ session_id ++ nl ++ nl
  ++ "Elapsed time: " ++ elapsed ++ " seconds" ++ nl ++ "Status: " ++ run_status.

Definition progress_unknown_msg (session_id : string) : string :=
  "❓ Could not get status for session " ++ session_id.

Definition progress_error_msg (e : string) : string :=
  "❌ Error checking progress: " ++ e.

Definition session_not_found_msg (session_id : string) : string :=
  "❌ Session " ++ session_id ++ " not found.".

Definition not_complete_msg (session_id run_status : string) : string :=
  "❌ Research not yet complete for session " ++ session_id
  ++ ". Current status: " ++ run_status.

Definition results_instruction : string :=
  "[This is the complete research report. Present it to the user exactly as shown above between the RESEARCH_REPORT_START and RESEARCH_REPORT_END markers, without adding commentary, summary, or modifications.]".

Definition results_report_msg (final_report : string) : string :=
  "RESEARCH_REPORT_START" ++ nl ++ nl ++ final_report ++ nl ++ nl
  ++ "RESEARCH_REPORT_END" ++ nl ++ nl ++ results_instruction.

Definition results_clarification_msg (session_id content : string) : string :=
  "🤔 **Clarification Needed for Session " ++ session_id ++ "**" ++ nl ++ nl
  ++ content ++ nl ++ nl
  ++ "Use `continue_research('" ++ session_id
  ++ "', 'your answer')` to provide clarification.".

Definition results_none_msg (session_id : string) : string :=
  "❌ No results found for session " ++ session_id.

Definition results_unavailable_msg (session_id : string) : string :=
  "❌ Could not retrieve results for session " ++ session_id.

Definition results_error_msg (e : string) : string :=
  "❌ Error getting results: " ++ e.

Definition continued_session_msg (session_id : string) : string :=
  "✅ Research continued for session " ++ session_id ++ "!" ++ nl ++ nl
  ++ "Use `check_research_progress('" ++ session_id ++ "')` to monitor progress.".

Definition async_session_entry (session_id session_status elapsed question60 : string)
  : string :=
  "• **" ++ session_id ++ "** - " ++ session_status ++ " (" ++ elapsed ++ "s ago)" ++ nl
  ++ "  Question: " ++ question60 ++ "..." ++ nl ++ nl.

Definition no_session_id_msg : string :=
  "❌ Could not extract session ID from start result".

Definition taking_longer_msg (session_id : string) : string :=
  "⏰ Research is taking longer than expected. Session " ++ session_id
  ++ " may still be running. Use check_research_progress('" ++ session_id
  ++ "') to monitor.".

Definition no_sessions_to_continue_msg : string :=
  "❌ No active research sessions found. Please start a new research session.".

Definition still_running_msg (session_id : string) : string :=
  "⏰ Research is taking longer than expected. Session " ++ session_id
  ++ " may still be running.".

(** [s.split(sep)] for a separator that is not empty: [acc] is the piece
    being read, [skip] the number of characters of a separator just found
    that are still to be passed over. *)
Fixpoint split_from (sep : string) (skip : nat) (acc s : string) : list string :=
  match s with
  | EmptyString => [acc]
  | String c s' =>
      match skip with
      | S k => split_from sep k acc s'
      | O =>
          if String.prefix sep s then
            acc :: split_from sep (String.length sep - 1) "" s'
          else split_from sep 0 (acc ++ String c "") s'
      end
  end.

Definition py_split (sep s : string) : list string := split_from sep 0 "" s.

(** [start_result.split("Session ID: **")[1].split("**")[0]]. *)
Definition session_id_of (start_result : string) : res string :=
  match py_split "Session ID: **" start_result with
  | _ :: piece :: _ =>
      match py_split "**" piece with
      | session_id :: _ => Ok session_id
      | [] => Err (IndexError "list index out of range")
      end
  | _ => Err (IndexError "list index out of range")
  end.

(* ================================================================== *)
(** ** The servers *)

(** [LANGGRAPH_API_URL]. *)
Definition LANGGRAPH_API_URL : string := "http://localhost:2024".

Section Server.

(** The engine the server talks to. *)
Variable remote : engine.

(** [str(v)] for a decoded JSON value that is not a string (Python's
    rendering of numbers, [None], lists and dicts). *)
Variable py_str : json -> string.

(** [str(uuid.uuid4())] for the n-th UUID the process draws. *)
Variable uuid4 : nat -> string.

(** [f"{v}"] and [str(v)]. *)
Definition to_text (v : json) : string :=
  match v with
  | JStr s => s
  | _ => py_str v
  end.

(** One HTTP exchange: the request is answered by [remote], the clock
    moves on by the latency and the exchange is put on the transcript. *)
Definition perform (q : request) : M response :=
  fun w =>
    let r := remote (now w) (log w) q in
    (match answer r with Ok resp => Returns resp | Err e => Raises e end,
     {| now := now w + Z.of_N (latency r);
        log := (q, answer r) :: log w;
        active_sessions := active_sessions w;
        assistant_id := assistant_id w;
        uuids_drawn := uuids_drawn w |}).

Definition requests_get (url : string) : M response := perform (GET url).
Definition requests_post (url : string) (body : json) : M response :=
  perform (POST url body).

(** [str(uuid.uuid4())[:8]]. *)
Definition new_session_id : M string :=
  fun w =>
    (Returns (take 8 (uuid4 (uuids_drawn w))),
     {| now := now w; log := log w; active_sessions := active_sessions w;
        assistant_id := assistant_id w; uuids_drawn := S (uuids_drawn w) |}).

(* ------------------------------------------------------------------ *)
(** *** [get_assistant] and [create_thread] (the same in both servers) *)

Definition assistant_payload : json :=
  JDict [("graph_id", JStr "Deep Researcher"); ("name", JStr "Research Assistant")].

(** The search half of [get_assistant]: [Some a] when the function
    returns [a] from inside [if assistants:]. *)
Definition search_assistant : M (option json) :=
  response <- requests_post (LANGGRAPH_API_URL ++ "/assistants/search") (JDict []) ;;
  if status_code response =? 200 then
    assistants <- lift (json_body response) ;;
    if truthy assistants then
      first <- lift (py_first assistants) ;;
      a <- lift (py_getitem first "assistant_id") ;;
      put_assistant_id a ;;
      ret (Some a)
    else ret None
  else ret None.

Definition create_assistant : M json :=
  response <- requests_post (LANGGRAPH_API_URL ++ "/assistants") assistant_payload ;;
  if (status_code response =? 200) || (status_code response =? 201) then
    body <- lift (json_body response) ;;
    a <- lift (py_getitem body "assistant_id") ;;
    put_assistant_id a ;;
    ret a
  else ret JNull.

Definition get_assistant : M json :=
  cached <- get_assistant_id ;;
  if truthy cached then ret cached
  else
    try_except
      (found <- search_assistant ;;
       match found with
       | Some a => ret a
       | None => create_assistant
       end)
      (fun _ => ret JNull).

Definition create_thread : M json :=
  try_except
    (response <- requests_post (LANGGRAPH_API_URL ++ "/threads") (JDict []) ;;
     if (status_code response =? 200) || (status_code response =? 201) then
       body <- lift (json_body response) ;;
       lift (py_getitem body "thread_id")
     else ret JNull)
    (fun _ => ret JNull).

(* ------------------------------------------------------------------ *)
(** *** Result extraction (the same in every function that reads a state) *)

(** The text of the last message. No decoded JSON value has an attribute
    [content], so the [hasattr] branch of the source is never taken. *)
Definition message_content (last_message : json) : res json :=
  match last_message with
  | JDict _ => py_get last_message "content" (JStr "")
  | _ => Ok (JStr (to_text last_message))
  end.

(** [content and ('?' in content or 'clarify' in content.lower()
    or 'specify' in content.lower())]. *)
Definition asks_for_clarification (content : json) : res bool :=
  if truthy content then
    res_bind (py_in "?" content) (fun q =>
    if q then Ok true
    else
      res_bind (py_lower content) (fun l1 =>
      if contains "clarify" l1 then Ok true
      else res_bind (py_lower content) (fun l2 => Ok (contains "specify" l2))))
  else Ok false.

(** The block under [# Check for clarification request]: [Some content]
    when it returns the clarification message for [content]. *)
Definition clarification_of (values : json) : res (option json) :=
  res_bind (py_get values "messages" (JList [])) (fun messages =>
  if truthy messages then
    res_bind (py_last messages) (fun last_message =>
    res_bind (message_content last_message) (fun content =>
    res_bind (asks_for_clarification content) (fun asks =>
    Ok (if asks then Some content else None))))
  else Ok None).

(* ------------------------------------------------------------------ *)
(** *** [async_research_mcp_final.py] *)

Definition run_url (thread run : string) : string :=
  LANGGRAPH_API_URL ++ "/threads/" ++ thread ++ "/runs/" ++ run.

Definition state_url (thread : string) : string :=
  LANGGRAPH_API_URL ++ "/threads/" ++ thread ++ "/state".

Definition runs_url (thread : string) : string :=
  LANGGRAPH_API_URL ++ "/threads/" ++ thread ++ "/runs".

(** [wait_for_research_completion], lines 86-116: what the wait does with
    the state of a run whose status is [success]. *)
Definition deliver_state (state thread_id : json) (session_id : string) : M string :=
  values <- lift (py_get state "values" (JDict [])) ;;
  final_report <- lift (py_get values "final_report" JNull) ;;
  if truthy final_report then
    sessions <- get_sessions ;;
    (if dict_in session_id sessions
     then put_sessions (dict_del session_id sessions)
     else ret tt) ;;
    ret (report_msg (to_text final_report))
  else
    c <- lift (clarification_of values) ;;
    match c with
    | Some content =>
        ret (wait_clarification_msg (to_text content) (to_text thread_id))
    | None => ret (wait_no_results_msg (to_text thread_id))
    end.

(** Lines 73-119, the body of the [try] up to the sleep: [Some m] when it
    returns [m], [None] when control reaches [asyncio.sleep]. *)
Definition poll_once (thread_id run_id : json) (session_id : string)
  : M (option string) :=
  response <- requests_get (run_url (to_text thread_id) (to_text run_id)) ;;
  if status_code response =? 200 then
    run_data <- lift (json_body response) ;;
    run_status <- lift (py_get run_data "status" JNull) ;;
    if is_str run_status "success" then
      state_response <- requests_get (state_url (to_text thread_id)) ;;
      if status_code state_response =? 200 then
        state <- lift (json_body state_response) ;;
        m <- deliver_state state thread_id session_id ;;
        ret (Some m)
      else ret None
    else if is_str run_status "error" || is_str run_status "timeout"
            || is_str run_status "interrupted" then
      ret (Some (wait_failed_msg (to_text run_status) (to_text thread_id)))
    else ret None
  else ret None.

(** One pass through the [while] body, lines 72-125. *)
Definition wait_iteration (thread_id run_id : json) (session_id : string)
  : M (option string) :=
  try_except
    (r <- poll_once thread_id run_id session_id ;;
     match r with
     | Some m => ret (Some m)
     | None => asyncio_sleep 2 ;; ret None
     end)
    (fun e => ret (Some (wait_error_msg (str_exn e) (to_text thread_id)))).

(** The [while time.time() - start_time < timeout] loop, lines 71-128. *)
Fixpoint wait_loop (fuel : nat) (start_time timeout : Z)
    (thread_id run_id : json) (session_id : string) : M string :=
  match fuel with
  | O => fun w => (OutOfFuel, w)
  | S fuel' =>
      t <- time_time ;;
      if t - start_time <? timeout then
        r <- wait_iteration thread_id run_id session_id ;;
        match r with
        | Some m => ret m
        | None => wait_loop fuel' start_time timeout thread_id run_id session_id
        end
      else ret (wait_timed_out_msg timeout (to_text thread_id))
  end.

(** Every pass that does not return sleeps two time units, so the loop is
    entered at most [timeout] times: this fuel is never used up
    ([wait_total]), and any larger amount gives the same result
    ([wait_loop_fuel_irrelevant]). *)
Definition wait_fuel (timeout : Z) : nat := S (Z.to_nat timeout).

Definition wait_for_research_completion (thread_id run_id : json)
    (session_id : string) (timeout : Z) : M string :=
  start_time <- time_time ;;
  wait_loop (wait_fuel timeout) start_time timeout thread_id run_id session_id.

(** The default of the [timeout] parameter. *)
Definition default_timeout : Z := 720.

Definition run_payload (assistant : json) (question : string)
    (allow_clarification : bool) : json :=
  JDict
    [("assistant_id", assistant);
     ("input",
      JDict [("messages",
              JList [JDict [("role", JStr "user"); ("content", JStr question)]])]);
     ("config",
      JDict [("configurable",
              JDict [("allow_clarification", JBool allow_clarification)])])].

(** [requests.get(f"{LANGGRAPH_API_URL}/docs", timeout=5)] under a bare
    [except]: any response at all counts as available. *)
Definition server_available : M bool :=
  try_except
    (requests_get (LANGGRAPH_API_URL ++ "/docs") ;; ret true)
    (fun _ => ret false).

Definition research_question (question : string) (allow_clarification : bool)
    (timeout : Z) : M string :=
  available <- server_available ;;
  if negb available then ret server_unavailable_msg
  else
    assistant <- get_assistant ;;
    if negb (truthy assistant) then ret no_assistant_msg
    else
      thread_id <- create_thread ;;
      if negb (truthy thread_id) then ret no_thread_msg
      else
        session_id <- new_session_id ;;
        try_except
          (response <- requests_post (runs_url (to_text thread_id))
                         (run_payload assistant question allow_clarification) ;;
           if negb (status_code response =? 200) then
             ret (failed_to_start_msg (text response))
           else
             body <- lift (json_body response) ;;
             run_id <- lift (py_getitem body "run_id") ;;
             t <- time_time ;;
             sessions <- get_sessions ;;
             put_sessions
               (dict_set session_id
                  {| thread_id := thread_id; run_id := run_id;
                     question := question; status := None; started_at := t |}
                  sessions) ;;
             wait_for_research_completion thread_id run_id session_id timeout)
          (fun e => ret (research_error_msg (str_exn e) (to_text thread_id))).

Definition get_research_by_thread_id (thread_id : string) : M string :=
  try_except
    (state_response <- requests_get (state_url thread_id) ;;
     if negb (status_code state_response =? 200) then
       ret (no_access_msg thread_id)
     else
       state <- lift (json_body state_response) ;;
       values <- lift (py_get state "values" (JDict [])) ;;
       final_report <- lift (py_get values "final_report" JNull) ;;
       if truthy final_report then ret (report_msg (to_text final_report))
       else
         c <- lift (clarification_of values) ;;
         match c with
         | Some content =>
             ret (thread_clarification_msg (to_text content) thread_id)
         | None =>
             thread_status <- lift (py_get state "status" (JStr "unknown")) ;;
             if is_str thread_status "busy" then ret (in_progress_msg thread_id)
             else ret (thread_no_results_msg thread_id)
         end)
    (fun e => ret (retrieve_error_msg (str_exn e))).

(** The [for] loop of [list_active_sessions]. *)
Fixpoint render_sessions (items : dict session) (result : string) : M string :=
  match items with
  | [] => ret result
  | (session_id, s) :: rest =>
      t <- time_time ;;
      render_sessions rest
        (result ++ session_entry session_id (to_text (thread_id s))
                     (take_chars 80 (question s)) (str_int (t - started_at s)))
  end.

Definition list_active_sessions : M string :=
  sessions <- get_sessions ;;
  match sessions with
  | [] => ret no_sessions_msg
  | _ :: _ => render_sessions sessions sessions_header
  end.

(** [max(active_sessions.values(), key=lambda x: x["started_at"])]: the
    first session, in insertion order, with the greatest start time. *)
Fixpoint latest_from (best : session) (rest : dict session) : session :=
  match rest with
  | [] => best
  | (_, s) :: rest' =>
      latest_from (if started_at best <? started_at s then s else best) rest'
  end.

Definition clarification_payload (assistant : json) (clarification_answer : string)
  : json :=
  JDict
    [("assistant_id", assistant);
     ("input",
      JDict [("messages",
              JList [JDict [("role", JStr "user");
                            ("content", JStr clarification_answer)]])])].

(** The [try] block of [continue_research_with_clarification], once the
    target thread is known. *)
Definition continue_on_thread (clarification_answer target_thread_id : string)
  : M string :=
  try_except
    (assistant <- get_assistant ;;
     if negb (truthy assistant) then ret no_assistant_msg
     else
       response <- requests_post (runs_url target_thread_id)
                     (clarification_payload assistant clarification_answer) ;;
       if negb (status_code response =? 200) then
         ret (failed_to_continue_msg (text response))
       else
         body <- lift (json_body response) ;;
         _ <- lift (py_getitem body "run_id") ;;
         ret (continued_msg target_thread_id))
    (fun e => ret (continue_error_msg (str_exn e))).

(** The branch [if not target_thread_id:], which takes the thread of the
    most recent session. *)
Definition continue_latest (clarification_answer : string) : M string :=
  sessions <- get_sessions ;;
  match sessions with
  | [] => ret no_session_no_thread_msg
  | (_, s) :: rest =>
      continue_on_thread clarification_answer
        (to_text (thread_id (latest_from s rest)))
  end.

(** [thread] is the optional argument [thread_id]. *)
Definition continue_research_with_clarification (clarification_answer : string)
    (thread : option string) : M string :=
  match thread with
  | Some t =>
      if String.eqb t "" then continue_latest clarification_answer
      else continue_on_thread clarification_answer t
  | None => continue_latest clarification_answer
  end.

Definition check_research_status : M string :=
  try_except
    (response <- requests_get (LANGGRAPH_API_URL ++ "/docs") ;;
     if status_code response =? 200 then ret server_ready_msg
     else ret (server_status_msg (status_code response)))
    (fun e => ret (server_down_msg (str_exn e))).

(* ------------------------------------------------------------------ *)
(** *** [async_research_mcp.py]: polling and starting *)

Definition poll_result (kind : string) (field : string) (v : json) : json :=
  JDict [("status", JStr kind); (field, v)].

(** Lines 61-79, the body of the [try] up to the sleep. *)
Definition poll_check (thread_id run_id : json) : M (option json) :=
  response <- requests_get (run_url (to_text thread_id) (to_text run_id)) ;;
  if status_code response =? 200 then
    run_data <- lift (json_body response) ;;
    run_status <- lift (py_get run_data "status" JNull) ;;
    if is_str run_status "success" then
      state_response <- requests_get (state_url (to_text thread_id)) ;;
      if status_code state_response =? 200 then
        data <- lift (json_body state_response) ;;
        ret (Some (poll_result "success" "data" data))
      else ret None
    else if is_str run_status "error" || is_str run_status "timeout"
            || is_str run_status "interrupted" then
      ret (Some (poll_result "error" "message"
                   (JStr ("Research failed with status: " ++ to_text run_status))))
    else ret None
  else ret None.

Definition poll_iteration (thread_id run_id : json) : M (option json) :=
  try_except
    (r <- poll_check thread_id run_id ;;
     match r with
     | Some d => ret (Some d)
     | None => asyncio_sleep 2 ;; ret None
     end)
    (fun e => ret (Some (poll_result "error" "message"
                           (JStr ("Polling error: " ++ str_exn e))))).

Fixpoint poll_loop (fuel : nat) (start_time max_wait : Z)
    (thread_id run_id : json) : M json :=
  match fuel with
  | O => fun w => (OutOfFuel, w)
  | S fuel' =>
      t <- time_time ;;
      if t - start_time <? max_wait then
        r <- poll_iteration thread_id run_id ;;
        match r with
        | Some d => ret d
        | None => poll_loop fuel' start_time max_wait thread_id run_id
        end
      else ret (poll_result "timeout" "message" (JStr "Research timed out"))
  end.

Definition poll_for_completion (thread_id run_id : json) (max_wait : Z) : M json :=
  start_time <- time_time ;;
  poll_loop (wait_fuel max_wait) start_time max_wait thread_id run_id.

Definition start_research (question : string) (allow_clarification : bool)
  : M string :=
  available <- server_available ;;
  if negb available then ret server_unavailable_msg
  else
    assistant <- get_assistant ;;
    if negb (truthy assistant) then ret no_assistant_msg
    else
      thread_id <- create_thread ;;
      if negb (truthy thread_id) then ret no_thread_msg
      else
        session_id <- new_session_id ;;
        try_except
          (response <- requests_post (runs_url (to_text thread_id))
                         (run_payload assistant question allow_clarification) ;;
           if negb (status_code response =? 200) then
             ret (failed_to_start_msg (text response))
           else
             body <- lift (json_body response) ;;
             run_id <- lift (py_getitem body "run_id") ;;
             t <- time_time ;;
             sessions <- get_sessions ;;
             put_sessions
               (dict_set session_id
                  {| thread_id := thread_id; run_id := run_id;
                     question := question; status := Some "running";
                     started_at := t |}
                  sessions) ;;
             ret (research_started_msg session_id))
          (fun e => ret (start_error_msg (str_exn e))).

(* ------------------------------------------------------------------ *)
(** *** [async_research_mcp.py]: the session tools *)

(** An assignment to a key of [active_sessions[session_id]]: the record
    of the registry is the one the function holds. *)
Definition update_session (session_id : string) (f : session -> session) : M unit :=
  sessions <- get_sessions ;;
  match assoc session_id sessions with
  | Some s => put_sessions (dict_set session_id (f s) sessions)
  | None => ret tt
  end.

Definition set_status (new_status : string) (s : session) : session :=
  {| thread_id := thread_id s; run_id := run_id s; question := question s;
     status := Some new_status; started_at := started_at s |}.

(** [time.sleep(d)]. *)
Definition time_sleep (d : Z) : M unit := asyncio_sleep d.

(** Lines 169-188 of [check_research_progress], inside the [try]. *)
Definition progress_of (session_id : string) (s : session) : M string :=
  response <- requests_get (run_url (to_text (thread_id s)) (to_text (run_id s))) ;;
  r <- (if status_code response =? 200 then
          run_data <- lift (json_body response) ;;
          run_status <- lift (py_get run_data "status" JNull) ;;
          if is_str run_status "success" then
            update_session session_id (set_status "completed") ;;
            ret (Some (progress_completed_msg session_id))
          else if is_str run_status "error" || is_str run_status "timeout"
                  || is_str run_status "interrupted" then
            update_session session_id (set_status "error") ;;
            ret (Some (progress_failed_msg session_id (to_text run_status)))
          else if is_str run_status "pending" || is_str run_status "running" then
            t <- time_time ;;
            ret (Some (progress_running_msg session_id
                         (str_int (t - started_at s)) (to_text run_status)))
          else ret None
        else ret None) ;;
  match r with
  | Some m => ret m
  | None => ret (progress_unknown_msg session_id)
  end.

Definition check_research_progress (session_id : string) : M string :=
  sessions <- get_sessions ;;
  match assoc session_id sessions with
  | None => ret (session_unknown_msg session_id)
  | Some s =>
      try_except (progress_of session_id s)
        (fun e => ret (progress_error_msg (str_exn e)))
  end.

(** Lines 212-256 of [get_research_results], inside the [try]. *)
Definition results_of (session_id : string) (s : session) : M string :=
  response <- requests_get (run_url (to_text (thread_id s)) (to_text (run_id s))) ;;
  early <- (if status_code response =? 200 then
              run_data <- lift (json_body response) ;;
              run_status <- lift (py_get run_data "status" JNull) ;;
              if negb (is_str run_status "success") then
                ret (Some (not_complete_msg session_id (to_text run_status)))
              else ret None
            else ret None) ;;
  match early with
  | Some m => ret m
  | None =>
      state_response <- requests_get (state_url (to_text (thread_id s))) ;;
      if status_code state_response =? 200 then
        state <- lift (json_body state_response) ;;
        values <- lift (py_get state "values" (JDict [])) ;;
        final_report <- lift (py_get values "final_report" JNull) ;;
        if truthy final_report then
          sessions <- get_sessions ;;
          put_sessions (dict_del session_id sessions) ;;
          ret (results_report_msg (to_text final_report))
        else
          c <- lift (clarification_of values) ;;
          match c with
          | Some content =>
              ret (results_clarification_msg session_id (to_text content))
          | None => ret (results_none_msg session_id)
          end
      else ret (results_unavailable_msg session_id)
  end.

Definition get_research_results (session_id : string) : M string :=
  sessions <- get_sessions ;;
  match assoc session_id sessions with
  | None => ret (session_not_found_msg session_id)
  | Some s =>
      try_except (results_of session_id s)
        (fun e => ret (results_error_msg (str_exn e)))
  end.

Definition continue_research (session_id clarification_answer : string) : M string :=
  sessions <- get_sessions ;;
  match assoc session_id sessions with
  | None => ret (session_not_found_msg session_id)
  | Some s =>
      try_except
        (assistant <- get_assistant ;;
         if negb (truthy assistant) then ret no_assistant_msg
         else
           response <- requests_post (runs_url (to_text (thread_id s)))
                         (clarification_payload assistant clarification_answer) ;;
           if negb (status_code response =? 200) then
             ret (failed_to_continue_msg (text response))
           else
             body <- lift (json_body response) ;;
             new_run <- lift (py_getitem body "run_id") ;;
             t <- time_time ;;
             update_session session_id
               (fun old =>
                  {| thread_id := thread_id old; run_id := new_run;
                     question := question old; status := Some "running";
                     started_at := t |}) ;;
             ret (continued_session_msg session_id))
        (fun e => ret (continue_error_msg (str_exn e)))
  end.

(** [session['status']]: a record without the key raises. *)
Definition status_text (s : session) : res string :=
  match status s with
  | Some t => Ok t
  | None => Err (KeyError "'status'")
  end.

(** The [for] loop of [list_active_sessions] in [async_research_mcp.py]. *)
Fixpoint async_render_sessions (items : dict session) (result : string) : M string :=
  match items with
  | [] => ret result
  | (session_id, s) :: rest =>
      t <- time_time ;;
      session_status <- lift (status_text s) ;;
      async_render_sessions rest
        (result ++ async_session_entry session_id session_status
                     (str_int (t - started_at s)) (take_chars 60 (question s)))
  end.

(** [list_active_sessions] of [async_research_mcp.py]. *)
Definition async_list_active_sessions : M string :=
  sessions <- get_sessions ;;
  match sessions with
  | [] => ret no_sessions_msg
  | _ :: _ => async_render_sessions sessions sessions_header
  end.

Definition get_current_thread_info : M string := async_list_active_sessions.

(** One pass of the polling loops of [research_question] and
    [continue_research_with_clarification] in [async_research_mcp.py]. *)
Definition progress_pass (session_id : string) : M (option string) :=
  progress <- check_research_progress session_id ;;
  if contains "✅ Research completed" progress then
    r <- get_research_results session_id ;;
    ret (Some r)
  else if contains "❌" progress then ret (Some progress)
  else time_sleep 2 ;; ret None.

Fixpoint progress_loop (fuel : nat) (start_time timeout : Z) (session_id : string)
    (late : string) : M string :=
  match fuel with
  | O => fun w => (OutOfFuel, w)
  | S fuel' =>
      t <- time_time ;;
      if t - start_time <? timeout then
        r <- progress_pass session_id ;;
        match r with
        | Some m => ret m
        | None => progress_loop fuel' start_time timeout session_id late
        end
      else ret late
  end.

(** The loop with its [start_time] and the hard-coded [timeout = 720]. *)
Definition await_progress (session_id late : string) : M string :=
  start_time <- time_time ;;
  progress_loop (wait_fuel 720) start_time 720 session_id late.

(** [research_question] of [async_research_mcp.py]. *)
Definition async_research_question (question : string) (allow_clarification : bool)
  : M string :=
  start_result <- start_research question allow_clarification ;;
  if contains "❌" start_result then ret start_result
  else
    match session_id_of start_result with
    | Err _ => ret no_session_id_msg
    | Ok session_id => await_progress session_id (taking_longer_msg session_id)
    end.

(** The [timeout] argument is not passed on. *)
Definition research_question_sync (question : string) (allow_clarification : bool)
    (timeout : Z) : M string :=
  async_research_question question allow_clarification.

(** [max(active_sessions.keys(), key=lambda x: active_sessions[x]["started_at"])]:
    the first key, in insertion order, with the greatest start time. *)
Fixpoint latest_key_from (best : string * session) (rest : dict session) : string :=
  match rest with
  | [] => fst best
  | (k, s) :: rest' =>
      latest_key_from
        (if started_at (snd best) <? started_at s then (k, s) else best) rest'
  end.

(** [continue_research_with_clarification] of [async_research_mcp.py]. *)
Definition async_continue_research_with_clarification
    (clarification_answer : string) : M string :=
  sessions <- get_sessions ;;
  match sessions with
  | [] => ret no_sessions_to_continue_msg
  | first :: rest =>
      let latest_session_id := latest_key_from first rest in
      continue_result <- continue_research latest_session_id clarification_answer ;;
      if contains "❌" continue_result then ret continue_result
      else await_progress latest_session_id (still_running_msg latest_session_id)
  end.

(* ------------------------------------------------------------------ *)
(** *** Requests and answers the properties speak of *)

(** The status fetch of the wait. *)
Definition status_fetch (thread_id run_id : json) : request :=
  GET (run_url (to_text thread_id) (to_text run_id)).

(** The request [q], issued in world [w], is answered with code 200 and
    the JSON document [v]. *)
Definition fetch_yields (w : world) (q : request) (v : json) : Prop :=
  exists resp,
    answer (remote (now w) (log w) q) = Ok resp
    /\ status_code resp = 200 /\ json_body resp = Ok v.

End Server.

(* ================================================================== *)
(** ** Vocabulary of the properties *)

(** The ends of [wait_for_research_completion], one per [return]. *)
Inductive wait_outcome : Type :=
| Report (final_report : string)
| Clarification (content : string)
| NoResults
| Failed (run_status : string)
| PollError (diagnostic : string)
| TimedOut (timeout : Z).

Definition render_wait (thread : string) (o : wait_outcome) : string :=
  match o with
  | Report r => report_msg r
  | Clarification c => wait_clarification_msg c thread
  | NoResults => wait_no_results_msg thread
  | Failed s => wait_failed_msg s thread
  | PollError e => wait_error_msg e thread
  | TimedOut timeout => wait_timed_out_msg timeout thread
  end.

Definition is_report (o : wait_outcome) : bool :=
  match o with
  | Report _ => true
  | _ => false
  end.

(** The [return] statement an outcome comes from. *)
Definition wait_kind (o : wait_outcome) : nat :=
  match o with
  | Report _ => 0
  | Clarification _ => 1
  | NoResults => 2
  | Failed _ => 3
  | PollError _ => 4
  | TimedOut _ => 5
  end.

(** The ends of [get_research_by_thread_id], one per [return]. *)
Inductive thread_outcome : Type :=
| ThreadReport (final_report : string)
| ThreadClarification (content : string)
| InProgress
| ThreadNoResults
| NoAccess
| RetrieveError (diagnostic : string).

Definition render_thread (thread : string) (o : thread_outcome) : string :=
  match o with
  | ThreadReport r => report_msg r
  | ThreadClarification c => thread_clarification_msg c thread
  | InProgress => in_progress_msg thread
  | ThreadNoResults => thread_no_results_msg thread
  | NoAccess => no_access_msg thread
  | RetrieveError e => retrieve_error_msg e
  end.

Definition thread_kind (o : thread_outcome) : nat :=
  match o with
  | ThreadReport _ => 0
  | ThreadClarification _ => 1
  | InProgress => 2
  | ThreadNoResults => 3
  | NoAccess => 4
  | RetrieveError _ => 5
  end.

(** The thread status [get_research_by_thread_id] reads is [busy]. *)
Definition thread_busy (state : json) : bool :=
  match py_get state "status" (JStr "unknown") with
  | Ok st => is_str st "busy"
  | Err _ => false
  end.

(** The ways [research_question] and [start_research] end before a
    session is stored, one per [return]. *)
Inductive start_failure : Type :=
| ServerUnavailable
| NoAssistant
| NoThread
| SubmissionRejected (response_text : string)
| SubmissionRaised (diagnostic thread : string).

(** The text in [async_research_mcp_final.py]. *)
Definition render_failure (f : start_failure) : string :=
  match f with
  | ServerUnavailable => server_unavailable_msg
  | NoAssistant => no_assistant_msg
  | NoThread => no_thread_msg
  | SubmissionRejected t => failed_to_start_msg t
  | SubmissionRaised e thread => research_error_msg e thread
  end.

(** The text in [async_research_mcp.py], which leaves the thread out. *)
Definition render_start_failure (f : start_failure) : string :=
  match f with
  | ServerUnavailable => server_unavailable_msg
  | NoAssistant => no_assistant_msg
  | NoThread => no_thread_msg
  | SubmissionRejected t => failed_to_start_msg t
  | SubmissionRaised e _ => start_error_msg e
  end.

(** A terminal run status: [success], or one of the three failures. *)
Definition terminal_status (s : json) : bool :=
  is_str s "success" || is_str s "error" || is_str s "timeout"
  || is_str s "interrupted".

(** The run status a status fetch yields, when it yields one: the
    response has code 200 and a JSON object for a body. *)
Definition status_of (a : res response) : res json :=
  res_bind a (fun resp =>
  res_bind (json_body resp) (fun run_data => py_get run_data "status" JNull)).

(** The fetch is answered, and not with a terminal status: either the
    HTTP code is not 200, or the body is an object whose status is not
    terminal. *)
Definition pending (a : res response) : bool :=
  match a with
  | Ok resp =>
      if status_code resp =? 200 then
        match status_of a with
        | Ok s => negb (terminal_status s)
        | Err _ => false
        end
      else true
  | Err _ => false
  end.

(** The fetch yields a terminal status. *)
Definition yields_terminal (a : res response) : bool :=
  match a with
  | Ok resp =>
      (status_code resp =? 200)
      && match status_of a with
         | Ok s => terminal_status s
         | Err _ => false
         end
  | Err _ => false
  end.

(** The final report of a state snapshot, as both extractors read it. *)
Definition final_report_of (state : json) : res json :=
  res_bind (py_get state "values" (JDict [])) (fun values =>
  py_get values "final_report" JNull).

(** The heuristic of the specification on a text. *)
Definition looks_like_question (t : string) : bool :=
  negb (String.eqb t "")
  && (contains "?" t || contains "clarify" (lower t) || contains "specify" (lower t)).

(** The number of requests a wait can still issue when [d] time units
    are left: two per pass, one pass per two time units. *)
Definition request_budget (d : Z) : nat := (2 * Z.to_nat ((d + 1) / 2))%nat.

(** The world after a status fetch that was answered [a] and a sleep. *)
Definition after_retry (w : world) (q : request) (r : reply) : world :=
  {| now := now w + Z.of_N (latency r) + 2;
     log := (q, answer r) :: log w;
     active_sessions := active_sessions w;
     assistant_id := assistant_id w;
     uuids_drawn := uuids_drawn w |}.

(** The world after a status fetch alone. *)
Definition after_fetch (w : world) (q : request) (r : reply) : world :=
  {| now := now w + Z.of_N (latency r);
     log := (q, answer r) :: log w;
     active_sessions := active_sessions w;
     assistant_id := assistant_id w;
     uuids_drawn := uuids_drawn w |}.

(** A property of the world that a computation preserves. *)
Definition preserves {A} (P : world -> Prop) (m : M A) : Prop :=
  forall w, P w -> P (snd (m w)).

(** The three properties followed through the servers: the value of the
    assistant cache, the content of the registry, and the transcript as
    an extension of a given one. *)
Definition cache_is (a : json) (w : world) : Prop := assistant_id w = a.
Definition registry_is (d : dict session) (w : world) : Prop := active_sessions w = d.
Definition log_extends (l : transcript) (w : world) : Prop :=
  exists newer, log w = (newer ++ l)%list.

(** A step that is one of the primitives. *)

(** The run status a status fetch shows the session tools: the code is
    200, the body is an object and its status is a string. *)
Definition run_status_seen (a : res response) : option string :=
  match a with
  | Ok resp =>
      if status_code resp =? 200 then
        match status_of a with
        | Ok (JStr t) => Some t
        | _ => None
        end
      else None
  | Err _ => None
  end.

Definition is_failure_status (t : string) : bool :=
  String.eqb t "error" || String.eqb t "timeout" || String.eqb t "interrupted".

(** The registry after a progress check of the session [s] stored under
    [session_id], by the run status the check has seen. *)
Definition progress_effect (seen : option string) (session_id : string)
    (s : session) (d : dict session) : dict session :=
  match seen with
  | Some t =>
      if String.eqb t "success" then dict_set session_id (set_status "completed" s) d
      else if is_failure_status t then dict_set session_id (set_status "error" s) d
      else d
  | None => d
  end.

(** The text of a progress check, by what the status fetch was answered. *)
Definition progress_text (py_str : json -> string) (session_id : string)
    (s : session) (t : Z) (a : res response) : string :=
  match a with
  | Err e => progress_error_msg (str_exn e)
  | Ok resp =>
      if status_code resp =? 200 then
        match status_of a with
        | Err e => progress_error_msg (str_exn e)
        | Ok st =>
            if is_str st "success" then progress_completed_msg session_id
            else if is_str st "error" || is_str st "timeout"
                    || is_str st "interrupted" then
              progress_failed_msg session_id (to_text py_str st)
            else if is_str st "pending" || is_str st "running" then
              progress_running_msg session_id (str_int (t - started_at s))
                (to_text py_str st)
            else progress_unknown_msg session_id
        end
      else progress_unknown_msg session_id
  end.

(** The ends of [get_research_results] for a stored session, one per
    [return]. *)
Inductive results_outcome : Type :=
| NotComplete (run_status : string)
| ResultsReport (final_report : string)
| ResultsClarification (content : string)
| ResultsNone
| ResultsUnavailable
| ResultsError (diagnostic : string).

Definition render_results (session_id : string) (o : results_outcome) : string :=
  match o with
  | NotComplete t => not_complete_msg session_id t
  | ResultsReport r => results_report_msg r
  | ResultsClarification c => results_clarification_msg session_id c
  | ResultsNone => results_none_msg session_id
  | ResultsUnavailable => results_unavailable_msg session_id
  | ResultsError e => results_error_msg e
  end.

Definition is_results_report (o : results_outcome) : bool :=
  match o with
  | ResultsReport _ => true
  | _ => false
  end.

(** [get_research_results] goes on to the thread state: the status
    fetch was answered, and either not with code 200 or with the status
    [success]. *)
Definition results_gate (a : res response) : bool :=
  match a with
  | Ok resp =>
      if status_code resp =? 200 then
        match status_of a with
        | Ok st => is_str st "success"
        | Err _ => false
        end
      else true
  | Err _ => false
  end.

(** The liveness probe of the tools. *)
Definition docs_request : request := GET (LANGGRAPH_API_URL ++ "/docs").

(** What [poll_for_completion] returns before its deadline: [success]
    with the body of the state fetch that was answered last, with code
    200; or [error], for a failed run or for an exception. *)
Definition poll_classified (thread : string) (l : transcript) (d : json) : Prop :=
  (exists resp data,
      d = poll_result "success" "data" data
      /\ head l = Some (GET (state_url thread), Ok resp)
      /\ status_code resp = 200 /\ json_body resp = Ok data)
  \/ (exists t, is_failure_status t = true
        /\ d = poll_result "error" "message"
                 (JStr ("Research failed with status: " ++ t)))
  \/ (exists e, d = poll_result "error" "message"
                      (JStr ("Polling error: " ++ str_exn e))).

(** The record has a status, one of the three the session tools of
    [async_research_mcp.py] write. *)
Definition known_status (s : session) : bool :=
  match status s with
  | Some t => String.eqb t "running" || String.eqb t "completed" || String.eqb t "error"
  | None => false
  end.

(** Every record of the registry has such a status. *)
Definition statuses_known (w : world) : Prop :=
  forallb (fun kv => known_status (snd kv)) (active_sessions w) = true.

(** A character of a UUID in text form, or of a decimal number: a digit,
    a lower-case hexadecimal letter or a dash. *)
Definition uuid_char (c : ascii) : bool :=
  let n := nat_of_ascii c in
  ((48 <=? n) && (n <=? 57) || (97 <=? n) && (n <=? 102) || (n =? 45))%nat.

Fixpoint uuid_text (s : string) : bool :=
  match s with
  | EmptyString => true
  | String c s' => uuid_char c && uuid_text s'
  end.

(** The number of UUIDs drawn so far. *)
Definition draws_are (n : nat) (w : world) : Prop := uuids_drawn w = n.

(* ================================================================== *)
(** ** Mock engines and states for the concrete runs *)

Definition ok_json (body : json) : reply :=
  {| latency := 0;
     answer := Ok {| status_code := 200; text := ""; json_body := Ok body |} |}.

Definition http_error (code : Z) (body_text : string) : reply :=
  {| latency := 0;
     answer :=
       Ok {| status_code := code; text := body_text;
             json_body := Err (JSONDecodeError "Expecting value: line 1 column 1 (char 0)") |} |}.

(** An engine with one assistant [a1], which creates the thread [t1] and
    the run [r1]; at time [t] the run has the status [run_status t] and
    the thread the state [state t]. *)
Definition mock_engine (run_status : Z -> json) (state : Z -> json) : engine :=
  fun t _ q =>
    match q with
    | GET url =>
        if String.eqb url "http://localhost:2024/docs" then
          http_error 200 "<html></html>"
        else if String.eqb url "http://localhost:2024/threads/t1/runs/r1" then
          ok_json (JDict [("status", run_status t)])
        else if String.eqb url "http://localhost:2024/threads/t1/state" then
          ok_json (state t)
        else http_error 404 "Not Found"
    | POST url _ =>
        if String.eqb url "http://localhost:2024/assistants/search" then
          ok_json (JList [JDict [("assistant_id", JStr "a1")]])
        else if String.eqb url "http://localhost:2024/threads" then
          ok_json (JDict [("thread_id", JStr "t1")])
        else if String.eqb url "http://localhost:2024/threads/t1/runs" then
          ok_json (JDict [("run_id", JStr "r1")])
        else http_error 404 "Not Found"
    end.

(** The same engine, except that it rejects every run submission. *)
Definition rejecting_engine : engine :=
  fun t l q =>
    match q with
    | POST url _ =>
        if String.eqb url "http://localhost:2024/threads/t1/runs" then
          http_error 500 "Internal Server Error"
        else mock_engine (fun _ => JStr "pending") (fun _ => JDict []) t l q
    | GET _ => mock_engine (fun _ => JStr "pending") (fun _ => JDict []) t l q
    end.

(** The same engine, except that every status fetch is answered 503. *)
Definition unavailable_engine : engine :=
  fun t l q =>
    match q with
    | GET url =>
        if String.eqb url "http://localhost:2024/threads/t1/runs/r1" then
          http_error 503 "Service Unavailable"
        else mock_engine (fun _ => JStr "pending") (fun _ => JDict []) t l q
    | POST _ _ => mock_engine (fun _ => JStr "pending") (fun _ => JDict []) t l q
    end.

(** A stand-in for [str] on values that are not strings. *)
Definition str_of_scalar (v : json) : string :=
  match v with
  | JNull => "None"
  | JBool true => "True"
  | JBool false => "False"
  | JInt n => str_int n
  | _ => "<object>"
  end.

Definition fixed_uuid (n : nat) : string := "01234567-89ab-4cde-8f01-23456789abcd".

(** A final report next to a last message that ends in a question mark. *)
Definition report_and_question : json :=
  JDict [("values",
          JDict [("final_report", JStr "Paris.");
                 ("messages",
                  JList [JDict [("role", JStr "user");
                                ("content", JStr "What is the capital of France?")];
                         JDict [("role", JStr "assistant");
                                ("content", JStr "Anything else?")]])])].

(** No final report, and a last message that asks for clarification. *)
Definition asks_region : json :=
  JDict [("values",
          JDict [("messages",
                  JList [JDict [("role", JStr "assistant");
                                ("content",
                                 JStr "Could you clarify the target region?")]])])].

(** No final report, a last message that asks nothing, a busy thread. *)
Definition busy_thread : json :=
  JDict [("values",
          JDict [("messages",
                  JList [JDict [("role", JStr "assistant");
                                ("content", JStr "Working on it.")]])]);
         ("status", JStr "busy")].

(** A run that is [running] before time 4 and [success] from then on. *)
Definition late_status (t : Z) : json :=
  if t <? 4 then JStr "running" else JStr "success".

(** The run has succeeded and the state holds a report. *)
Definition success_engine : engine :=
  mock_engine (fun _ => JStr "success") (fun _ => report_and_question).

(** The run never leaves [running]. *)
Definition running_engine : engine :=
  mock_engine (fun _ => JStr "running") (fun _ => JDict []).

(** The run succeeds at time 4; the state holds a report. *)
Definition late_engine : engine :=
  mock_engine late_status (fun _ => report_and_question).

(** The run has succeeded and the agent asks for clarification. *)
Definition clarifying_engine : engine :=
  mock_engine (fun _ => JStr "success") (fun _ => asks_region).

(** The thread is busy and has nothing to show yet. *)
Definition busy_engine : engine :=
  mock_engine (fun _ => JStr "running") (fun _ => busy_thread).

(** The status fetch is answered 503; the run has succeeded and the state
    holds a report. *)
Definition flaky_status_engine : engine :=
  fun t l q =>
    match q with
    | GET url =>
        if String.eqb url "http://localhost:2024/threads/t1/runs/r1" then
          http_error 503 "Service Unavailable"
        else success_engine t l q
    | POST _ _ => success_engine t l q
    end.

(** The run has failed. *)
Definition failed_engine : engine :=
  mock_engine (fun _ => JStr "error") (fun _ => JDict []).

(** The run has succeeded and the state fetch is answered 503. *)
Definition refusing_state_engine : engine :=
  fun t l q =>
    match q with
    | GET url =>
        if String.eqb url "http://localhost:2024/threads/t1/state" then
          http_error 503 "Service Unavailable"
        else success_engine t l q
    | POST _ _ => success_engine t l q
    end.

(** [s * n]. *)
Fixpoint repeat_text (n : nat) (s : string) : string :=
  match n with
  | O => ""
  | S n' => s ++ repeat_text n' s
  end.

(** A session whose question has 81 characters of two bytes each. *)
Definition accented_session : session :=
  {| thread_id := JStr "t1"; run_id := JStr "r1"; question := repeat_text 81 "é";
     status := Some "running"; started_at := 0 |}.

Definition first_session : session :=
  {| thread_id := JStr "t0"; run_id := JStr "r0"; question := "Who wrote Faust?";
     status := Some "completed"; started_at := 1 |}.

Definition second_session : session :=
  {| thread_id := JStr "t1"; run_id := JStr "r1";
     question := "What is the capital of France?";
     status := Some "running"; started_at := 5 |}.

(** A world at time 10 with the assistant resolved and two sessions, of
    which the second started later. *)
Definition two_sessions : world :=
  {| now := 10; log := [];
     active_sessions := [("0a1b2c3d", first_session); ("01234567", second_session)];
     assistant_id := JStr "a1"; uuids_drawn := 2 |}.

(* ================================================================== *)
(** ** Properties *)

Ltac unfold_m :=
  unfold bind, ret, lift, try_except, time_time, asyncio_sleep, get_sessions,
    put_sessions, get_assistant_id, put_assistant_id, requests_get,
    requests_post, perform, new_session_id, with_sessions, with_assistant in *.

Ltac world_simpl :=
  cbn [fst snd now log active_sessions assistant_id uuids_drawn
       status_code text json_body latency answer] in *.

(** Case analysis on the innermost scrutinee of the goal. *)
Ltac case_step :=
  match goal with
  | |- context [match ?x with _ => _ end] =>
      lazymatch x with
      | context [match _ with _ => _ end] => fail
      | _ => destruct x eqn:?
      end
  end.

Ltac run_cases := repeat (case_step; world_simpl).

Ltac clean_eqs :=
  repeat match goal with
         | H : (_, _) = (_, _) |- _ => inversion H; clear H; subst
         | H : Returns _ = Returns _ |- _ => inversion H; clear H; subst
         | H : Some _ = Some _ |- _ => inversion H; clear H; subst
         | H : Raises _ = Returns _ |- _ => discriminate H
         | H : Returns _ = Raises _ |- _ => discriminate H
         | H : OutOfFuel = _ |- _ => discriminate H
         | H : _ = OutOfFuel |- _ => discriminate H
         end; world_simpl.

Lemma dict_del_absent {A} (k : string) (d : dict A) :
  dict_in k d = false -> dict_del k d = d.
Proof.
  induction d as [|[k' v] d IH]; simpl; intros H; [reflexivity|].
  apply orb_false_iff in H as [H1 H2]. rewrite H1, IH by assumption.
  reflexivity.
Qed.

Lemma assoc_dict_set_same {A} (k : string) (v : A) (d : dict A) :
  assoc k (dict_set k v d) = Some v.
Proof.
  induction d as [|[k' v'] d IH]; simpl.
  - rewrite String.eqb_refl. reflexivity.
  - destruct (String.eqb k k') eqn:E; simpl; rewrite E; auto.
Qed.

Lemma assoc_dict_in {A} (k : string) (d : dict A) :
  dict_in k d = true <-> exists v, assoc k d = Some v.
Proof.
  induction d as [|[k' v'] d IH]; simpl.
  - split; [discriminate | intros [v H]; discriminate].
  - destruct (String.eqb k k'); simpl; [split; eauto | exact IH].
Qed.

(* ------------------------------------------------------------------ *)
(** *** Properties of the world that a computation preserves *)

Lemma preserves_ret {A} (P : world -> Prop) (a : A) : preserves P (ret a).
Proof. intros w H. exact H. Qed.

Lemma preserves_lift {A} (P : world -> Prop) (r : res A) : preserves P (lift r).
Proof. intros w H. unfold lift. destruct r; exact H. Qed.

Lemma preserves_bind {A B} (P : world -> Prop) (m : M A) (k : A -> M B) :
  preserves P m -> (forall a, preserves P (k a)) -> preserves P (bind m k).
Proof.
  intros Hm Hk w H. unfold bind. specialize (Hm w H).
  destruct (m w) as [[a|e|] w1]; cbn [snd] in *; try assumption.
  apply Hk. assumption.
Qed.

Lemma preserves_try {A} (P : world -> Prop) (m : M A) (h : exn -> M A) :
  preserves P m -> (forall e, preserves P (h e)) -> preserves P (try_except m h).
Proof.
  intros Hm Hh w H. unfold try_except. specialize (Hm w H).
  destruct (m w) as [[a|e|] w1]; cbn [snd] in *; try assumption.
  apply Hh. assumption.
Qed.

Lemma preserves_out_of_fuel {A} (P : world -> Prop) :
  preserves P (fun w => (@OutOfFuel A, w)).
Proof. intros w H. exact H. Qed.

Create HintDb frame.

Lemma log_extends_cons (l : transcript) (x : request * res response)
    (entries : transcript) :
  (exists newer, entries = (newer ++ l)%list) ->
  exists newer, x :: entries = (newer ++ l)%list.
Proof. intros [newer ->]. exists (x :: newer). reflexivity. Qed.

Ltac frame_prim :=
  unfold preserves, cache_is, registry_is, log_extends; intros; unfold_m;
  world_simpl; first [assumption | apply log_extends_cons; assumption].

Ltac frame_step :=
  lazymatch goal with
  | |- preserves _ (bind _ _) => apply preserves_bind; [|intros ?]
  | |- preserves _ (try_except _ _) => apply preserves_try; [|intros ?]
  | |- preserves _ (ret _) => apply preserves_ret
  | |- preserves _ (lift _) => apply preserves_lift
  | |- preserves _ (fun w => (OutOfFuel, w)) => apply preserves_out_of_fuel
  | |- preserves _ (if ?b then _ else _) => destruct b
  | |- preserves _ (match ?x with _ => _ end) => destruct x
  | |- preserves _ _ => first [assumption | solve [auto with frame] | frame_prim]
  end.

Ltac frame := repeat frame_step.

Section ServerProperties.

Variable remote : engine.
Variable py_str : json -> string.
Variable uuid4 : nat -> string.

(* ------------------------------------------------------------------ *)
(** *** One pass of the wait *)

(** What [deliver_state] does to the registry, by the way it ends. *)
Lemma deliver_state_spec (state thread_id : json) (session_id : string) (w : world) :
  let out := deliver_state py_str state thread_id session_id w in
  now (snd out) = now w /\ log (snd out) = log w /\
  assistant_id (snd out) = assistant_id w /\
  uuids_drawn (snd out) = uuids_drawn w /\
  ((exists e, fst out = Raises e /\ active_sessions (snd out) = active_sessions w)
   \/ exists o, fst out = Returns (render_wait (to_text py_str thread_id) o)
        /\ (o = NoResults \/ (exists c, o = Clarification c) \/ exists r, o = Report r)
        /\ active_sessions (snd out)
           = if is_report o then dict_del session_id (active_sessions w)
             else active_sessions w).
Proof.
  unfold deliver_state. unfold_m. cbv zeta.
  run_cases; repeat split; try reflexivity.
  all: try (left; eexists; split; reflexivity).
  - right. eexists (Report _). repeat split; eauto.
  - right. eexists (Report _). repeat split; eauto.
    symmetry. apply dict_del_absent. assumption.
  - right. eexists (Clarification _). repeat split; eauto.
  - right. exists NoResults. repeat split; eauto.
Qed.

Ltac use_deliver_state :=
  match goal with
  | H : deliver_state ?p ?s ?t ?sid ?w = _ |- _ =>
      let HS := fresh "HS" in
      pose proof (deliver_state_spec s t sid w) as HS;
      cbv zeta in HS; rewrite H in HS; world_simpl;
      destruct HS as (? & ? & ? & ? & [(? & ? & ?) | (? & ? & ? & ?)]);
      clear H
  end.

(** One pass through the loop body: it issues at most two requests, never
    raises, sleeps two time units when it does not return, and touches the
    registry only to delete the session of a delivered report. *)
Lemma wait_iteration_spec (thread_id run_id : json) (session_id : string) (w : world) :
  let out := wait_iteration remote py_str thread_id run_id session_id w in
  now w <= now (snd out) /\
  (length (log (snd out)) <= length (log w) + 2)%nat /\
  assistant_id (snd out) = assistant_id w /\
  uuids_drawn (snd out) = uuids_drawn w /\
  match fst out with
  | Returns None =>
      now w + 2 <= now (snd out) /\ active_sessions (snd out) = active_sessions w
  | Returns (Some m) =>
      exists o, m = render_wait (to_text py_str thread_id) o
        /\ (forall t, o <> TimedOut t)
        /\ active_sessions (snd out)
           = if is_report o then dict_del session_id (active_sessions w)
             else active_sessions w
  | _ => False
  end.
Proof.
  unfold wait_iteration, poll_once. unfold_m. cbv zeta.
  run_cases; try use_deliver_state; subst; world_simpl; clean_eqs.
  all: repeat match goal with
              | H : now ?w = _ |- context [now ?w] => rewrite H
              | H : log ?w = _ |- context [log ?w] => rewrite H
              | H : assistant_id ?w = _ |- context [assistant_id ?w] => rewrite H
              | H : uuids_drawn ?w = _ |- context [uuids_drawn ?w] => rewrite H
              end.
  all: repeat split; try lia; try (simpl; lia); try congruence.
  all: try solve [eexists (PollError _); split;
                  [reflexivity
                  | split; [intros t Ht; discriminate Ht
                           | first [reflexivity | assumption]]]].
  all: try solve [eexists (Failed _); split;
                  [reflexivity | split; [intros t Ht; discriminate Ht | reflexivity]]].
  all: match goal with
       | Hk : ?o = NoResults \/ _ |- _ =>
           exists o; split; [reflexivity | split; [ | assumption]];
           intros t Ht; subst o;
           destruct Hk as [Hk | [[c Hk] | [r Hk]]]; discriminate Hk
       end.
Qed.

Lemma wait_loop_unfold (fuel : nat) (start_time timeout : Z)
    (thread_id run_id : json) (session_id : string) (w : world) :
  wait_loop remote py_str (S fuel) start_time timeout thread_id run_id session_id w
  = if now w - start_time <? timeout then
      match wait_iteration remote py_str thread_id run_id session_id w with
      | (Returns (Some m), w1) => (Returns m, w1)
      | (Returns None, w1) =>
          wait_loop remote py_str fuel start_time timeout thread_id run_id
            session_id w1
      | (Raises e, w1) => (Raises e, w1)
      | (OutOfFuel, w1) => (OutOfFuel, w1)
      end
    else (Returns (wait_timed_out_msg timeout (to_text py_str thread_id)), w).
Proof.
  cbn [wait_loop]. unfold bind, time_time, ret.
  destruct (now w - start_time <? timeout); [|reflexivity].
  destruct (wait_iteration remote py_str thread_id run_id session_id w)
    as [[[m|]|e|] w1]; reflexivity.
Qed.

(** The loop returns with enough fuel, from any pass on. *)
Lemma wait_loop_spec (start_time timeout : Z) (thread_id run_id : json)
    (session_id : string) (fuel : nat) :
  forall w : world,
  (Z.to_nat (start_time + timeout - now w) < fuel)%nat ->
  let out := wait_loop remote py_str fuel start_time timeout thread_id run_id
               session_id w in
  exists o,
    fst out = Returns (render_wait (to_text py_str thread_id) o)
    /\ (forall t, o = TimedOut t -> t = timeout)
    /\ active_sessions (snd out)
       = (if is_report o then dict_del session_id (active_sessions w)
          else active_sessions w)
    /\ assistant_id (snd out) = assistant_id w
    /\ uuids_drawn (snd out) = uuids_drawn w
    /\ (length (log (snd out))
        <= length (log w) + request_budget (start_time + timeout - now w))%nat.
Proof.
  induction fuel as [|fuel IH]; intros w Hfuel; [lia|].
  cbv zeta. rewrite wait_loop_unfold.
  destruct (now w - start_time <? timeout) eqn:Hlt.
  - apply Z.ltb_lt in Hlt.
    pose proof (wait_iteration_spec thread_id run_id session_id w) as HI.
    cbv zeta in HI.
    destruct (wait_iteration remote py_str thread_id run_id session_id w)
      as [[[m|]|e|] w1]; world_simpl;
      destruct HI as (Hnow & Hlen & Hass & Huu & HI); try contradiction.
    + destruct HI as (o & -> & Hnt & Hs).
      exists o. repeat split; auto.
      * intros t ->. exfalso. apply (Hnt t). reflexivity.
      * unfold request_budget.
        assert (1 <= (start_time + timeout - now w + 1) / 2)
          by (apply Z.div_le_lower_bound; lia).
        lia.
    + destruct HI as (Hsleep & Hs).
      destruct (IH w1) as (o & Ho & Ht & Hso & Ha & Hu & Hl); [lia|].
      exists o. repeat split; auto; try congruence.
      * rewrite Hso, Hs. reflexivity.
      * unfold request_budget in *.
        assert ((start_time + timeout - now w1 + 1) / 2 + 1
                <= (start_time + timeout - now w + 1) / 2).
        { rewrite <- Z.div_add by lia. apply Z.div_le_mono; lia. }
        assert (1 <= (start_time + timeout - now w + 1) / 2)
          by (apply Z.div_le_lower_bound; lia).
        lia.
  - world_simpl. exists (TimedOut timeout).
    repeat split; auto; try lia.
    intros t Ht. inversion Ht. reflexivity.
Qed.

(** The text of a result tells which [return] produced it. *)
Lemma render_wait_kind (th th' : string) (o o' : wait_outcome) :
  render_wait th o = render_wait th' o' -> wait_kind o = wait_kind o'.
Proof.
  destruct o, o'; intros H; try reflexivity; exfalso;
    unfold render_wait, report_msg, wait_clarification_msg, wait_no_results_msg,
      wait_failed_msg, wait_error_msg, wait_timed_out_msg in H;
    cbn [append] in H; discriminate H.
Qed.

Lemma render_wait_is_report (th th' : string) (o o' : wait_outcome) :
  render_wait th o = render_wait th' o' -> is_report o = is_report o'.
Proof.
  intros H. apply render_wait_kind in H.
  destruct o, o'; simpl in H; try discriminate H; reflexivity.
Qed.

Lemma render_thread_kind (th th' : string) (o o' : thread_outcome) :
  render_thread th o = render_thread th' o' -> thread_kind o = thread_kind o'.
Proof.
  destruct o, o'; intros H; try reflexivity; exfalso;
    unfold render_thread, report_msg, thread_clarification_msg, in_progress_msg,
      thread_no_results_msg, no_access_msg, retrieve_error_msg in H;
    cbn [append] in H; discriminate H.
Qed.

(** A fetch answered without a terminal status is followed by the sleep. *)
Lemma wait_iteration_pending (thread_id run_id : json) (session_id : string)
    (w : world) :
  let q := status_fetch py_str thread_id run_id in
  pending (answer (remote (now w) (log w) q)) = true ->
  wait_iteration remote py_str thread_id run_id session_id w
  = (Returns None, after_retry w q (remote (now w) (log w) q)).
Proof.
  intros q. subst q.
  unfold status_fetch, pending, status_of, terminal_status, after_retry.
  unfold wait_iteration, poll_once. unfold_m. cbv zeta.
  destruct (answer _) as [resp|e]; cbn [res_bind]; [|discriminate].
  destruct (status_code resp =? 200); [|reflexivity].
  destruct (json_body resp) as [d|e]; cbn [res_bind]; [|discriminate].
  destruct (py_get d "status" JNull) as [st|e]; [|discriminate].
  intros H. apply negb_true_iff in H.
  repeat (apply orb_false_iff in H; destruct H as [H ?]).
  rewrite H. cbn [orb].
  replace (is_str st "error" || is_str st "timeout" || is_str st "interrupted")
    with false.
  - reflexivity.
  - symmetry. repeat (apply orb_false_iff; split); assumption.
Qed.

(** A fetch that fails in transport or protocol ends the wait at once,
    with the diagnostic of the exception. *)
Lemma wait_iteration_failure (thread_id run_id : json) (session_id : string)
    (w : world) :
  let q := status_fetch py_str thread_id run_id in
  let r := remote (now w) (log w) q in
  pending (answer r) = false ->
  yields_terminal (answer r) = false ->
  exists e,
    wait_iteration remote py_str thread_id run_id session_id w
    = (Returns (Some (wait_error_msg (str_exn e) (to_text py_str thread_id))),
       after_fetch w q r).
Proof.
  intros q r. subst q r.
  unfold status_fetch, pending, yields_terminal, status_of, terminal_status,
    after_fetch.
  unfold wait_iteration, poll_once. unfold_m. cbv zeta.
  destruct (answer _) as [resp|e]; cbn [res_bind]; [|eauto].
  destruct (status_code resp =? 200); [|discriminate].
  destruct (json_body resp) as [d|e]; cbn [res_bind]; [|eauto].
  destruct (py_get d "status" JNull) as [st|e]; [|eauto].
  cbn [andb]. intros H1 H2. rewrite H2 in H1. discriminate H1.
Qed.

(** With enough fuel the amount of fuel does not matter. *)
Lemma wait_loop_fuel_irrelevant (start_time timeout : Z) (thread_id run_id : json)
    (session_id : string) (fuel : nat) :
  forall (fuel' : nat) (w : world),
  (Z.to_nat (start_time + timeout - now w) < fuel)%nat ->
  (Z.to_nat (start_time + timeout - now w) < fuel')%nat ->
  wait_loop remote py_str fuel start_time timeout thread_id run_id session_id w
  = wait_loop remote py_str fuel' start_time timeout thread_id run_id session_id w.
Proof.
  induction fuel as [|fuel IH]; intros fuel' w Hfuel Hfuel'; [lia|].
  destruct fuel' as [|fuel']; [lia|].
  rewrite !wait_loop_unfold.
  destruct (now w - start_time <? timeout) eqn:Hlt; [|reflexivity].
  apply Z.ltb_lt in Hlt.
  pose proof (wait_iteration_spec thread_id run_id session_id w) as HI.
  cbv zeta in HI.
  destruct (wait_iteration remote py_str thread_id run_id session_id w)
    as [[[m|]|e|] w1]; world_simpl; try reflexivity.
  destruct HI as (_ & _ & _ & _ & Hsleep & _).
  apply IH; lia.
Qed.

(** While every fetch inside the window is answered without a terminal
    status, the loop runs into the deadline. *)
Lemma wait_loop_times_out (start_time timeout : Z) (thread_id run_id : json)
    (session_id : string) :
  (forall t l, start_time <= t < start_time + timeout ->
     pending (answer (remote t l (status_fetch py_str thread_id run_id))) = true) ->
  forall (fuel : nat) (w : world),
  start_time <= now w ->
  (Z.to_nat (start_time + timeout - now w) < fuel)%nat ->
  let out := wait_loop remote py_str fuel start_time timeout thread_id run_id
               session_id w in
  fst out = Returns (wait_timed_out_msg timeout (to_text py_str thread_id))
  /\ active_sessions (snd out) = active_sessions w.
Proof.
  intros Hpend. induction fuel as [|fuel IH]; intros w Hstart Hfuel; [lia|].
  cbv zeta. rewrite wait_loop_unfold.
  destruct (now w - start_time <? timeout) eqn:Hlt; [|split; reflexivity].
  apply Z.ltb_lt in Hlt.
  rewrite wait_iteration_pending by (apply Hpend; lia).
  destruct (IH (after_retry w (status_fetch py_str thread_id run_id)
                  (remote (now w) (log w) (status_fetch py_str thread_id run_id))))
    as [Hout Hs]; unfold after_retry in *; world_simpl; try lia.
  split; assumption.
Qed.

(* ------------------------------------------------------------------ *)
(** *** The polling loop of [async_research_mcp.py] *)

Lemma poll_loop_unfold (fuel : nat) (start_time max_wait : Z)
    (thread_id run_id : json) (w : world) :
  poll_loop remote py_str (S fuel) start_time max_wait thread_id run_id w
  = if now w - start_time <? max_wait then
      match poll_iteration remote py_str thread_id run_id w with
      | (Returns (Some d), w1) => (Returns d, w1)
      | (Returns None, w1) =>
          poll_loop remote py_str fuel start_time max_wait thread_id run_id w1
      | (Raises e, w1) => (Raises e, w1)
      | (OutOfFuel, w1) => (OutOfFuel, w1)
      end
    else (Returns (poll_result "timeout" "message" (JStr "Research timed out")), w).
Proof.
  cbn [poll_loop]. unfold bind, time_time, ret.
  destruct (now w - start_time <? max_wait); [|reflexivity].
  destruct (poll_iteration remote py_str thread_id run_id w)
    as [[[m|]|e|] w1]; reflexivity.
Qed.

Lemma poll_iteration_pending (thread_id run_id : json) (w : world) :
  let q := status_fetch py_str thread_id run_id in
  pending (answer (remote (now w) (log w) q)) = true ->
  poll_iteration remote py_str thread_id run_id w
  = (Returns None, after_retry w q (remote (now w) (log w) q)).
Proof.
  intros q. subst q.
  unfold status_fetch, pending, status_of, terminal_status, after_retry.
  unfold poll_iteration, poll_check. unfold_m. cbv zeta.
  destruct (answer _) as [resp|e]; cbn [res_bind]; [|discriminate].
  destruct (status_code resp =? 200); [|reflexivity].
  destruct (json_body resp) as [d|e]; cbn [res_bind]; [|discriminate].
  destruct (py_get d "status" JNull) as [st|e]; [|discriminate].
  intros H. apply negb_true_iff in H.
  repeat (apply orb_false_iff in H; destruct H as [H ?]).
  rewrite H. cbn [orb].
  replace (is_str st "error" || is_str st "timeout" || is_str st "interrupted")
    with false.
  - reflexivity.
  - symmetry. repeat (apply orb_false_iff; split); assumption.
Qed.

(** One pass of the polling loop: it never raises, and sleeps two time
    units when it does not return. *)
Lemma poll_iteration_spec (thread_id run_id : json) (w : world) :
  let out := poll_iteration remote py_str thread_id run_id w in
  active_sessions (snd out) = active_sessions w /\
  match fst out with
  | Returns None => now w + 2 <= now (snd out)
  | Returns (Some _) => True
  | _ => False
  end.
Proof.
  unfold poll_iteration, poll_check. unfold_m. cbv zeta.
  run_cases; clean_eqs; split; trivial; try discriminate; lia.
Qed.

(** The polling loop returns with enough fuel, and leaves the registry
    alone. *)
Lemma poll_loop_total (start_time max_wait : Z) (thread_id run_id : json)
    (fuel : nat) :
  forall w : world,
  (Z.to_nat (start_time + max_wait - now w) < fuel)%nat ->
  let out := poll_loop remote py_str fuel start_time max_wait thread_id run_id w in
  (exists d, fst out = Returns d)
  /\ active_sessions (snd out) = active_sessions w.
Proof.
  induction fuel as [|fuel IH]; intros w Hfuel; [lia|].
  cbv zeta. rewrite poll_loop_unfold.
  destruct (now w - start_time <? max_wait) eqn:Hlt;
    [|split; [eexists; reflexivity | reflexivity]].
  apply Z.ltb_lt in Hlt.
  pose proof (poll_iteration_spec thread_id run_id w) as HI. cbv zeta in HI.
  destruct (poll_iteration remote py_str thread_id run_id w)
    as [[[d|]|e|] w1]; world_simpl; destruct HI as [Hs HI]; try contradiction.
  - split; [eexists; reflexivity | exact Hs].
  - destruct (IH w1) as [Hd Hs1]; [lia|]. split; [exact Hd | congruence].
Qed.

Lemma poll_loop_times_out (start_time max_wait : Z) (thread_id run_id : json) :
  (forall t l, start_time <= t < start_time + max_wait ->
     pending (answer (remote t l (status_fetch py_str thread_id run_id))) = true) ->
  forall (fuel : nat) (w : world),
  start_time <= now w ->
  (Z.to_nat (start_time + max_wait - now w) < fuel)%nat ->
  let out := poll_loop remote py_str fuel start_time max_wait thread_id run_id w in
  fst out = Returns (poll_result "timeout" "message" (JStr "Research timed out"))
  /\ active_sessions (snd out) = active_sessions w.
Proof.
  intros Hpend. induction fuel as [|fuel IH]; intros w Hstart Hfuel; [lia|].
  cbv zeta. rewrite poll_loop_unfold.
  destruct (now w - start_time <? max_wait) eqn:Hlt; [|split; reflexivity].
  apply Z.ltb_lt in Hlt.
  rewrite poll_iteration_pending by (apply Hpend; lia).
  destruct (IH (after_retry w (status_fetch py_str thread_id run_id)
                  (remote (now w) (log w) (status_fetch py_str thread_id run_id))))
    as [Hout Hs]; unfold after_retry in *; world_simpl; try lia.
  split; assumption.
Qed.

(* ------------------------------------------------------------------ *)
(** *** The completion wait as a whole *)

Lemma wait_fuel_enough (timeout : Z) (w : world) :
  (Z.to_nat (now w + timeout - now w) < wait_fuel timeout)%nat.
Proof. unfold wait_fuel. replace (now w + timeout - now w) with timeout; lia. Qed.

Lemma wait_unfold (thread_id run_id : json) (session_id : string) (timeout : Z)
    (w : world) :
  wait_for_research_completion remote py_str thread_id run_id session_id timeout w
  = wait_loop remote py_str (wait_fuel timeout) (now w) timeout thread_id run_id
      session_id w.
Proof. reflexivity. Qed.

(** The wait always returns a text: the fuel of the model is never used
    up and no exception leaves the function. *)
Lemma wait_total (thread_id run_id : json) (session_id : string) (timeout : Z)
    (w : world) :
  exists m,
    fst (wait_for_research_completion remote py_str thread_id run_id session_id
           timeout w) = Returns m.
Proof.
  rewrite wait_unfold.
  destruct (wait_loop_spec (now w) timeout thread_id run_id session_id
              (wait_fuel timeout) w (wait_fuel_enough timeout w))
    as (o & Ho & _).
  eauto.
Qed.

(** The wait as a whole: how it ends, and what it does to the registry. *)
Lemma wait_spec (thread_id run_id : json) (session_id : string) (timeout : Z)
    (w : world) :
  let out := wait_for_research_completion remote py_str thread_id run_id
               session_id timeout w in
  exists o : wait_outcome,
    fst out = Returns (render_wait (to_text py_str thread_id) o)
    /\ active_sessions (snd out)
       = (if is_report o then dict_del session_id (active_sessions w)
          else active_sessions w).
Proof.
  cbv zeta. rewrite wait_unfold.
  destruct (wait_loop_spec (now w) timeout thread_id run_id session_id
              (wait_fuel timeout) w (wait_fuel_enough timeout w))
    as (o & Ho & _ & Hs & _).
  exists o. split; assumption.
Qed.

(** C2: whatever way the completion wait ends, the registry afterwards is
    the registry before with the waiting session deleted when the wait
    returns a final report, and exactly the registry before in every other
    case (clarification, no results, terminal failure, polling error,
    deadline); the text returned tells the report from the other ends. *)
Theorem session_deleted_only_on_report (thread_id run_id : json)
    (session_id : string) (timeout : Z) (w : world) :
  let out := wait_for_research_completion remote py_str thread_id run_id
               session_id timeout w in
  exists o : wait_outcome,
    fst out = Returns (render_wait (to_text py_str thread_id) o)
    /\ active_sessions (snd out)
       = (if is_report o then dict_del session_id (active_sessions w)
          else active_sessions w)
    /\ (forall th o', render_wait th o' = render_wait (to_text py_str thread_id) o ->
          is_report o' = is_report o).
Proof.
  cbv zeta.
  destruct (wait_spec thread_id run_id session_id timeout w) as (o & Ho & Hs).
  exists o. repeat split; try assumption.
  intros th o' H. exact (render_wait_is_report _ _ _ _ H).
Qed.

(** While every status fetch issued before the deadline is answered
    without a terminal run status, the completion wait of either server
    returns its timed-out result and leaves the registry as it is. *)
Lemma waits_time_out (thread_id run_id : json)
    (session_id : string) (timeout : Z) (w : world) :
  (forall t l, now w <= t < now w + timeout ->
     pending (answer (remote t l (status_fetch py_str thread_id run_id))) = true) ->
  let out := wait_for_research_completion remote py_str thread_id run_id
               session_id timeout w in
  let polled := poll_for_completion remote py_str thread_id run_id timeout w in
  fst out = Returns (render_wait (to_text py_str thread_id) (TimedOut timeout))
  /\ fst polled
     = Returns (poll_result "timeout" "message" (JStr "Research timed out"))
  /\ active_sessions (snd out) = active_sessions w
  /\ active_sessions (snd polled) = active_sessions w
  /\ forall s, assoc session_id (active_sessions w) = Some s ->
       assoc session_id (active_sessions (snd out)) = Some s
       /\ assoc session_id (active_sessions (snd polled)) = Some s.
Proof.
  intros Hpend. cbv zeta.
  destruct (wait_loop_times_out (now w) timeout thread_id run_id session_id Hpend
              (wait_fuel timeout) w (Z.le_refl _) (wait_fuel_enough timeout w))
    as [Ho Hs].
  destruct (poll_loop_times_out (now w) timeout thread_id run_id Hpend
              (wait_fuel timeout) w (Z.le_refl _) (wait_fuel_enough timeout w))
    as [Hp Hps].
  rewrite wait_unfold.
  change (poll_for_completion remote py_str thread_id run_id timeout w)
    with (poll_loop remote py_str (wait_fuel timeout) (now w) timeout thread_id
            run_id w).
  repeat split; try assumption; intros; congruence.
Qed.

(** C5: a status fetch that is answered without a terminal status (an
    HTTP error code, or a status that is not terminal) is followed by one
    sleep of two time units and nothing else; a fetch that fails in
    transport or protocol (the request raises, the body is not a JSON
    object) ends the wait at once with a diagnostic that names the thread;
    and the wait as a whole returns after at most [request_budget timeout]
    requests. *)
Theorem failed_poll_retried_or_diagnosed (thread_id run_id : json)
    (session_id : string) (timeout : Z) (w : world) :
  let q := status_fetch py_str thread_id run_id in
  let r := remote (now w) (log w) q in
  yields_terminal (answer r) = false ->
  (if pending (answer r)
   then wait_iteration remote py_str thread_id run_id session_id w
        = (Returns None, after_retry w q r)
   else exists e,
        wait_iteration remote py_str thread_id run_id session_id w
        = (Returns (Some (render_wait (to_text py_str thread_id)
                            (PollError (str_exn e)))),
           after_fetch w q r))
  /\ let out := wait_for_research_completion remote py_str thread_id run_id
                  session_id timeout w in
     (exists m, fst out = Returns m)
     /\ (length (log (snd out)) <= length (log w) + request_budget timeout)%nat.
Proof.
  cbv zeta. intros Hterm. split.
  - destruct (pending _) eqn:Hp.
    + apply wait_iteration_pending. exact Hp.
    + apply wait_iteration_failure; assumption.
  - split; [apply wait_total|].
    rewrite wait_unfold.
    destruct (wait_loop_spec (now w) timeout thread_id run_id session_id
                (wait_fuel timeout) w (wait_fuel_enough timeout w))
      as (o & _ & _ & _ & _ & _ & Hl).
    replace (now w + timeout - now w) with timeout in Hl by lia.
    exact Hl.
Qed.

(* ------------------------------------------------------------------ *)
(** *** Result extraction *)

(** A pass whose status fetch yields [success] and whose state fetch
    yields [state] ends the wait with what [deliver_state] makes of it. *)
Lemma wait_loop_delivers (thread_id run_id : json) (session_id : string)
    (start_time timeout : Z) (fuel : nat) (w : world) (run_data state : json) :
  let q1 := status_fetch py_str thread_id run_id in
  let q2 := GET (state_url (to_text py_str thread_id)) in
  let w1 := after_fetch w q1 (remote (now w) (log w) q1) in
  let w2 := after_fetch w1 q2 (remote (now w1) (log w1) q2) in
  now w - start_time < timeout ->
  fetch_yields remote w q1 run_data ->
  py_get run_data "status" JNull = Ok (JStr "success") ->
  fetch_yields remote w1 q2 state ->
  wait_loop remote py_str (S fuel) start_time timeout thread_id run_id session_id w
  = match deliver_state py_str state thread_id session_id w2 with
    | (Returns m, w') => (Returns m, w')
    | (Raises e, w') =>
        (Returns (wait_error_msg (str_exn e) (to_text py_str thread_id)), w')
    | (OutOfFuel, w') => (OutOfFuel, w')
    end.
Proof.
  intros q1 q2 w1 w2 Hlt (resp1 & Ha1 & Hc1 & Hb1) Hst (resp2 & Ha2 & Hc2 & Hb2).
  subst q1 q2 w1 w2.
  rewrite wait_loop_unfold.
  apply Z.ltb_lt in Hlt. rewrite Hlt.
  unfold after_fetch, status_fetch in *. world_simpl.
  unfold wait_iteration, poll_once. unfold_m.
  rewrite Ha1, Hc1. cbn [Z.eqb Pos.eqb]. rewrite Hb1, Hst.
  cbn [is_str String.eqb Ascii.eqb Bool.eqb]. world_simpl.
  rewrite Ha1 in Ha2. rewrite Ha2, Hc2. cbn [Z.eqb Pos.eqb]. rewrite Hb2.
  destruct (deliver_state py_str state thread_id session_id _) as [[m|e|] w'];
    reflexivity.
Qed.

Lemma deliver_state_report (state r thread_id : json) (session_id : string)
    (w : world) :
  final_report_of state = Ok r -> truthy r = true ->
  let out := deliver_state py_str state thread_id session_id w in
  fst out = Returns (report_msg (to_text py_str r))
  /\ active_sessions (snd out) = dict_del session_id (active_sessions w).
Proof.
  unfold final_report_of, deliver_state. unfold_m. cbv zeta.
  destruct (py_get state "values" (JDict [])) as [values|e]; cbn [res_bind];
    [|discriminate].
  intros -> ->.
  destruct (dict_in session_id (active_sessions w)) eqn:Hin; world_simpl.
  - split; reflexivity.
  - split; [reflexivity|]. symmetry. apply dict_del_absent. exact Hin.
Qed.

Lemma clarification_of_text (values m : json) (ms : list json) (t : string) :
  py_get values "messages" (JList []) = Ok (JList (m :: ms)) ->
  message_content py_str (List.last ms m) = Ok (JStr t) ->
  clarification_of py_str values
  = Ok (if looks_like_question t then Some (JStr t) else None).
Proof.
  unfold clarification_of, looks_like_question, asks_for_clarification.
  intros -> . cbn [res_bind truthy py_last]. intros ->.
  cbn [res_bind truthy py_in py_lower].
  destruct (String.eqb t ""); cbn [negb andb]; [reflexivity|].
  destruct (contains "?" t); cbn [orb]; [reflexivity|].
  destruct (contains "clarify" (lower t)); reflexivity.
Qed.

Lemma report_priority_in_recovery (state r : json) :
  final_report_of state = Ok r ->
  truthy r = true ->
  forall (thread : string) (w : world),
  fetch_yields remote w (GET (state_url thread)) state ->
  fst (get_research_by_thread_id remote py_str thread w)
  = Returns (render_thread thread (ThreadReport (to_text py_str r))).
Proof.
  intros Hrep Htruthy thread w (resp & Ha & Hc & Hb).
  unfold get_research_by_thread_id, final_report_of in *. unfold_m.
  rewrite Ha, Hc. cbn [Z.eqb Pos.eqb negb]. rewrite Hb.
  destruct (py_get state "values" (JDict [])) as [values|e]; cbn [res_bind] in Hrep;
    [|discriminate].
  rewrite Hrep, Htruthy. reflexivity.
Qed.

(** C1: a state snapshot whose values hold a non-empty final report makes
    the completion wait (in any pass whose status fetch yields [success]
    and whose state fetch yields the snapshot) and the recovery by thread
    id return the report text, whatever the message history of the
    snapshot is. *)
Theorem report_has_priority (state r : json) :
  final_report_of state = Ok r ->
  truthy r = true ->
  (forall (thread_id run_id : json) (session_id : string)
          (start_time timeout : Z) (fuel : nat) (w : world) (run_data : json),
     now w - start_time < timeout ->
     fetch_yields remote w (status_fetch py_str thread_id run_id) run_data ->
     py_get run_data "status" JNull = Ok (JStr "success") ->
     fetch_yields remote (after_fetch w (status_fetch py_str thread_id run_id)
          (remote (now w) (log w) (status_fetch py_str thread_id run_id)))
       (GET (state_url (to_text py_str thread_id))) state ->
     fst (wait_loop remote py_str (S fuel) start_time timeout thread_id run_id
            session_id w)
     = Returns (render_wait (to_text py_str thread_id) (Report (to_text py_str r))))
  /\ (forall (thread : string) (w : world),
        fetch_yields remote w (GET (state_url thread)) state ->
        fst (get_research_by_thread_id remote py_str thread w)
        = Returns (render_thread thread (ThreadReport (to_text py_str r)))).
Proof.
  intros Hrep Htruthy. split.
  - intros thread_id run_id session_id start_time timeout fuel w run_data
      Hlt H1 Hst H2.
    rewrite (wait_loop_delivers _ _ _ _ _ _ _ _ _ Hlt H1 Hst H2).
    match goal with
    | |- context [deliver_state py_str state thread_id session_id ?w0] =>
        destruct (deliver_state_report state r thread_id session_id w0 Hrep Htruthy)
          as [Hout _];
        destruct (deliver_state py_str state thread_id session_id w0) as [o w1]
    end.
    cbn [fst] in Hout. subst o. reflexivity.
  - apply report_priority_in_recovery; assumption.
Qed.

Lemma deliver_state_no_report (state values fr m thread_id : json)
    (ms : list json) (t session_id : string) (w : world) :
  py_get state "values" (JDict []) = Ok values ->
  py_get values "final_report" JNull = Ok fr ->
  truthy fr = false ->
  py_get values "messages" (JList []) = Ok (JList (m :: ms)) ->
  message_content py_str (List.last ms m) = Ok (JStr t) ->
  deliver_state py_str state thread_id session_id w
  = (Returns (render_wait (to_text py_str thread_id)
                (if looks_like_question t then Clarification t else NoResults)),
     w).
Proof.
  intros Hv Hf Ht Hm Hc. unfold deliver_state. unfold_m.
  rewrite Hv, Hf, Ht, (clarification_of_text _ _ _ _ Hm Hc).
  destruct (looks_like_question t); reflexivity.
Qed.

(** C4 (amended): for a state snapshot with no (or an empty) final report
    and a non-empty message history whose last message has the text [t],
    the completion wait returns the clarification request carrying [t]
    when [t] is non-empty and contains a question mark or, in any case,
    "clarify" or "specify", and "no results" otherwise; recovery by thread
    id returns the clarification request under the same condition and
    otherwise "still in progress" when the thread status is [busy] and
    "no results" when it is not. Texts of different kinds are different. *)
Theorem clarification_iff_question_text (state values fr m : json)
    (ms : list json) (t : string) :
  py_get state "values" (JDict []) = Ok values ->
  py_get values "final_report" JNull = Ok fr ->
  truthy fr = false ->
  py_get values "messages" (JList []) = Ok (JList (m :: ms)) ->
  message_content py_str (List.last ms m) = Ok (JStr t) ->
  (forall (thread_id run_id : json) (session_id : string)
          (start_time timeout : Z) (fuel : nat) (w : world) (run_data : json),
     now w - start_time < timeout ->
     fetch_yields remote w (status_fetch py_str thread_id run_id) run_data ->
     py_get run_data "status" JNull = Ok (JStr "success") ->
     fetch_yields remote (after_fetch w (status_fetch py_str thread_id run_id)
          (remote (now w) (log w) (status_fetch py_str thread_id run_id)))
       (GET (state_url (to_text py_str thread_id))) state ->
     fst (wait_loop remote py_str (S fuel) start_time timeout thread_id run_id
            session_id w)
     = Returns (render_wait (to_text py_str thread_id)
                  (if looks_like_question t then Clarification t else NoResults)))
  /\ (forall (thread : string) (w : world),
        fetch_yields remote w (GET (state_url thread)) state ->
        fst (get_research_by_thread_id remote py_str thread w)
        = Returns (render_thread thread
                     (if looks_like_question t then ThreadClarification t
                      else if thread_busy state then InProgress
                           else ThreadNoResults)))
  /\ (forall th th' o o',
        render_wait th o = render_wait th' o' -> wait_kind o = wait_kind o')
  /\ (forall th th' o o',
        render_thread th o = render_thread th' o' -> thread_kind o = thread_kind o').
Proof.
  intros Hv Hf Ht Hm Hc. repeat split.
  - intros thread_id run_id session_id start_time timeout fuel w run_data
      Hlt H1 Hst H2.
    rewrite (wait_loop_delivers _ _ _ _ _ _ _ _ _ Hlt H1 Hst H2).
    rewrite (deliver_state_no_report _ _ _ _ _ _ _ _ _ Hv Hf Ht Hm Hc).
    reflexivity.
  - intros thread w (resp & Ha & Hc' & Hb).
    unfold get_research_by_thread_id, thread_busy. unfold_m.
    rewrite Ha, Hc'. cbn [Z.eqb Pos.eqb negb]. rewrite Hb, Hv, Hf, Ht.
    rewrite (clarification_of_text _ _ _ _ Hm Hc).
    destruct (looks_like_question t); [reflexivity|].
    destruct state; try discriminate Hv.
    cbn [py_get]. destruct (is_str _ "busy"); reflexivity.
  - apply render_wait_kind.
  - apply render_thread_kind.
Qed.

(* ------------------------------------------------------------------ *)
(** *** What the functions leave alone *)

Lemma search_assistant_registry (d : dict session) :
  preserves (registry_is d) (search_assistant remote).
Proof. unfold search_assistant. frame. Qed.

Lemma search_assistant_log (l : transcript) :
  preserves (log_extends l) (search_assistant remote).
Proof. unfold search_assistant. frame. Qed.

Lemma get_assistant_registry (d : dict session) :
  preserves (registry_is d) (get_assistant remote).
Proof. unfold get_assistant, search_assistant, create_assistant. frame. Qed.

Lemma get_assistant_log (l : transcript) :
  preserves (log_extends l) (get_assistant remote).
Proof. unfold get_assistant, search_assistant, create_assistant. frame. Qed.

Lemma create_thread_registry (d : dict session) :
  preserves (registry_is d) (create_thread remote).
Proof. unfold create_thread. frame. Qed.

Lemma create_thread_log (l : transcript) :
  preserves (log_extends l) (create_thread remote).
Proof. unfold create_thread. frame. Qed.

Lemma create_thread_cache (a : json) :
  preserves (cache_is a) (create_thread remote).
Proof. unfold create_thread. frame. Qed.

Lemma wait_iteration_cache (a thread_id run_id : json) (session_id : string) :
  preserves (cache_is a) (wait_iteration remote py_str thread_id run_id session_id).
Proof. unfold wait_iteration, poll_once, deliver_state. frame. Qed.

Lemma wait_iteration_log (l : transcript) (thread_id run_id : json)
    (session_id : string) :
  preserves (log_extends l) (wait_iteration remote py_str thread_id run_id session_id).
Proof. unfold wait_iteration, poll_once, deliver_state. frame. Qed.

Lemma wait_loop_preserves (P : world -> Prop) (thread_id run_id : json)
    (session_id : string) (start_time timeout : Z) :
  preserves P (wait_iteration remote py_str thread_id run_id session_id) ->
  preserves P time_time ->
  forall fuel,
    preserves P (wait_loop remote py_str fuel start_time timeout thread_id run_id
                   session_id).
Proof.
  intros Hi Ht. induction fuel as [|fuel IH]; cbn [wait_loop]; frame.
Qed.

Lemma wait_cache (a thread_id run_id : json) (session_id : string) (timeout : Z) :
  preserves (cache_is a)
    (wait_for_research_completion remote py_str thread_id run_id session_id timeout).
Proof.
  unfold wait_for_research_completion. frame.
  apply wait_loop_preserves; [apply wait_iteration_cache | frame].
Qed.

Lemma wait_log (l : transcript) (thread_id run_id : json)
    (session_id : string) (timeout : Z) :
  preserves (log_extends l)
    (wait_for_research_completion remote py_str thread_id run_id session_id timeout).
Proof.
  unfold wait_for_research_completion. frame.
  apply wait_loop_preserves; [apply wait_iteration_log | frame].
Qed.

Lemma get_research_by_thread_id_registry (d : dict session) (thread : string) :
  preserves (registry_is d) (get_research_by_thread_id remote py_str thread).
Proof. unfold get_research_by_thread_id. frame. Qed.

Lemma get_research_by_thread_id_cache (a : json) (thread : string) :
  preserves (cache_is a) (get_research_by_thread_id remote py_str thread).
Proof. unfold get_research_by_thread_id. frame. Qed.

Lemma render_sessions_preserves (P : world -> Prop) (items : dict session) :
  preserves P time_time ->
  forall result, preserves P (render_sessions py_str items result).
Proof.
  intros Ht. induction items as [|[k v] items IH]; intros result;
    cbn [render_sessions]; frame.
Qed.

Lemma list_active_sessions_registry (d : dict session) :
  preserves (registry_is d) (list_active_sessions py_str).
Proof.
  unfold list_active_sessions. frame. apply render_sessions_preserves. frame.
Qed.

Lemma list_active_sessions_cache (a : json) :
  preserves (cache_is a) (list_active_sessions py_str).
Proof.
  unfold list_active_sessions. frame. apply render_sessions_preserves. frame.
Qed.

(* ------------------------------------------------------------------ *)
(** *** The assistant cache *)

Lemma get_assistant_cached (a : json) (w : world) :
  truthy a = true -> assistant_id w = a -> get_assistant remote w = (Returns a, w).
Proof.
  intros Ht Ha. unfold get_assistant, bind, get_assistant_id, ret.
  rewrite Ha, Ht. reflexivity.
Qed.

(** A resolution that succeeds leaves its result in the cache. *)
Lemma get_assistant_stores (a : json) (w : world) :
  fst (get_assistant remote w) = Returns a ->
  truthy a = true ->
  assistant_id (snd (get_assistant remote w)) = a.
Proof.
  unfold get_assistant, search_assistant, create_assistant. unfold_m.
  run_cases; intros H Ht; clean_eqs; try (cbn in Ht; discriminate Ht);
    try discriminate H; try reflexivity.
Qed.

Lemma get_assistant_cache (a : json) :
  truthy a = true -> preserves (cache_is a) (get_assistant remote).
Proof.
  intros Ht w H. rewrite (get_assistant_cached a w Ht H). exact H.
Qed.

#[local] Hint Resolve get_assistant_cache create_thread_cache wait_cache : frame.

Lemma research_question_cache (a : json) (question : string)
    (allow_clarification : bool) (timeout : Z) :
  truthy a = true ->
  preserves (cache_is a)
    (research_question remote py_str uuid4 question allow_clarification timeout).
Proof. intros Ht. unfold research_question, server_available. frame. Qed.

Lemma continue_cache (a : json) (clarification_answer : string)
    (thread : option string) :
  truthy a = true ->
  preserves (cache_is a)
    (continue_research_with_clarification remote py_str clarification_answer thread).
Proof.
  intros Ht.
  unfold continue_research_with_clarification, continue_latest, continue_on_thread.
  frame.
Qed.

Lemma check_research_status_cache (a : json) :
  preserves (cache_is a) (check_research_status remote).
Proof. unfold check_research_status. frame. Qed.

Lemma start_research_cache (a : json) (question : string)
    (allow_clarification : bool) :
  truthy a = true ->
  preserves (cache_is a)
    (start_research remote py_str uuid4 question allow_clarification).
Proof. intros Ht. unfold start_research, server_available. frame. Qed.

(** C8: once [get_assistant] has returned a usable identifier [a], the
    cache holds [a]; from any later state whose cache still holds [a] the
    function returns [a] and leaves the whole world, transcript included,
    as it was, so no request is issued; and none of the five tools of
    [async_research_mcp_final.py], nor [start_research], replaces the
    cached value. *)
Theorem assistant_resolved_once (w : world) (a : json) :
  fst (get_assistant remote w) = Returns a ->
  truthy a = true ->
  cache_is a (snd (get_assistant remote w))
  /\ (forall w', cache_is a w' -> get_assistant remote w' = (Returns a, w'))
  /\ (forall question allow_clarification timeout,
        preserves (cache_is a)
          (research_question remote py_str uuid4 question allow_clarification
             timeout))
  /\ (forall thread,
        preserves (cache_is a) (get_research_by_thread_id remote py_str thread))
  /\ preserves (cache_is a) (list_active_sessions py_str)
  /\ (forall clarification_answer thread,
        preserves (cache_is a)
          (continue_research_with_clarification remote py_str
             clarification_answer thread))
  /\ preserves (cache_is a) (check_research_status remote)
  /\ (forall question allow_clarification,
        preserves (cache_is a)
          (start_research remote py_str uuid4 question allow_clarification)).
Proof.
  intros Hres Ht. repeat split.
  - apply get_assistant_stores; assumption.
  - intros w' Hw'. apply get_assistant_cached; assumption.
  - intros. apply research_question_cache. assumption.
  - intros. apply get_research_by_thread_id_cache.
  - apply list_active_sessions_cache.
  - intros. apply continue_cache. assumption.
  - apply check_research_status_cache.
  - intros. apply start_research_cache. assumption.
Qed.

(* ------------------------------------------------------------------ *)
(** *** Starting research *)

(** Neither resolution nor thread creation lets an exception out. *)
Lemma get_assistant_returns (w : world) :
  exists a, fst (get_assistant remote w) = Returns a.
Proof.
  unfold get_assistant, search_assistant, create_assistant. unfold_m.
  run_cases; clean_eqs; try discriminate; eauto.
Qed.

Lemma create_thread_returns (w : world) :
  exists a, fst (create_thread remote w) = Returns a.
Proof.
  unfold create_thread. unfold_m. run_cases; clean_eqs; try discriminate; eauto.
Qed.

Ltac learn_frames :=
  repeat match goal with
    | H : get_assistant remote ?w = (_, ?w') |- _ =>
        let Hr := fresh "Hreg" in
        let Hl := fresh "Hlog" in
        let Ht := fresh "Hret" in
        pose proof (get_assistant_registry (active_sessions w) w eq_refl) as Hr;
        pose proof (get_assistant_log (log w) w (ex_intro _ nil eq_refl)) as Hl;
        pose proof (get_assistant_returns w) as Ht;
        rewrite H in Hr, Hl, Ht; unfold registry_is, log_extends in Hr, Hl;
        cbn [fst snd] in Hr, Hl, Ht; clear H
    | H : create_thread remote ?w = (_, ?w') |- _ =>
        let Hr := fresh "Hreg" in
        let Hl := fresh "Hlog" in
        let Ht := fresh "Hret" in
        pose proof (create_thread_registry (active_sessions w) w eq_refl) as Hr;
        pose proof (create_thread_log (log w) w (ex_intro _ nil eq_refl)) as Hl;
        pose proof (create_thread_returns w) as Ht;
        rewrite H in Hr, Hl, Ht; unfold registry_is, log_extends in Hr, Hl;
        cbn [fst snd] in Hr, Hl, Ht; clear H
    | H : wait_for_research_completion remote py_str ?t ?r ?sid ?tm ?w = (_, ?w') |- _ =>
        let Hs := fresh "Hwait" in
        let Hl := fresh "Hlog" in
        pose proof (wait_spec t r sid tm w) as Hs;
        pose proof (wait_log (log w) t r sid tm w (ex_intro _ nil eq_refl)) as Hl;
        cbv zeta in Hs;
        rewrite H in Hs, Hl; unfold log_extends in Hl;
        cbn [fst snd] in Hs, Hl; clear H
    end;
  repeat match goal with
    | H : exists _, _ |- _ => destruct H
    | H : _ /\ _ |- _ => destruct H
    end;
  subst; try discriminate.

Lemma research_question_spec (question : string) (allow_clarification : bool)
    (timeout : Z) (w : world) :
  let out := research_question remote py_str uuid4 question allow_clarification
               timeout w in
  (exists f,
     fst out = Returns (render_failure f)
     /\ active_sessions (snd out) = active_sessions w)
  \/ (exists thread_id assistant run_id resp body older newer session_id t o,
        log (snd out)
        = (newer
           ++ (POST (runs_url (to_text py_str thread_id))
                 (run_payload assistant question allow_clarification), Ok resp)
              :: older ++ log w)%list
        /\ status_code resp = 200
        /\ json_body resp = Ok body
        /\ py_getitem body "run_id" = Ok run_id
        /\ fst out = Returns (render_wait (to_text py_str thread_id) o)
        /\ active_sessions (snd out)
           = let d := dict_set session_id
                        {| thread_id := thread_id; run_id := run_id;
                           question := question; status := None;
                           started_at := t |} (active_sessions w) in
             if is_report o then dict_del session_id d else d).
Proof.
  unfold research_question, server_available. unfold_m. cbv zeta.
  run_cases; learn_frames; world_simpl; cbn [negb] in *; try discriminate;
    clean_eqs.
  all: try solve [left; eexists ServerUnavailable; split; [reflexivity|congruence]].
  all: try solve [left; eexists NoAssistant; split; [reflexivity|congruence]].
  all: try solve [left; eexists NoThread; split; [reflexivity|congruence]].
  all: try solve [left; eexists (SubmissionRejected _); split; [reflexivity|congruence]].
  all: try solve [left; eexists (SubmissionRaised _ _); split; [reflexivity|congruence]].
  right. do 10 eexists. cbv zeta.
  repeat match goal with
         | H : log _ = _ |- _ => rewrite H; clear H
         | H : active_sessions _ = _ |- _ => rewrite H; clear H
         end.
  match goal with
  | |- (_ ++ _ :: ?n1 ++ ?n2 ++ ?d :: log w)%list = _ /\ _ =>
      replace (n1 ++ n2 ++ d :: log w)%list
        with ((n1 ++ n2 ++ [d]) ++ log w)%list
        by (rewrite <- !app_assoc; reflexivity)
  end.
  split; [reflexivity|].
  split; [apply Z.eqb_eq, negb_false_iff; assumption|].
  split; [eassumption|].
  split; [eassumption|].
  split; reflexivity.
Qed.

Lemma start_research_spec (question : string) (allow_clarification : bool)
    (w : world) :
  let out := start_research remote py_str uuid4 question allow_clarification w in
  (exists f,
     fst out = Returns (render_start_failure f)
     /\ active_sessions (snd out) = active_sessions w)
  \/ (exists thread_id assistant run_id resp body older session_id t,
        log (snd out)
        = ((POST (runs_url (to_text py_str thread_id))
              (run_payload assistant question allow_clarification), Ok resp)
           :: older ++ log w)%list
        /\ status_code resp = 200
        /\ json_body resp = Ok body
        /\ py_getitem body "run_id" = Ok run_id
        /\ fst out = Returns (research_started_msg session_id)
        /\ active_sessions (snd out)
           = dict_set session_id
               {| thread_id := thread_id; run_id := run_id;
                  question := question; status := Some "running";
                  started_at := t |} (active_sessions w)).
Proof.
  unfold start_research, server_available. unfold_m. cbv zeta.
  run_cases; learn_frames; world_simpl; cbn [negb] in *; try discriminate;
    clean_eqs.
  all: try solve [left; eexists ServerUnavailable; split; [reflexivity|congruence]].
  all: try solve [left; eexists NoAssistant; split; [reflexivity|congruence]].
  all: try solve [left; eexists NoThread; split; [reflexivity|congruence]].
  all: try solve [left; eexists (SubmissionRejected _); split; [reflexivity|congruence]].
  all: try solve [left; eexists (SubmissionRaised _ ""); split; [reflexivity|congruence]].
  right. do 8 eexists.
  repeat match goal with
         | H : log _ = _ |- _ => rewrite H; clear H
         | H : active_sessions _ = _ |- _ => rewrite H; clear H
         end.
  match goal with
  | |- (_ :: ?n1 ++ ?n2 ++ ?d :: log w)%list = _ /\ _ =>
      replace (n1 ++ n2 ++ d :: log w)%list
        with ((n1 ++ n2 ++ [d]) ++ log w)%list
        by (rewrite <- !app_assoc; reflexivity)
  end.
  split; [reflexivity|].
  split; [apply Z.eqb_eq, negb_false_iff; assumption|].
  split; [eassumption|].
  split; [eassumption|].
  split; reflexivity.
Qed.

(** A start that reports a session id has stored that session, with
    status [running]. *)
Lemma start_research_registers_running (question : string)
    (allow_clarification : bool) (w : world) (m : string) :
  let out := start_research remote py_str uuid4 question allow_clarification w in
  fst out = Returns m ->
  (exists f, m = render_start_failure f)
  \/ (exists session_id s,
        m = research_started_msg session_id
        /\ assoc session_id (active_sessions (snd out)) = Some s
        /\ status s = Some "running").
Proof.
  cbv zeta. intros Hm.
  destruct (start_research_spec question allow_clarification w)
    as [(f & Hf & _) | (th & a & r & resp & body & older & sid & t & _ & _ & _ & _
                        & Hs & Hreg)].
  - left. exists f. congruence.
  - right. eexists sid, _. split; [congruence|].
    rewrite Hreg, assoc_dict_set_same. split; reflexivity.
Qed.

(** No text of a failed start is the text of a wait's result or of a
    started session. *)
Lemma render_failure_not_wait (f : start_failure) (th : string) (o : wait_outcome) :
  render_failure f <> render_wait th o.
Proof.
  destruct f, o; intros H;
    unfold render_failure, render_wait, server_unavailable_msg, no_assistant_msg,
      no_thread_msg, failed_to_start_msg, research_error_msg, report_msg,
      wait_clarification_msg, wait_no_results_msg, wait_failed_msg,
      wait_error_msg, wait_timed_out_msg in H;
    cbn [append] in H; discriminate H.
Qed.

Lemma render_start_failure_not_started (f : start_failure) (session_id : string) :
  render_start_failure f <> research_started_msg session_id.
Proof.
  destruct f; intros H;
    unfold render_start_failure, research_started_msg, server_unavailable_msg,
      no_assistant_msg, no_thread_msg, failed_to_start_msg, start_error_msg in H;
    cbn [append] in H; discriminate H.
Qed.

(** C10: [research_question] and [start_research] either end in one of
    their failure texts (server unavailable, no assistant, no thread,
    submission rejected, submission raised, which covers a response
    without a run id) with the registry exactly as it was, or they have
    put on the transcript, after the transcript they started from, a run
    submission answered with code 200 and a body holding a run id, and the
    registry is the old one with the new session stored (and, in
    [research_question], deleted again if the wait delivered a report).
    The failure texts are none of the other texts. *)
Theorem registry_written_only_after_submission (question : string)
    (allow_clarification : bool) (timeout : Z) (w : world) :
  let out := research_question remote py_str uuid4 question allow_clarification
               timeout w in
  let started := start_research remote py_str uuid4 question allow_clarification w in
  ((exists f,
      fst out = Returns (render_failure f)
      /\ active_sessions (snd out) = active_sessions w)
   \/ (exists thread_id assistant run_id resp body older newer session_id t o,
         log (snd out)
         = (newer
            ++ (POST (runs_url (to_text py_str thread_id))
                  (run_payload assistant question allow_clarification), Ok resp)
               :: older ++ log w)%list
         /\ status_code resp = 200
         /\ json_body resp = Ok body
         /\ py_getitem body "run_id" = Ok run_id
         /\ fst out = Returns (render_wait (to_text py_str thread_id) o)
         /\ active_sessions (snd out)
            = let d := dict_set session_id
                         {| thread_id := thread_id; run_id := run_id;
                            question := question; status := None;
                            started_at := t |} (active_sessions w) in
              if is_report o then dict_del session_id d else d))
  /\ ((exists f,
         fst started = Returns (render_start_failure f)
         /\ active_sessions (snd started) = active_sessions w)
      \/ (exists thread_id assistant run_id resp body older session_id t,
            log (snd started)
            = ((POST (runs_url (to_text py_str thread_id))
                  (run_payload assistant question allow_clarification), Ok resp)
               :: older ++ log w)%list
            /\ status_code resp = 200
            /\ json_body resp = Ok body
            /\ py_getitem body "run_id" = Ok run_id
            /\ fst started = Returns (research_started_msg session_id)
            /\ active_sessions (snd started)
               = dict_set session_id
                   {| thread_id := thread_id; run_id := run_id;
                      question := question; status := Some "running";
                      started_at := t |} (active_sessions w)))
  /\ (forall f th o, render_failure f <> render_wait th o)
  /\ (forall f session_id, render_start_failure f <> research_started_msg session_id).
Proof.
  cbv zeta. split; [apply research_question_spec|].
  split; [apply start_research_spec|].
  split; [apply render_failure_not_wait | apply render_start_failure_not_started].
Qed.

(** C3 (amended): when every status fetch issued before the deadline is
    answered without a terminal run status, the completion wait of either
    server returns its timed-out result, for every deadline
    ([default_timeout] included), and a session of the registry is still
    there afterwards with the record it had. That record has no status in
    [async_research_mcp_final.py]: after a [research_question] that ended
    in the timed-out result the registry holds the session it stored, and
    the session has no status. The status [running] is the one of the
    sessions [start_research] of [async_research_mcp.py] stores. *)
Theorem wait_times_out_and_keeps_session (thread_id run_id : json)
    (session_id : string) (timeout : Z) (w : world) :
  (forall t l, now w <= t < now w + timeout ->
     pending (answer (remote t l (status_fetch py_str thread_id run_id))) = true) ->
  let out := wait_for_research_completion remote py_str thread_id run_id
               session_id timeout w in
  let polled := poll_for_completion remote py_str thread_id run_id timeout w in
  fst out = Returns (render_wait (to_text py_str thread_id) (TimedOut timeout))
  /\ fst polled
     = Returns (poll_result "timeout" "message" (JStr "Research timed out"))
  /\ active_sessions (snd out) = active_sessions w
  /\ active_sessions (snd polled) = active_sessions w
  /\ (forall s, assoc session_id (active_sessions w) = Some s ->
        assoc session_id (active_sessions (snd out)) = Some s
        /\ assoc session_id (active_sessions (snd polled)) = Some s)
  /\ (forall topic allow_clarification deadline w0 th t,
        let asked := research_question remote py_str uuid4 topic
                       allow_clarification deadline w0 in
        fst asked = Returns (render_wait th (TimedOut t)) ->
        exists sid s,
          assoc sid (active_sessions (snd asked)) = Some s
          /\ question s = topic /\ status s = None)
  /\ (forall question allow_clarification w0 m,
        let started := start_research remote py_str uuid4 question
                         allow_clarification w0 in
        fst started = Returns m ->
        (exists f, m = render_start_failure f)
        \/ exists sid s,
             m = research_started_msg sid
             /\ assoc sid (active_sessions (snd started)) = Some s
             /\ status s = Some "running").
Proof.
  intros Hpend. cbv zeta.
  destruct (waits_time_out thread_id run_id session_id timeout w Hpend)
    as (Ho & Hp & Hs & Hps & Hkeep).
  split; [exact Ho|]. split; [exact Hp|]. split; [exact Hs|].
  split; [exact Hps|]. split; [exact Hkeep|]. split.
  - intros topic allow_clarification deadline w0 th t Hasked.
    destruct (research_question_spec topic allow_clarification deadline w0)
      as [(f & Hf & _)
         | (thread & a & r & resp & body & older & newer & sid & t0 & o & _ & _ & _
            & _ & Hres & Hreg)].
    + rewrite Hf in Hasked. inversion Hasked as [Heq].
      exfalso. exact (render_failure_not_wait f th (TimedOut t) Heq).
    + rewrite Hres in Hasked. inversion Hasked as [Heq].
      pose proof (render_wait_is_report (to_text py_str thread) th o (TimedOut t)
                    Heq) as Hrep.
      cbn [is_report] in Hrep. cbv zeta in Hreg. rewrite Hrep in Hreg.
      exists sid. eexists. rewrite Hreg.
      split; [apply assoc_dict_set_same|]. split; reflexivity.
  - intros question allow_clarification w0 m.
    exact (start_research_registers_running question allow_clarification w0 m).
Qed.

(* ------------------------------------------------------------------ *)
(** *** Recovery by thread id and the session listing *)

Lemma append_assoc (a b c : string) : ((a ++ b) ++ c = a ++ b ++ c)%string.
Proof. induction a as [|x a IH]; simpl; [reflexivity | rewrite IH; reflexivity]. Qed.

Lemma render_sessions_extends (items : dict session) :
  forall (result : string) (w : world),
  exists tail,
    render_sessions py_str items result w = (Returns (result ++ tail), w).
Proof.
  induction items as [|[k v] items IH]; intros result w; cbn [render_sessions].
  - exists "". unfold ret.
    replace (result ++ "") with result; [reflexivity|].
    clear. induction result as [|x r IH]; simpl; [|rewrite <- IH]; reflexivity.
  - unfold bind, time_time.
    destruct (IH (result ++ session_entry k (to_text py_str (thread_id v))
                    (take_chars 80 (question v)) (str_int (now w - started_at v))) w)
      as [tail ->].
    eexists. rewrite append_assoc. reflexivity.
Qed.

(** A session of the registry is in the listing. *)
Lemma render_sessions_lists (k : string) (items : dict session) :
  forall (result : string) (w : world),
  dict_in k items = true ->
  exists listing,
    render_sessions py_str items result w = (Returns listing, w)
    /\ occurs_in ("**Session " ++ k ++ "**") listing.
Proof.
  induction items as [|[k' v] items IH]; intros result w Hin; [discriminate|].
  cbn [dict_in] in Hin. cbn [render_sessions]. unfold bind, time_time.
  destruct (String.eqb k k') eqn:Hk.
  - apply String.eqb_eq in Hk. subst k'.
    destruct (render_sessions_extends items
                (result ++ session_entry k (to_text py_str (thread_id v))
                   (take_chars 80 (question v)) (str_int (now w - started_at v))) w)
      as [tail ->].
    eexists. split; [reflexivity|].
    unfold occurs_in, session_entry.
    exists (result ++ "• "). eexists.
    rewrite !append_assoc. cbn [append]. reflexivity.
  - apply IH. exact Hin.
Qed.

Lemma list_active_sessions_lists (k : string) (w : world) :
  dict_in k (active_sessions w) = true ->
  exists listing,
    list_active_sessions py_str w = (Returns listing, w)
    /\ occurs_in ("**Session " ++ k ++ "**") listing.
Proof.
  intros Hin. unfold list_active_sessions, bind, get_sessions.
  destruct (active_sessions w) as [|x d] eqn:Hd; [discriminate|].
  apply render_sessions_lists. exact Hin.
Qed.

(** C6 (amended): after a wait that timed out, recovery by the session's
    thread id against a state that now holds a non-empty final report
    returns that report; recovery leaves the registry as it is, so the
    session keeps its record and is still in the session listing. *)
Theorem recovery_returns_report_and_keeps_session (thread_id run_id : json)
    (session_id : string) (timeout : Z) (w : world) (s : session)
    (state r : json) :
  assoc session_id (active_sessions w) = Some s ->
  let waited := wait_for_research_completion remote py_str thread_id run_id
                  session_id timeout w in
  fst waited = Returns (render_wait (to_text py_str thread_id) (TimedOut timeout)) ->
  fetch_yields remote (snd waited) (GET (state_url (to_text py_str thread_id))) state ->
  final_report_of state = Ok r ->
  truthy r = true ->
  let recovered := get_research_by_thread_id remote py_str
                     (to_text py_str thread_id) (snd waited) in
  fst recovered
  = Returns (render_thread (to_text py_str thread_id) (ThreadReport (to_text py_str r)))
  /\ active_sessions (snd recovered) = active_sessions w
  /\ assoc session_id (active_sessions (snd recovered)) = Some s
  /\ exists listing,
       fst (list_active_sessions py_str (snd recovered)) = Returns listing
       /\ occurs_in ("**Session " ++ session_id ++ "**") listing.
Proof.
  intros Hs waited Htimed Hfetch Hrep Htruthy recovered.
  assert (Hw : active_sessions (snd waited) = active_sessions w).
  { destruct (wait_spec thread_id run_id session_id timeout w) as (o & Ho & Hso).
    fold waited in Ho, Hso. rewrite Ho in Htimed.
    assert (Hk : is_report o = is_report (TimedOut timeout)).
    { apply (render_wait_is_report (to_text py_str thread_id)
               (to_text py_str thread_id)).
      congruence. }
    cbn [is_report] in Hk.
    rewrite Hk in Hso. exact Hso. }
  assert (Hr : active_sessions (snd recovered) = active_sessions w).
  { rewrite <- Hw.
    apply (get_research_by_thread_id_registry (active_sessions (snd waited))
             (to_text py_str thread_id) (snd waited)).
    reflexivity. }
  split; [|split; [exact Hr|split]].
  - destruct (report_priority_in_recovery state r Hrep Htruthy
                (to_text py_str thread_id) (snd waited) Hfetch).
    reflexivity.
  - rewrite Hr. exact Hs.
  - destruct (list_active_sessions_lists session_id (snd recovered))
      as (listing & Hl & Hocc).
    + apply assoc_dict_in. rewrite Hr. eauto.
    + exists listing. rewrite Hl. split; [reflexivity | exact Hocc].
Qed.

(* ------------------------------------------------------------------ *)
(** *** Which failure texts name the thread *)

Lemma append_nil_r (a : string) : (a ++ "")%string = a.
Proof. induction a as [|x a IH]; simpl; [|rewrite IH]; reflexivity. Qed.

(** Every end of the wait other than the report names the thread, and so
    does the text for a run submission that raises. *)
Lemma failure_texts_name_thread (th : string) :
  (forall o, is_report o = false -> occurs_in th (render_wait th o))
  /\ (forall e, occurs_in th (render_failure (SubmissionRaised e th))).
Proof.
  split.
  - intros o Ho. destruct o; try discriminate Ho; unfold occurs_in;
      cbn [render_wait]; unfold wait_clarification_msg, wait_no_results_msg,
        wait_failed_msg, wait_error_msg, wait_timed_out_msg.
    + exists ("🤔 **Clarification Needed**" ++ nl ++ nl ++ content ++ nl ++ nl
              ++ "**Thread ID:** ").
      eexists. rewrite !append_assoc. reflexivity.
    + eexists. exists "". rewrite append_nil_r. reflexivity.
    + exists ("❌ Research failed with status: " ++ run_status ++ ". Thread ID: ").
      eexists. rewrite !append_assoc. reflexivity.
    + exists ("❌ Error during research: " ++ diagnostic ++ ". Thread ID: ").
      exists "". rewrite append_nil_r, !append_assoc. reflexivity.
    + exists ("⏰ Research timed out after " ++ str_int timeout
              ++ " seconds. Thread ID: ").
      eexists. rewrite !append_assoc. reflexivity.
  - intros e. unfold occurs_in. cbn [render_failure]. unfold research_error_msg.
    exists ("❌ Research error: " ++ e ++ ". Thread ID: "). exists "".
    rewrite append_nil_r, !append_assoc. reflexivity.
Qed.

(* ------------------------------------------------------------------ *)
(** *** Further properties of [async_research_mcp_final.py] *)

Ltac pick_thread_outcome :=
  first [ eexists (ThreadReport _); split; [reflexivity|]
        | eexists (ThreadClarification _); split; [reflexivity|]
        | exists InProgress; split; [reflexivity|]
        | exists ThreadNoResults; split; [reflexivity|]
        | exists NoAccess; split; [reflexivity|]
        | eexists (RetrieveError _); split; [reflexivity|] ].

(** X1: Recovery by thread id is one read of the thread state: it returns one
    of its six texts, and the world afterwards is the world before with
    that one exchange on the transcript, so the registry and the assistant
    cache are as they were. A request that raises gives the diagnostic of
    the exception, an HTTP code other than 200 the "could not access"
    text, whatever the body. *)
Theorem recovery_is_one_read (thread : string) (w : world) :
  let q := GET (state_url thread) in
  let r := remote (now w) (log w) q in
  let out := get_research_by_thread_id remote py_str thread w in
  snd out = after_fetch w q r
  /\ exists o,
       fst out = Returns (render_thread thread o)
       /\ (forall e, answer r = Err e -> o = RetrieveError (str_exn e))
       /\ (forall resp, answer r = Ok resp -> status_code resp <> 200 ->
             o = NoAccess).
Proof.
  cbv zeta. unfold get_research_by_thread_id, after_fetch. unfold_m.
  run_cases; cbn [negb] in *; try discriminate; (split; [reflexivity|]);
    pick_thread_outcome;
    (split; [intros e' He'; clean_eqs; try discriminate He'; congruence
            | intros resp' Hr' Hc'; clean_eqs; try discriminate Hr';
              try reflexivity]).
  all: inversion Hr'; subst; apply negb_false_iff, Z.eqb_eq in Heqb;
    contradiction.
Qed.

(** [latest_from] picks a session of the list with the greatest start
    time. *)
Lemma latest_from_max (rest : dict session) :
  forall best : session,
  let l := latest_from best rest in
  (l = best \/ In l (map snd rest))
  /\ started_at best <= started_at l
  /\ forall s, In s (map snd rest) -> started_at s <= started_at l.
Proof.
  induction rest as [|[k s] rest IH]; intros best; cbn [latest_from map snd].
  - split; [left; reflexivity|]. split; [lia|]. intros s [].
  - destruct (IH (if started_at best <? started_at s then s else best))
      as (Hin & Hle & Hall).
    destruct (started_at best <? started_at s) eqn:Hlt.
    + apply Z.ltb_lt in Hlt. split; [|split].
      * right. destruct Hin as [-> | Hin]; [left; reflexivity | right; exact Hin].
      * lia.
      * intros s' [<- | Hs']; [exact Hle | apply Hall; exact Hs'].
    + apply Z.ltb_ge in Hlt. split; [|split].
      * destruct Hin as [-> | Hin]; [left; reflexivity | right; right; exact Hin].
      * exact Hle.
      * intros s' [<- | Hs']; [lia | apply Hall; exact Hs'].
Qed.

Lemma continue_on_thread_spec (clarification_answer target : string) (w : world) :
  let out := continue_on_thread remote clarification_answer target w in
  active_sessions (snd out) = active_sessions w
  /\ exists m, fst out = Returns m.
Proof.
  cbv zeta. split.
  - assert (H : preserves (registry_is (active_sessions w))
                  (continue_on_thread remote clarification_answer target)).
    { unfold continue_on_thread. frame. apply get_assistant_registry. }
    exact (H w eq_refl).
  - unfold continue_on_thread. unfold_m.
    pose proof (get_assistant_returns w) as [a Ha].
    destruct (get_assistant remote w) as [o w1]. cbn [fst] in Ha. subst o.
    run_cases; eauto.
Qed.

Lemma continue_latest_unfold (clarification_answer : string) (w : world) :
  continue_latest remote py_str clarification_answer w
  = match active_sessions w with
    | [] => (Returns no_session_no_thread_msg, w)
    | (_, s) :: rest =>
        continue_on_thread remote clarification_answer
          (to_text py_str (thread_id (latest_from s rest))) w
    end.
Proof.
  unfold continue_latest, bind, get_sessions.
  destruct (active_sessions w) as [|[k s] rest]; reflexivity.
Qed.

Lemma continue_latest_spec (clarification_answer : string) (w : world) :
  let out := continue_latest remote py_str clarification_answer w in
  active_sessions (snd out) = active_sessions w
  /\ (exists m, fst out = Returns m)
  /\ (active_sessions w = [] -> out = (Returns no_session_no_thread_msg, w)).
Proof.
  cbv zeta. rewrite continue_latest_unfold.
  destruct (active_sessions w) as [|[k s] rest] eqn:Hd.
  - cbn [fst snd]. split; [exact Hd|]. split; [eexists|]; reflexivity.
  - destruct (continue_on_thread_spec clarification_answer
                (to_text py_str (thread_id (latest_from s rest))) w) as [Hr Hm].
    rewrite Hd in Hr. split; [exact Hr|]. split; [exact Hm|].
    intros H; discriminate H.
Qed.

(** X2: [continue_research_with_clarification] of the final server never
    writes the registry, whatever it returns: after a continuation that
    succeeded the session still holds the run id of the earlier run. It
    always returns a text; and with no thread id (absent or empty) and an
    empty registry it returns its "no active sessions" text without a
    single request. *)
Theorem continuation_never_writes_registry (clarification_answer : string)
    (thread : option string) (w : world) :
  let out := continue_research_with_clarification remote py_str
               clarification_answer thread w in
  active_sessions (snd out) = active_sessions w
  /\ (exists m, fst out = Returns m)
  /\ (active_sessions w = [] -> (thread = None \/ thread = Some "") ->
      out = (Returns no_session_no_thread_msg, w)).
Proof.
  cbv zeta. unfold continue_research_with_clarification.
  destruct thread as [t|]; [destruct (String.eqb t "") eqn:Ht|].
  - destruct (continue_latest_spec clarification_answer w) as (Hr & Hm & He).
    repeat split; auto.
  - destruct (continue_on_thread_spec clarification_answer t w) as [Hr Hm].
    repeat split; try assumption.
    intros _ [H | H]; [discriminate H|]. inversion H; subst. discriminate Ht.
  - destruct (continue_latest_spec clarification_answer w) as (Hr & Hm & He).
    repeat split; auto.
Qed.

(** X3: With no thread id given and the assistant resolved, the continuation
    is submitted, as the only request, to the thread of a session of the
    registry than which none started later. *)
Theorem continuation_targets_latest_session (clarification_answer : string)
    (a : json) (w : world) :
  truthy a = true ->
  cache_is a w ->
  active_sessions w <> [] ->
  exists l,
    In l (map snd (active_sessions w))
    /\ (forall s, In s (map snd (active_sessions w)) -> started_at s <= started_at l)
    /\ let q := POST (runs_url (to_text py_str (thread_id l)))
                  (clarification_payload a clarification_answer) in
       snd (continue_research_with_clarification remote py_str
              clarification_answer None w)
       = after_fetch w q (remote (now w) (log w) q).
Proof.
  intros Ht Hc Hne.
  destruct (active_sessions w) as [|[k s] rest] eqn:Hd; [contradiction|].
  destruct (latest_from_max rest s) as (Hin & Hle & Hall).
  exists (latest_from s rest). cbn [map snd]. split; [|split].
  - destruct Hin as [-> | Hin]; [left; reflexivity | right; exact Hin].
  - intros s' [<- | Hs']; [exact Hle | apply Hall; exact Hs'].
  - cbv zeta. unfold continue_research_with_clarification.
    rewrite continue_latest_unfold, Hd.
    unfold continue_on_thread, try_except, bind at 1.
    rewrite (get_assistant_cached a w Ht Hc). rewrite Ht. cbn [negb].
    unfold after_fetch. unfold_m. run_cases; reflexivity.
Qed.

Lemma research_question_after_liveness (question : string)
    (allow_clarification : bool) (timeout : Z) (w : world) (resp : response) :
  answer (remote (now w) (log w) docs_request) = Ok resp ->
  let out := research_question remote py_str uuid4 question allow_clarification
               timeout w in
  (exists f, f <> ServerUnavailable /\ fst out = Returns (render_failure f))
  \/ (exists th o, fst out = Returns (render_wait th o)).
Proof.
  unfold docs_request. intros Hdocs.
  unfold research_question, server_available. unfold_m. cbv zeta.
  rewrite Hdocs.
  run_cases; learn_frames; world_simpl; cbn [negb] in *; try discriminate;
    clean_eqs.
  all: try solve [left; exists NoAssistant; split; [discriminate | reflexivity]].
  all: try solve [left; exists NoThread; split; [discriminate | reflexivity]].
  all: try solve [left; eexists (SubmissionRejected _); split;
                  [discriminate | reflexivity]].
  all: try solve [left; eexists (SubmissionRaised _ _); split;
                  [discriminate | reflexivity]].
  right. eauto.
Qed.

Lemma start_research_after_liveness (question : string)
    (allow_clarification : bool) (w : world) (resp : response) :
  answer (remote (now w) (log w) docs_request) = Ok resp ->
  let out := start_research remote py_str uuid4 question allow_clarification w in
  (exists f, f <> ServerUnavailable /\ fst out = Returns (render_start_failure f))
  \/ (exists sid, fst out = Returns (research_started_msg sid)).
Proof.
  unfold docs_request. intros Hdocs.
  unfold start_research, server_available. unfold_m. cbv zeta.
  rewrite Hdocs.
  run_cases; learn_frames; world_simpl; cbn [negb] in *; try discriminate;
    clean_eqs.
  all: try solve [left; exists NoAssistant; split; [discriminate | reflexivity]].
  all: try solve [left; exists NoThread; split; [discriminate | reflexivity]].
  all: try solve [left; eexists (SubmissionRejected _); split;
                  [discriminate | reflexivity]].
  all: try solve [left; eexists (SubmissionRaised _ ""); split;
                  [discriminate | reflexivity]].
  right. eauto.
Qed.

Lemma server_unavailable_is_its_own (f : start_failure) :
  (render_failure f = server_unavailable_msg -> f = ServerUnavailable)
  /\ (render_start_failure f = server_unavailable_msg -> f = ServerUnavailable).
Proof.
  split; destruct f; intros H; try reflexivity; exfalso;
    unfold render_failure, render_start_failure, server_unavailable_msg,
      no_assistant_msg, no_thread_msg, failed_to_start_msg, research_error_msg,
      start_error_msg in H;
    cbn [append] in H; discriminate H.
Qed.

(** X4: The liveness check of [research_question] and [start_research] fails
    exactly when the request to [/docs] raises: any HTTP response,
    whatever its status code, lets the function go on to the assistant,
    while [check_research_status] reports the same response as "not
    ready" when its code is not 200. *)
Theorem liveness_check_accepts_any_response (question : string)
    (allow_clarification : bool) (timeout : Z) (w : world) :
  let docs := answer (remote (now w) (log w) docs_request) in
  (fst (research_question remote py_str uuid4 question allow_clarification
          timeout w) = Returns server_unavailable_msg
   <-> exists e, docs = Err e)
  /\ (fst (start_research remote py_str uuid4 question allow_clarification w)
      = Returns server_unavailable_msg
      <-> exists e, docs = Err e)
  /\ (forall resp, docs = Ok resp ->
        fst (check_research_status remote w)
        = Returns (if status_code resp =? 200 then server_ready_msg
                   else server_status_msg (status_code resp))).
Proof.
  cbv zeta. split; [|split].
  - split.
    + intros H.
      destruct (answer (remote (now w) (log w) docs_request)) as [resp|e] eqn:Hd;
        [|eauto].
      exfalso.
      destruct (research_question_after_liveness question allow_clarification
                  timeout w resp Hd) as [(f & Hf & Hr) | (th & o & Hr)];
        cbv zeta in Hr; rewrite Hr in H; inversion H as [Heq].
      * apply Hf. apply (proj1 (server_unavailable_is_its_own f)). exact Heq.
      * apply (render_failure_not_wait ServerUnavailable th o). symmetry. exact Heq.
    + intros [e He]. unfold docs_request in He.
      unfold research_question, server_available. unfold_m. rewrite He.
      reflexivity.
  - split.
    + intros H.
      destruct (answer (remote (now w) (log w) docs_request)) as [resp|e] eqn:Hd;
        [|eauto].
      exfalso.
      destruct (start_research_after_liveness question allow_clarification
                  w resp Hd) as [(f & Hf & Hr) | (sid & Hr)];
        cbv zeta in Hr; rewrite Hr in H; inversion H as [Heq].
      apply Hf. apply (proj2 (server_unavailable_is_its_own f)). exact Heq.
    + intros [e He]. unfold docs_request in He.
      unfold start_research, server_available. unfold_m. rewrite He.
      reflexivity.
  - intros resp He. unfold docs_request in He.
    unfold check_research_status. unfold_m. rewrite He.
    destruct (status_code resp =? 200); reflexivity.
Qed.

(* ------------------------------------------------------------------ *)
(** *** The session tools of [async_research_mcp.py] *)

Lemma update_session_known (session_id : string) (f : session -> session)
    (s : session) (w : world) :
  assoc session_id (active_sessions w) = Some s ->
  update_session session_id f w
  = (Returns tt, with_sessions (dict_set session_id (f s) (active_sessions w)) w).
Proof.
  intros Hs. unfold update_session, bind, get_sessions, put_sessions.
  rewrite Hs. reflexivity.
Qed.

(** A progress check of a stored session, case by case. *)
Lemma check_research_progress_cases (session_id : string) (s : session) (w : world) :
  assoc session_id (active_sessions w) = Some s ->
  let q := GET (run_url (to_text py_str (thread_id s)) (to_text py_str (run_id s))) in
  let r := remote (now w) (log w) q in
  let w1 := after_fetch w q r in
  check_research_progress remote py_str session_id w
  = (Returns (progress_text py_str session_id s (now w1) (answer r)),
     with_sessions
       (progress_effect (run_status_seen (answer r)) session_id s (active_sessions w))
       w1).
Proof.
  intros Hs. cbv zeta.
  unfold check_research_progress, bind at 1, get_sessions. rewrite Hs.
  unfold progress_of, try_except, bind at 1, requests_get, perform.
  unfold progress_text, run_status_seen, progress_effect, status_of, after_fetch,
    with_sessions.
  destruct (answer _) as [resp|e]; cbn [res_bind]; world_simpl; [|reflexivity].
  unfold bind at 1. destruct (status_code resp =? 200); [|reflexivity].
  unfold bind at 1, lift at 1.
  destruct (json_body resp) as [d|e]; cbn [res_bind]; [|reflexivity].
  unfold bind at 1, lift at 1.
  destruct (py_get d "status" JNull) as [st|e]; [|reflexivity].
  destruct st as [| b | n | x | t | l | kv]; cbn [is_str orb]; try reflexivity.
  unfold is_failure_status.
  destruct (String.eqb t "success") eqn:E1.
  { unfold bind. erewrite update_session_known by (world_simpl; exact Hs).
    reflexivity. }
  destruct (String.eqb t "error" || String.eqb t "timeout"
            || String.eqb t "interrupted") eqn:E2.
  { unfold bind. erewrite update_session_known by (world_simpl; exact Hs).
    reflexivity. }
  destruct (String.eqb t "pending" || String.eqb t "running"); reflexivity.
Qed.

Lemma dict_set_keys {A} (k : string) (v : A) (d : dict A) :
  dict_in k d = true -> map fst (dict_set k v d) = map fst d.
Proof.
  induction d as [|[k' v'] d IH]; cbn [dict_in dict_set map fst]; intros H;
    [discriminate|].
  destruct (String.eqb k k') eqn:E; cbn [map fst]; [reflexivity|].
  cbn [orb] in H. rewrite IH by exact H. reflexivity.
Qed.

Lemma assoc_dict_set_other {A} (k k' : string) (v : A) (d : dict A) :
  k' <> k -> assoc k' (dict_set k v d) = assoc k' d.
Proof.
  intros Hne. induction d as [|[k0 v0] d IH]; cbn [dict_set assoc].
  - destruct (String.eqb k' k) eqn:E; [apply String.eqb_eq in E; contradiction|].
    reflexivity.
  - destruct (String.eqb k k0) eqn:E; cbn [assoc].
    + apply String.eqb_eq in E. subst k0.
      destruct (String.eqb k' k) eqn:E'; [apply String.eqb_eq in E'; contradiction|].
      reflexivity.
    + rewrite IH. reflexivity.
Qed.

(** X11: A progress check writes nothing but the status of the session it is
    asked about. For an unknown session id it returns its "not found"
    text with no request. For a stored session it issues the one status
    fetch and returns a text; the keys of the registry and every other
    session are as before, the session keeps thread, run, question and
    start time, and its status is [completed] when the fetch shows
    [success], [error] when it shows [error], [timeout] or [interrupted],
    and what it was in every other case ([pending] and [running]
    included). *)
Theorem progress_check_writes_status_only (session_id : string) (w : world) :
  let out := check_research_progress remote py_str session_id w in
  match assoc session_id (active_sessions w) with
  | None => out = (Returns (session_unknown_msg session_id), w)
  | Some s =>
      let q := GET (run_url (to_text py_str (thread_id s))
                      (to_text py_str (run_id s))) in
      let r := remote (now w) (log w) q in
      (exists m, fst out = Returns m)
      /\ log (snd out) = (q, answer r) :: log w
      /\ assistant_id (snd out) = assistant_id w
      /\ map fst (active_sessions (snd out)) = map fst (active_sessions w)
      /\ (forall k, k <> session_id ->
            assoc k (active_sessions (snd out)) = assoc k (active_sessions w))
      /\ exists s',
           assoc session_id (active_sessions (snd out)) = Some s'
           /\ thread_id s' = thread_id s /\ run_id s' = run_id s
           /\ question s' = question s /\ started_at s' = started_at s
           /\ status s'
              = match run_status_seen (answer r) with
                | Some t =>
                    if String.eqb t "success" then Some "completed"
                    else if is_failure_status t then Some "error"
                    else status s
                | None => status s
                end
  end.
Proof.
  cbv zeta.
  destruct (assoc session_id (active_sessions w)) as [s|] eqn:Hs.
  - rewrite (check_research_progress_cases session_id s w Hs).
    unfold after_fetch, with_sessions. world_simpl.
    assert (Hin : dict_in session_id (active_sessions w) = true)
      by (apply assoc_dict_in; eauto).
    split; [eexists; reflexivity|]. split; [reflexivity|].
    split; [reflexivity|].
    unfold progress_effect.
    destruct (run_status_seen _) as [t|];
      [destruct (String.eqb t "success"); [|destruct (is_failure_status t)]|].
    all: repeat split;
      try (apply dict_set_keys; exact Hin);
      try (intros k Hk; apply assoc_dict_set_other; exact Hk);
      try reflexivity.
    all: try (eexists; split; [apply assoc_dict_set_same|];
              repeat split; reflexivity).
    all: exists s; repeat split; assumption.
  - unfold check_research_progress, bind, get_sessions. rewrite Hs. reflexivity.
Qed.

Ltac pick_results_outcome :=
  first [ eexists (NotComplete _); split; [reflexivity|]
        | eexists (ResultsReport _); split; [reflexivity|]
        | eexists (ResultsClarification _); split; [reflexivity|]
        | exists ResultsNone; split; [reflexivity|]
        | exists ResultsUnavailable; split; [reflexivity|]
        | eexists (ResultsError _); split; [reflexivity|] ].

(** The text of a result retrieval tells a delivered report from every
    other end. *)
Lemma render_results_is_report (sid sid' : string) (o o' : results_outcome) :
  render_results sid o = render_results sid' o' ->
  is_results_report o = is_results_report o'.
Proof.
  destruct o, o'; intros H; try reflexivity; exfalso;
    unfold render_results, not_complete_msg, results_report_msg,
      results_clarification_msg, results_none_msg, results_unavailable_msg,
      results_error_msg in H;
    cbn [append] in H; discriminate H.
Qed.

Lemma get_research_results_spec (session_id : string) (s : session) (w : world) :
  assoc session_id (active_sessions w) = Some s ->
  let out := get_research_results remote py_str session_id w in
  now w <= now (snd out)
  /\ (length (log (snd out)) <= length (log w) + 2)%nat
  /\ assistant_id (snd out) = assistant_id w
  /\ exists o,
       fst out = Returns (render_results session_id o)
       /\ active_sessions (snd out)
          = if is_results_report o then dict_del session_id (active_sessions w)
            else active_sessions w.
Proof.
  intros Hs. cbv zeta.
  unfold get_research_results, bind at 1, get_sessions. rewrite Hs.
  unfold results_of. unfold_m.
  run_cases; clean_eqs; cbn [negb] in *; try discriminate.
  all: split; [lia|]. all: split; [cbn [length]; lia|].
  all: split; [reflexivity|].
  all: pick_results_outcome; reflexivity.
Qed.

(** X12: [get_research_results] deletes the session exactly when it returns
    the report: for an unknown session id it returns "not found" and
    changes nothing; for a stored session it returns one of its six texts,
    and the registry afterwards is the old one without the session when
    the text is the report and the old one in every other case (not yet
    complete, clarification, no results, state unavailable, error). *)
Theorem results_delete_session_only_on_report (session_id : string) (w : world) :
  let out := get_research_results remote py_str session_id w in
  match assoc session_id (active_sessions w) with
  | None => out = (Returns (session_not_found_msg session_id), w)
  | Some s =>
      exists o,
        fst out = Returns (render_results session_id o)
        /\ active_sessions (snd out)
           = (if is_results_report o then dict_del session_id (active_sessions w)
              else active_sessions w)
        /\ (forall sid' o',
              render_results sid' o' = render_results session_id o ->
              is_results_report o' = is_results_report o)
  end.
Proof.
  cbv zeta.
  destruct (assoc session_id (active_sessions w)) as [s|] eqn:Hs.
  - destruct (get_research_results_spec session_id s w Hs)
      as (_ & _ & _ & o & Ho & Hd).
    exists o. repeat split; try assumption.
    intros sid' o' H. exact (render_results_is_report _ _ _ _ H).
  - unfold get_research_results, bind, get_sessions. rewrite Hs. reflexivity.
Qed.

(** X13: A status fetch answered with an HTTP error does not hold back a
    finished report: [get_research_results] goes on to read the thread
    state, and when that holds a non-empty final report it returns the
    report and deletes the session. *)
Theorem report_delivered_without_status (session_id : string) (s : session)
    (w : world) (resp : response) (state r : json) :
  assoc session_id (active_sessions w) = Some s ->
  let q := GET (run_url (to_text py_str (thread_id s)) (to_text py_str (run_id s))) in
  answer (remote (now w) (log w) q) = Ok resp ->
  status_code resp <> 200 ->
  fetch_yields remote (after_fetch w q (remote (now w) (log w) q))
    (GET (state_url (to_text py_str (thread_id s)))) state ->
  final_report_of state = Ok r ->
  truthy r = true ->
  let out := get_research_results remote py_str session_id w in
  fst out = Returns (render_results session_id (ResultsReport (to_text py_str r)))
  /\ active_sessions (snd out) = dict_del session_id (active_sessions w).
Proof.
  intros Hs q Ha Hc (resp2 & Ha2 & Hc2 & Hb2) Hrep Htruthy. subst q. cbv zeta.
  unfold get_research_results, results_of, final_report_of, after_fetch in *.
  unfold_m. world_simpl. rewrite Hs.
  rewrite Ha in *. apply Z.eqb_neq in Hc. rewrite Hc. world_simpl.
  rewrite Ha2, Hc2. cbn [Z.eqb Pos.eqb]. rewrite Hb2.
  destruct (py_get state "values" (JDict [])) as [values|e]; cbn [res_bind] in Hrep;
    [|discriminate].
  rewrite Hrep, Htruthy. split; reflexivity.
Qed.

(** The texts [continue_research] ends in: a failure text, with the
    registry as it was, or the text of a continued session. *)
Lemma continue_research_texts (session_id clarification_answer : string)
    (w : world) :
  let out := continue_research remote py_str session_id clarification_answer w in
  (exists m, fst out = Returns m /\ contains "❌" m = true
             /\ active_sessions (snd out) = active_sessions w)
  \/ fst out = Returns (continued_session_msg session_id).
Proof.
  cbv zeta. unfold continue_research, update_session. unfold_m.
  run_cases; learn_frames; world_simpl; cbn [negb] in *; try discriminate;
    clean_eqs.
  all: try solve [left; eexists; split; [reflexivity|];
                  split; [reflexivity | congruence]].
  all: right; reflexivity.
Qed.

Lemma continue_research_returns (session_id clarification_answer : string)
    (w : world) :
  exists m,
    fst (continue_research remote py_str session_id clarification_answer w)
    = Returns m.
Proof.
  destruct (continue_research_texts session_id clarification_answer w)
    as [(m & Hm & _) | Hm]; eauto.
Qed.

(** X14: [continue_research] replaces the run of a session only after the new
    submission was answered with code 200 and a run id: for an unknown
    session id it returns "not found" and changes nothing; for a stored
    session it either returns one of its failure texts with the registry
    as it was, or the transcript has gained that submission, on the
    session's own thread, and the session holds the new run id, the status
    [running] and a new start time, with thread and question as before. *)
Theorem continuation_replaces_run_after_submission (session_id : string)
    (clarification_answer : string) (w : world) :
  let out := continue_research remote py_str session_id clarification_answer w in
  match assoc session_id (active_sessions w) with
  | None => out = (Returns (session_not_found_msg session_id), w)
  | Some s =>
      (active_sessions (snd out) = active_sessions w
       /\ (fst out = Returns no_assistant_msg
           \/ (exists t, fst out = Returns (failed_to_continue_msg t))
           \/ exists e, fst out = Returns (continue_error_msg e)))
      \/ (exists assistant resp body new_run older t,
            log (snd out)
            = ((POST (runs_url (to_text py_str (thread_id s)))
                  (clarification_payload assistant clarification_answer), Ok resp)
               :: older ++ log w)%list
            /\ status_code resp = 200
            /\ json_body resp = Ok body
            /\ py_getitem body "run_id" = Ok new_run
            /\ fst out = Returns (continued_session_msg session_id)
            /\ active_sessions (snd out)
               = dict_set session_id
                   {| thread_id := thread_id s; run_id := new_run;
                      question := question s; status := Some "running";
                      started_at := t |} (active_sessions w))
  end.
Proof.
  cbv zeta.
  destruct (assoc session_id (active_sessions w)) as [s|] eqn:Hs.
  - unfold continue_research, bind at 1, get_sessions. rewrite Hs.
    unfold update_session. unfold_m.
    run_cases; learn_frames; world_simpl; cbn [negb] in *; try discriminate;
      clean_eqs.
    all: try solve [left; split; [congruence | left; reflexivity]].
    all: try solve [left; split; [congruence | right; left; eexists; reflexivity]].
    all: try solve [left; split; [congruence | right; right; eexists; reflexivity]].
    all: try solve [exfalso; congruence].
    match goal with
    | H : active_sessions _ = active_sessions w |- _ => rewrite H in *
    end.
    repeat match goal with
           | H1 : ?x = Some ?a, H2 : ?x = Some ?b |- _ =>
               rewrite H1 in H2; inversion H2; subst; clear H2
           | H1 : ?x = Ok ?a, H2 : ?x = Ok ?b |- _ =>
               rewrite H1 in H2; inversion H2; subst; clear H2
           end.
    right. do 6 eexists.
    repeat match goal with
           | H : log _ = _ |- _ => rewrite H; clear H
           end.
    split; [reflexivity|].
    split; [apply Z.eqb_eq, negb_false_iff; assumption|].
    split; [eassumption|].
    split; [eassumption|].
    split; reflexivity.
  - unfold continue_research, bind, get_sessions. rewrite Hs. reflexivity.
Qed.

(* ------------------------------------------------------------------ *)
(** *** Resolution of the assistant, thread creation, ends of the wait *)

(** X5: [get_assistant] with a usable cached identifier returns it and
    changes nothing. Otherwise it never raises and leaves the registry
    alone; what it returns is in the cache afterwards, or it returns
    [None] with the cache as it was; it issues the search, and the create
    request only after a search that was answered, with a code other than
    200 or with an empty list: a search that raises is the only request,
    and the result is [None]. *)
Theorem assistant_created_only_after_answered_search (w : world) :
  let search := POST (LANGGRAPH_API_URL ++ "/assistants/search") (JDict []) in
  let create := POST (LANGGRAPH_API_URL ++ "/assistants") assistant_payload in
  let r1 := remote (now w) (log w) search in
  let w1 := after_fetch w search r1 in
  let out := get_assistant remote w in
  if truthy (assistant_id w) then out = (Returns (assistant_id w), w)
  else
    (exists a, fst out = Returns a
       /\ (assistant_id (snd out) = a
           \/ (a = JNull /\ assistant_id (snd out) = assistant_id w)))
    /\ active_sessions (snd out) = active_sessions w
    /\ (log (snd out) = (search, answer r1) :: log w
        \/ exists resp,
             answer r1 = Ok resp
             /\ (status_code resp <> 200
                 \/ exists body, json_body resp = Ok body /\ truthy body = false)
             /\ log (snd out)
                = (create, answer (remote (now w1) (log w1) create))
                  :: (search, Ok resp) :: log w)
    /\ (forall e, answer r1 = Err e -> out = (Returns JNull, w1)).
Proof.
  cbv zeta.
  destruct (truthy (assistant_id w)) eqn:Hc.
  - apply get_assistant_cached; [exact Hc | reflexivity].
  - unfold get_assistant, search_assistant, create_assistant, after_fetch.
    unfold_m. rewrite Hc.
    run_cases; clean_eqs; try discriminate.
    all: (split; [eexists; split; [reflexivity|];
                  first [left; reflexivity | right; split; reflexivity]|]).
    all: (split; [reflexivity|]).
    all: split; [|intros e' He'; try discriminate He'; try congruence].
    all: try (left; reflexivity).
    all: right; eexists; (split; [reflexivity|]).
    all: split; [|congruence].
    all: try (left; apply Z.eqb_neq; assumption).
    all: right; eexists; split; [eassumption|assumption].
Qed.

Lemma run_status_seen_inv (a : res response) (t : string) :
  run_status_seen a = Some t ->
  exists resp d,
    a = Ok resp /\ status_code resp = 200 /\ json_body resp = Ok d
    /\ py_get d "status" JNull = Ok (JStr t).
Proof.
  unfold run_status_seen, status_of. destruct a as [resp|e]; [|discriminate].
  destruct (status_code resp =? 200) eqn:Hc; [|discriminate].
  cbn [res_bind].
  destruct (json_body resp) as [d|e] eqn:Hb; cbn [res_bind]; [|discriminate].
  destruct (py_get d "status" JNull) as [[| | | | t' | |]|e] eqn:Hst;
    try discriminate.
  intros H. inversion H; subst. apply Z.eqb_eq in Hc.
  exists resp, d. repeat split; assumption.
Qed.

Lemma failure_status_is_not_success (t : string) :
  is_failure_status t = true ->
  String.eqb t "success" = false
  /\ (String.eqb t "error" || String.eqb t "timeout" || String.eqb t "interrupted")
     = true.
Proof.
  unfold is_failure_status. intros H. split; [|exact H].
  repeat (apply orb_true_iff in H; destruct H as [H | H]);
    apply String.eqb_eq in H; subst t; reflexivity.
Qed.

(** X8: with a deadline still ahead, a first status fetch that shows
    the run [error], [timeout] or [interrupted] ends the completion wait
    of either server at once: the result names the status, and the world
    afterwards is the world before with that one exchange on the
    transcript, so the session is still in the registry. *)
Theorem failed_run_ends_wait (thread_id run_id : json) (session_id : string)
    (timeout : Z) (w : world) (t : string) :
  let q := status_fetch py_str thread_id run_id in
  let r := remote (now w) (log w) q in
  0 < timeout ->
  run_status_seen (answer r) = Some t ->
  is_failure_status t = true ->
  wait_for_research_completion remote py_str thread_id run_id session_id timeout w
  = (Returns (render_wait (to_text py_str thread_id) (Failed t)), after_fetch w q r)
  /\ poll_for_completion remote py_str thread_id run_id timeout w
     = (Returns (poll_result "error" "message"
                   (JStr ("Research failed with status: " ++ t))),
        after_fetch w q r).
Proof.
  cbv zeta. intros Hpos Hseen Hfail.
  destruct (run_status_seen_inv _ _ Hseen) as (resp & d & Ha & Hc & Hb & Hst).
  destruct (failure_status_is_not_success t Hfail) as [Hns Hf].
  unfold status_fetch in *.
  assert (Hlt : (now w - now w <? timeout) = true) by (apply Z.ltb_lt; lia).
  split.
  - rewrite wait_unfold. unfold wait_fuel. rewrite wait_loop_unfold, Hlt.
    unfold wait_iteration, poll_once, after_fetch. unfold_m. cbv zeta.
    rewrite Ha, Hc. cbn [Z.eqb Pos.eqb]. rewrite Hb, Hst. cbn [is_str].
    rewrite Hns, Hf. reflexivity.
  - unfold poll_for_completion, bind at 1, time_time. unfold wait_fuel.
    rewrite poll_loop_unfold, Hlt.
    unfold poll_iteration, poll_check, after_fetch. unfold_m. cbv zeta.
    rewrite Ha, Hc. cbn [Z.eqb Pos.eqb]. rewrite Hb, Hst. cbn [is_str].
    rewrite Hns, Hf. reflexivity.
Qed.

(** X9: a state fetch that is answered with a code other than 200 after
    the run has succeeded is not an end of the wait, in either server: the
    pass returns nothing, both exchanges are on the transcript and the
    clock is two time units past the answer, so the next pass starts
    again with the status fetch. *)
Theorem refused_state_is_retried (thread_id run_id : json) (session_id : string)
    (w : world) (resp : response) :
  let q1 := status_fetch py_str thread_id run_id in
  let r1 := remote (now w) (log w) q1 in
  let w1 := after_fetch w q1 r1 in
  let q2 := GET (state_url (to_text py_str thread_id)) in
  let r2 := remote (now w1) (log w1) q2 in
  run_status_seen (answer r1) = Some "success" ->
  answer r2 = Ok resp ->
  status_code resp <> 200 ->
  wait_iteration remote py_str thread_id run_id session_id w
  = (Returns None, after_retry w1 q2 r2)
  /\ poll_iteration remote py_str thread_id run_id w
     = (Returns None, after_retry w1 q2 r2).
Proof.
  cbv zeta. intros Hseen Ha2 Hc2.
  destruct (run_status_seen_inv _ _ Hseen) as (resp1 & d & Ha & Hc & Hb & Hst).
  apply Z.eqb_neq in Hc2.
  unfold status_fetch, after_fetch, after_retry in *. world_simpl.
  split.
  - unfold wait_iteration, poll_once. unfold_m. cbv zeta.
    rewrite Ha in *. rewrite Hc. cbn [Z.eqb Pos.eqb]. rewrite Hb, Hst.
    cbn [is_str String.eqb Ascii.eqb Bool.eqb].
    world_simpl. rewrite Ha2, Hc2. reflexivity.
  - unfold poll_iteration, poll_check. unfold_m. cbv zeta.
    rewrite Ha in *. rewrite Hc. cbn [Z.eqb Pos.eqb]. rewrite Hb, Hst.
    cbn [is_str String.eqb Ascii.eqb Bool.eqb].
    world_simpl. rewrite Ha2, Hc2. reflexivity.
Qed.

(** X6: [create_thread] is exactly one request and never raises: it
    returns [None] when the request raises or is answered with a code
    other than 200 and 201, and a usable thread id it returns is the
    [thread_id] of the body of the answer. *)
Theorem create_thread_is_one_request (w : world) :
  let q := POST (LANGGRAPH_API_URL ++ "/threads") (JDict []) in
  let r := remote (now w) (log w) q in
  let out := create_thread remote w in
  snd out = after_fetch w q r
  /\ exists a,
       fst out = Returns a
       /\ (forall e, answer r = Err e -> a = JNull)
       /\ (forall resp, answer r = Ok resp ->
             (status_code resp <> 200 /\ status_code resp <> 201 -> a = JNull)
             /\ (truthy a = true ->
                 exists body, json_body resp = Ok body
                              /\ py_getitem body "thread_id" = Ok a)).
Proof.
  cbv zeta. unfold create_thread, after_fetch. unfold_m.
  run_cases; clean_eqs; try discriminate; (split; [reflexivity|]);
    eexists; (split; [reflexivity|]);
    (split; [intros e' He'; try discriminate He'; try reflexivity; congruence|]);
    intros resp' Hr'; inversion Hr'; subst;
    (split; [intros [H1 H2]; try reflexivity|intros Ht; try discriminate Ht]).
  all: try (apply orb_true_iff in Heqb as [Hb|Hb]; apply Z.eqb_eq in Hb; lia).
  all: eauto.
Qed.

(* ------------------------------------------------------------------ *)
(** *** What [poll_for_completion] returns *)

Lemma poll_iteration_cases (thread_id run_id : json) (w : world) :
  let out := poll_iteration remote py_str thread_id run_id w in
  active_sessions (snd out) = active_sessions w
  /\ assistant_id (snd out) = assistant_id w
  /\ match fst out with
     | Returns None => now w + 2 <= now (snd out)
     | Returns (Some d) =>
         poll_classified (to_text py_str thread_id) (log (snd out)) d
     | _ => False
     end.
Proof.
  unfold poll_iteration, poll_check, poll_classified. unfold_m. cbv zeta.
  run_cases; clean_eqs; try discriminate.
  all: split; [reflexivity|]. all: split; [reflexivity|]. all: try lia.
  all: try solve [right; right; eexists; reflexivity].
  - left. do 2 eexists. split; [reflexivity|]. split; [reflexivity|].
    split; [apply Z.eqb_eq; assumption | assumption].
  - right; left.
    match goal with
    | H : py_get _ "status" JNull = Ok ?st |- _ => destruct st; try discriminate
    end.
    cbn [is_str] in *. eexists. split; [|reflexivity]. assumption.
Qed.

Lemma poll_loop_classifies (start_time max_wait : Z) (thread_id run_id : json)
    (fuel : nat) :
  forall w : world,
  (Z.to_nat (start_time + max_wait - now w) < fuel)%nat ->
  let out := poll_loop remote py_str fuel start_time max_wait thread_id run_id w in
  active_sessions (snd out) = active_sessions w
  /\ assistant_id (snd out) = assistant_id w
  /\ exists d,
       fst out = Returns d
       /\ (poll_classified (to_text py_str thread_id) (log (snd out)) d
           \/ d = poll_result "timeout" "message" (JStr "Research timed out")).
Proof.
  induction fuel as [|fuel IH]; intros w Hfuel; [lia|].
  cbv zeta. rewrite poll_loop_unfold.
  destruct (now w - start_time <? max_wait) eqn:Hlt.
  - apply Z.ltb_lt in Hlt.
    pose proof (poll_iteration_cases thread_id run_id w) as HI. cbv zeta in HI.
    destruct (poll_iteration remote py_str thread_id run_id w)
      as [[[d|]|e|] w1]; world_simpl; destruct HI as (Hs & Ha & HI);
      try contradiction.
    + split; [exact Hs|]. split; [exact Ha|]. exists d. split; [reflexivity|].
      left. exact HI.
    + destruct (IH w1) as (Hs1 & Ha1 & d & Hd & Hc); [lia|].
      split; [congruence|]. split; [congruence|]. exists d. split; assumption.
  - world_simpl. split; [reflexivity|]. split; [reflexivity|].
    eexists. split; [reflexivity|]. right. reflexivity.
Qed.

(** X10: [poll_for_completion] always returns a dictionary, leaves the
    registry and the assistant cache alone, and the dictionary is one of
    four: [success] with the body of the state fetch answered last, with
    code 200; [error] for a run that has failed; [error] for an exception;
    [timeout]. *)
Theorem poll_for_completion_classifies (thread_id run_id : json) (max_wait : Z)
    (w : world) :
  let out := poll_for_completion remote py_str thread_id run_id max_wait w in
  active_sessions (snd out) = active_sessions w
  /\ assistant_id (snd out) = assistant_id w
  /\ exists d,
       fst out = Returns d
       /\ (poll_classified (to_text py_str thread_id) (log (snd out)) d
           \/ d = poll_result "timeout" "message" (JStr "Research timed out")).
Proof.
  exact (poll_loop_classifies (now w) max_wait thread_id run_id (wait_fuel max_wait)
           w (wait_fuel_enough max_wait w)).
Qed.

(* ------------------------------------------------------------------ *)
(** *** The statuses of the registry and the session listings *)

Lemma known_dict_set (k : string) (s : session) (d : dict session) :
  known_status s = true ->
  forallb (fun kv => known_status (snd kv)) d = true ->
  forallb (fun kv => known_status (snd kv)) (dict_set k s d) = true.
Proof.
  intros Hs. induction d as [|[k' v] d IH]; cbn [dict_set forallb snd]; intros H.
  - rewrite Hs. reflexivity.
  - apply andb_true_iff in H as [H1 H2].
    destruct (String.eqb k k'); cbn [forallb snd].
    + rewrite Hs, H2. reflexivity.
    + rewrite H1, IH by exact H2. reflexivity.
Qed.

Lemma known_dict_del (k : string) (d : dict session) :
  forallb (fun kv => known_status (snd kv)) d = true ->
  forallb (fun kv => known_status (snd kv)) (dict_del k d) = true.
Proof.
  induction d as [|[k' v] d IH]; cbn [dict_del forallb snd]; intros H; [reflexivity|].
  apply andb_true_iff in H as [H1 H2].
  destruct (String.eqb k k'); cbn [forallb snd].
  - exact H2.
  - rewrite H1, IH by exact H2. reflexivity.
Qed.

Lemma put_sessions_set_known (k : string) (s : session) (d : dict session) :
  known_status s = true ->
  forallb (fun kv => known_status (snd kv)) d = true ->
  forall w, statuses_known (snd (put_sessions (dict_set k s d) w)).
Proof.
  intros Hs Hd w. unfold statuses_known, put_sessions, with_sessions. world_simpl.
  apply known_dict_set; assumption.
Qed.

Lemma update_session_known_status (session_id : string) (f : session -> session) :
  (forall s, known_status (f s) = true) ->
  preserves statuses_known (update_session session_id f).
Proof.
  intros Hf w H. unfold update_session, bind, get_sessions.
  destruct (assoc session_id (active_sessions w)) as [s|]; [|exact H].
  apply put_sessions_set_known; [apply Hf | exact H].
Qed.

Lemma check_research_progress_known (session_id : string) :
  preserves statuses_known (check_research_progress remote py_str session_id).
Proof.
  unfold check_research_progress, progress_of. frame.
  all: apply update_session_known_status; intros; reflexivity.
Qed.

Ltac frame_known_step :=
  lazymatch goal with
  | |- preserves statuses_known
         (bind get_sessions (fun s => bind (put_sessions (@?d s)) (@?k s))) =>
      let w := fresh "w" in
      let H := fresh "H" in
      intros w H; unfold_m; world_simpl; unfold statuses_known in *; world_simpl;
      first [ apply known_dict_del; exact H
            | apply known_dict_set; [reflexivity | exact H] ]
  | |- _ => frame_step
  end.

Ltac frame_known := repeat frame_known_step.

Lemma get_research_results_known (session_id : string) :
  preserves statuses_known (get_research_results remote py_str session_id).
Proof. unfold get_research_results, results_of. frame_known. Qed.

Lemma get_assistant_known :
  preserves statuses_known (get_assistant remote).
Proof. unfold get_assistant, search_assistant, create_assistant. frame. Qed.

Lemma create_thread_known :
  preserves statuses_known (create_thread remote).
Proof. unfold create_thread. frame. Qed.

Lemma continue_research_known (session_id clarification_answer : string) :
  preserves statuses_known
    (continue_research remote py_str session_id clarification_answer).
Proof.
  unfold continue_research. frame_known.
  all: try apply get_assistant_known.
  all: apply update_session_known_status; intros; reflexivity.
Qed.

Lemma start_research_known (question : string) (allow_clarification : bool) :
  preserves statuses_known
    (start_research remote py_str uuid4 question allow_clarification).
Proof.
  unfold start_research, server_available. frame_known.
  all: first [apply get_assistant_known | apply create_thread_known].
Qed.

Lemma progress_pass_known (session_id : string) :
  preserves statuses_known (progress_pass remote py_str session_id).
Proof.
  unfold progress_pass, time_sleep. frame.
  all: first [apply check_research_progress_known | apply get_research_results_known].
Qed.

Lemma progress_loop_known (start_time timeout : Z) (session_id late : string) :
  forall fuel,
    preserves statuses_known
      (progress_loop remote py_str fuel start_time timeout session_id late).
Proof.
  induction fuel as [|fuel IH]; cbn [progress_loop]; frame.
  apply progress_pass_known.
Qed.

Lemma async_research_question_known (question : string) (allow_clarification : bool) :
  preserves statuses_known
    (async_research_question remote py_str uuid4 question allow_clarification).
Proof.
  unfold async_research_question, await_progress. frame.
  all: first [apply start_research_known | apply progress_loop_known].
Qed.

Lemma async_continue_known (clarification_answer : string) :
  preserves statuses_known
    (async_continue_research_with_clarification remote py_str clarification_answer).
Proof.
  unfold async_continue_research_with_clarification, await_progress. frame.
  all: first [apply continue_research_known | apply progress_loop_known].
Qed.

Lemma async_render_sessions_total (items : dict session) :
  forall (result : string) (w : world),
  forallb (fun kv => known_status (snd kv)) items = true ->
  exists tail,
    async_render_sessions items result w = (Returns (result ++ tail), w).
Proof.
  induction items as [|[k v] items IH]; intros result w H; cbn [async_render_sessions].
  - exists "". unfold ret. rewrite append_nil_r. reflexivity.
  - cbn [forallb snd] in H. apply andb_true_iff in H as [H1 H2].
    unfold bind, time_time, lift, status_text. unfold known_status in H1.
    destruct (status v) as [t|]; [|discriminate].
    destruct (IH (result ++ async_session_entry k t (str_int (now w - started_at v))
                    (take_chars 60 (question v))) w H2) as [tail ->].
    eexists. rewrite append_assoc. reflexivity.
Qed.

Lemma async_render_sessions_lists (k : string) (s : session) (t : string)
    (items : dict session) :
  forall (result : string) (w : world),
  forallb (fun kv => known_status (snd kv)) items = true ->
  In (k, s) items ->
  status s = Some t ->
  exists listing,
    async_render_sessions items result w = (Returns listing, w)
    /\ occurs_in (async_session_entry k t (str_int (now w - started_at s))
                    (take_chars 60 (question s))) listing.
Proof.
  induction items as [|[k' v] items IH]; intros result w H Hin Ht; [contradiction|].
  cbn [forallb snd] in H. apply andb_true_iff in H as [H1 H2].
  cbn [async_render_sessions]. unfold bind, time_time, lift, status_text.
  destruct Hin as [Heq | Hin].
  - inversion Heq; subst k' v. rewrite Ht.
    destruct (async_render_sessions_total items
                (result ++ async_session_entry k t (str_int (now w - started_at s))
                   (take_chars 60 (question s))) w H2) as [tail ->].
    eexists. split; [reflexivity|].
    exists result, tail. rewrite append_assoc. reflexivity.
  - unfold known_status in H1. destruct (status v) as [t'|]; [|discriminate].
    apply IH; assumption.
Qed.

(** X16: when every record has a status, [list_active_sessions] of
    [async_research_mcp.py], and [get_current_thread_info] with it, never
    raises and changes nothing, and the entry of every session of the
    registry is in the listing: its id, its status, its age and the first
    60 characters of its question. *)
Theorem session_listing_shows_status (k : string) (s : session) (t : string)
    (w : world) :
  statuses_known w ->
  In (k, s) (active_sessions w) ->
  status s = Some t ->
  exists listing,
    async_list_active_sessions w = (Returns listing, w)
    /\ get_current_thread_info w = (Returns listing, w)
    /\ occurs_in (async_session_entry k t (str_int (now w - started_at s))
                    (take_chars 60 (question s))) listing.
Proof.
  intros H Hin Ht. unfold get_current_thread_info, async_list_active_sessions,
    bind, get_sessions.
  unfold statuses_known in H.
  destruct (active_sessions w) as [|x d] eqn:Hd; [contradiction|].
  destruct (async_render_sessions_lists k s t (x :: d) sessions_header w H Hin Ht)
    as (listing & Hl & Ho).
  exists listing. auto.
Qed.

Lemma render_sessions_shows (k : string) (s : session) (items : dict session) :
  forall (result : string) (w : world),
  In (k, s) items ->
  exists listing,
    render_sessions py_str items result w = (Returns listing, w)
    /\ occurs_in (session_entry k (to_text py_str (thread_id s))
                    (take_chars 80 (question s)) (str_int (now w - started_at s))) listing.
Proof.
  induction items as [|[k' v] items IH]; intros result w Hin; [contradiction|].
  cbn [render_sessions]. unfold bind, time_time.
  destruct Hin as [Heq | Hin].
  - inversion Heq; subst k' v.
    destruct (render_sessions_extends items
                (result ++ session_entry k (to_text py_str (thread_id s))
                   (take_chars 80 (question s)) (str_int (now w - started_at s))) w)
      as [tail ->].
    eexists. split; [reflexivity|].
    exists result, tail. rewrite append_assoc. reflexivity.
  - apply IH. exact Hin.
Qed.

(** X7: [list_active_sessions] of [async_research_mcp_final.py] never
    raises and changes nothing; an empty registry gives the "no active
    sessions" text; and the entry of every session of the registry is in
    the listing: its id, its thread, the first 80 characters of its
    question and its age. *)
Theorem listing_is_read_only_and_complete (w : world) :
  (active_sessions w = [] ->
   list_active_sessions py_str w = (Returns no_sessions_msg, w))
  /\ exists listing,
       list_active_sessions py_str w = (Returns listing, w)
       /\ forall k s, In (k, s) (active_sessions w) ->
            occurs_in (session_entry k (to_text py_str (thread_id s))
                         (take_chars 80 (question s)) (str_int (now w - started_at s)))
              listing.
Proof.
  unfold list_active_sessions, bind, get_sessions.
  destruct (active_sessions w) as [|x d] eqn:Hd.
  - split; [reflexivity|]. eexists. split; [reflexivity|]. intros k s [].
  - split; [discriminate|].
    destruct (render_sessions_extends (x :: d) sessions_header w) as [tail Ht].
    eexists. split; [exact Ht|].
    intros k s Hin.
    destruct (render_sessions_shows k s (x :: d) sessions_header w Hin)
      as (listing & Hl & Ho).
    rewrite Ht in Hl. inversion Hl; subst. exact Ho.
Qed.

(* ------------------------------------------------------------------ *)
(** *** The markers in the texts and the polling of a session *)

Lemma uuid_text_take (n : nat) :
  forall s, uuid_text s = true -> uuid_text (take n s) = true.
Proof.
  unfold take. induction n as [|n IH]; intros [|c s] H; cbn [substring];
    try reflexivity.
  cbn [uuid_text] in *. apply andb_true_iff in H as [H1 H2].
  rewrite H1, IH by exact H2. reflexivity.
Qed.

Lemma uuid_text_digits (d : Decimal.uint) :
  uuid_text (NilEmpty.string_of_uint d) = true.
Proof.
  induction d; cbn [NilEmpty.string_of_uint uuid_text]; try rewrite IHd; reflexivity.
Qed.

Lemma uuid_text_uint (d : Decimal.uint) : uuid_text (NilZero.string_of_uint d) = true.
Proof. destruct d; try reflexivity; apply uuid_text_digits. Qed.

Lemma uuid_text_str_int (n : Z) : uuid_text (str_int n) = true.
Proof.
  unfold str_int, NilZero.string_of_int.
  destruct (Z.to_int n); cbn [uuid_text]; rewrite uuid_text_uint; reflexivity.
Qed.

Lemma contains_cons (c0 : ascii) (needle : string) (c : ascii) (s : string) :
  c0 <> c -> contains (String c0 needle) (String c s) = contains (String c0 needle) s.
Proof.
  intros Hne. cbn [contains prefix].
  destruct (ascii_dec c0 c) as [E|E]; [contradiction|]. reflexivity.
Qed.

Lemma contains_uuid_text (c0 : ascii) (needle : string) (tail : string) :
  uuid_char c0 = false ->
  forall s, uuid_text s = true ->
  contains (String c0 needle) (s ++ tail) = contains (String c0 needle) tail.
Proof.
  intros Hc0. induction s as [|c s IH]; intros H; [reflexivity|].
  cbn [uuid_text] in H. apply andb_true_iff in H as [H1 H2].
  cbn [append]. rewrite contains_cons; [apply IH; exact H2|].
  intros ->. congruence.
Qed.

Lemma contains_uuid_only (c0 : ascii) (needle : string) :
  uuid_char c0 = false ->
  forall s, uuid_text s = true -> contains (String c0 needle) s = false.
Proof.
  intros Hc0. induction s as [|c s IH]; intros H; [reflexivity|].
  cbn [uuid_text] in H. apply andb_true_iff in H as [H1 H2].
  rewrite contains_cons; [apply IH; exact H2|].
  intros ->. congruence.
Qed.

Lemma contains_step (needle : string) (c : ascii) (s : string) :
  prefix needle (String c s) = false ->
  contains needle (String c s) = contains needle s.
Proof. intros H. cbn [contains]. rewrite H. reflexivity. Qed.

Ltac marker_absent :=
  cbn [append];
  repeat first
    [ rewrite contains_step by reflexivity
    | rewrite contains_uuid_text
        by first [reflexivity | assumption | apply uuid_text_str_int] ];
  first [ reflexivity
        | apply contains_uuid_only;
          first [reflexivity | assumption | apply uuid_text_str_int] ].

Lemma running_text_has_no_marker (sid elapsed st : string) :
  uuid_text sid = true -> uuid_text elapsed = true ->
  st = "pending" \/ st = "running" ->
  contains "✅ Research completed" (progress_running_msg sid elapsed st) = false
  /\ contains "❌" (progress_running_msg sid elapsed st) = false.
Proof.
  intros Hs He [-> | ->]; unfold progress_running_msg, nl; split; marker_absent.
Qed.

Lemma unknown_text_has_no_marker (sid : string) :
  uuid_text sid = true ->
  contains "✅ Research completed" (progress_unknown_msg sid) = false
  /\ contains "❌" (progress_unknown_msg sid) = false.
Proof.
  intros Hs; unfold progress_unknown_msg; split; marker_absent.
Qed.

Lemma failed_text_marker (sid t : string) :
  uuid_text sid = true -> is_failure_status t = true ->
  contains "✅ Research completed" (progress_failed_msg sid t) = false
  /\ contains "❌" (progress_failed_msg sid t) = true.
Proof.
  intros Hs Ht. split; [|reflexivity].
  unfold is_failure_status in Ht.
  repeat (apply orb_true_iff in Ht; destruct Ht as [Ht | Ht]);
    apply String.eqb_eq in Ht; subst t; unfold progress_failed_msg; marker_absent.
Qed.

Lemma progress_pass_unfold (session_id : string) (s : session) (w : world) :
  assoc session_id (active_sessions w) = Some s ->
  let q := GET (run_url (to_text py_str (thread_id s)) (to_text py_str (run_id s))) in
  let r := remote (now w) (log w) q in
  let w1 := after_fetch w q r in
  let progress := progress_text py_str session_id s (now w1) (answer r) in
  let w2 := with_sessions
              (progress_effect (run_status_seen (answer r)) session_id s
                 (active_sessions w)) w1 in
  progress_pass remote py_str session_id w
  = if contains "✅ Research completed" progress then
      match get_research_results remote py_str session_id w2 with
      | (Returns m, w3) => (Returns (Some m), w3)
      | (Raises e, w3) => (Raises e, w3)
      | (OutOfFuel, w3) => (OutOfFuel, w3)
      end
    else if contains "❌" progress then (Returns (Some progress), w2)
    else (Returns None,
          {| now := now w2 + 2; log := log w2; active_sessions := active_sessions w2;
             assistant_id := assistant_id w2; uuids_drawn := uuids_drawn w2 |}).
Proof.
  intros Hs. cbv zeta. unfold progress_pass, bind at 1.
  rewrite (check_research_progress_cases session_id s w Hs).
  destruct (contains "✅ Research completed" _); [reflexivity|].
  destruct (contains "❌" _); reflexivity.
Qed.

(** X17: one pass of the polling loop of [research_question] and
    [continue_research_with_clarification] in [async_research_mcp.py], for
    a stored session whose id is made of the characters of a UUID. The
    markers the loop looks for in the progress text tell the cases apart:
    a status fetch answered without a terminal status gives no result and
    is followed by the sleep of two time units, with the registry as it
    was; one that shows [success] marks the session [completed] and the
    pass returns what [get_research_results] returns; one that shows a
    failed run marks the session [error] and the pass returns the failure
    text. *)
Theorem polling_pass_dispatch (session_id : string) (s : session) (w : world) :
  uuid_text session_id = true ->
  assoc session_id (active_sessions w) = Some s ->
  let q := GET (run_url (to_text py_str (thread_id s)) (to_text py_str (run_id s))) in
  let r := remote (now w) (log w) q in
  let w1 := after_fetch w q r in
  (pending (answer r) = true ->
   progress_pass remote py_str session_id w = (Returns None, after_retry w q r))
  /\ (run_status_seen (answer r) = Some "success" ->
      let results :=
        get_research_results remote py_str session_id
          (with_sessions
             (dict_set session_id (set_status "completed" s) (active_sessions w)) w1) in
      exists m,
        fst results = Returns m
        /\ progress_pass remote py_str session_id w = (Returns (Some m), snd results))
  /\ (forall t, run_status_seen (answer r) = Some t -> is_failure_status t = true ->
      progress_pass remote py_str session_id w
      = (Returns (Some (progress_failed_msg session_id t)),
         with_sessions
           (dict_set session_id (set_status "error" s) (active_sessions w)) w1)).
Proof.
  intros Hu Hs. cbv zeta.
  rewrite (progress_pass_unfold session_id s w Hs). cbv zeta.
  unfold progress_text, progress_effect, run_status_seen, pending, status_of,
    terminal_status, after_fetch, after_retry, with_sessions.
  world_simpl.
  destruct (answer _) as [resp|e]; cbn [res_bind];
    [|split; [discriminate | split; [discriminate | intros t H; discriminate H]]].
  destruct (status_code resp =? 200).
  2:{ destruct (unknown_text_has_no_marker session_id Hu) as [-> ->].
      split; [intros _; reflexivity|].
      split; [discriminate | intros t H; discriminate H]. }
  destruct (json_body resp) as [d|e]; cbn [res_bind];
    [|split; [discriminate | split; [discriminate | intros t H; discriminate H]]].
  destruct (py_get d "status" JNull) as [st|e];
    [|split; [discriminate | split; [discriminate | intros t H; discriminate H]]].
  destruct st as [| b | n | x | t | l | kv]; cbn [is_str orb negb];
    try (destruct (unknown_text_has_no_marker session_id Hu) as [-> ->];
         split; [intros _; reflexivity
                | split; [discriminate | intros t' H; discriminate H]]).
  destruct (String.eqb t "success") eqn:E1.
  { apply String.eqb_eq in E1. subst t. cbn [orb negb].
    split; [discriminate|]. split.
    - intros _.
      replace (contains "✅ Research completed" (progress_completed_msg session_id))
        with true by reflexivity.
      match goal with
      | |- context [get_research_results remote py_str session_id ?w0] =>
          destruct (get_research_results_spec session_id
                      (set_status "completed" s) w0) as (_ & _ & _ & o & Ho & _);
            [world_simpl; apply assoc_dict_set_same|];
            destruct (get_research_results remote py_str session_id w0) as [res w2]
      end.
      cbn [fst snd] in *. subst res. eexists. split; reflexivity.
    - intros t' H Hf. inversion H; subst t'. discriminate Hf. }
  cbn [orb].
  fold (is_failure_status t).
  destruct (is_failure_status t) eqn:E2.
  { cbn [negb]. split; [discriminate|]. split; [intros H; inversion H; subst; discriminate|].
    intros t' H _. inversion H; subst t'.
    change (to_text py_str (JStr t)) with t.
    destruct (failed_text_marker session_id t Hu E2) as [-> ->].
    reflexivity. }
  cbn [negb]. split; [intros _|split; [intros H; inversion H; subst; discriminate|]].
  - destruct (String.eqb t "pending" || String.eqb t "running") eqn:E3.
    + assert (Ht : t = "pending" \/ t = "running").
      { apply orb_true_iff in E3 as [E3|E3]; apply String.eqb_eq in E3; auto. }
      destruct (running_text_has_no_marker session_id
                  (str_int (now w + Z.of_N (latency (remote (now w) (log w)
                      (GET (run_url (to_text py_str (thread_id s))
                              (to_text py_str (run_id s)))))) - started_at s))
                  t Hu (uuid_text_str_int _) Ht) as [H1 H2].
      change (to_text py_str (JStr t)) with t. rewrite H1, H2. reflexivity.
    + destruct (unknown_text_has_no_marker session_id Hu) as [-> ->]. reflexivity.
  - intros t' H Hf. inversion H; subst t'. congruence.
Qed.

Lemma check_research_progress_returns (session_id : string) (w : world) :
  let out := check_research_progress remote py_str session_id w in
  (exists m, fst out = Returns m) /\ now w <= now (snd out).
Proof.
  cbv zeta.
  destruct (assoc session_id (active_sessions w)) as [s|] eqn:Hs.
  - rewrite (check_research_progress_cases session_id s w Hs).
    unfold after_fetch, with_sessions. world_simpl.
    split; [eexists; reflexivity | lia].
  - unfold check_research_progress, bind, get_sessions. rewrite Hs.
    split; [eexists; reflexivity | cbn; lia].
Qed.

Lemma get_research_results_returns (session_id : string) (w : world) :
  let out := get_research_results remote py_str session_id w in
  (exists m, fst out = Returns m) /\ now w <= now (snd out).
Proof.
  cbv zeta.
  destruct (assoc session_id (active_sessions w)) as [s|] eqn:Hs.
  - destruct (get_research_results_spec session_id s w Hs)
      as (Hn & _ & _ & o & Ho & _).
    split; [eauto | exact Hn].
  - unfold get_research_results, bind, get_sessions. rewrite Hs.
    split; [eexists; reflexivity | cbn; lia].
Qed.

Lemma progress_pass_spec (session_id : string) (w : world) :
  let out := progress_pass remote py_str session_id w in
  match fst out with
  | Returns None => now w + 2 <= now (snd out)
  | Returns (Some _) => True
  | _ => False
  end.
Proof.
  cbv zeta. unfold progress_pass, bind, ret.
  destruct (check_research_progress_returns session_id w) as [[m Hm] Hn].
  destruct (check_research_progress remote py_str session_id w) as [o w1].
  cbn [fst snd] in *. subst o.
  destruct (contains "✅ Research completed" m).
  - destruct (get_research_results_returns session_id w1) as [[m' Hm'] Hn'].
    destruct (get_research_results remote py_str session_id w1) as [o w2].
    cbn [fst snd] in *. subst o. exact I.
  - destruct (contains "❌" m); [exact I|].
    unfold time_sleep. unfold_m. world_simpl. lia.
Qed.

Lemma progress_loop_unfold (fuel : nat) (start_time timeout : Z)
    (session_id late : string) (w : world) :
  progress_loop remote py_str (S fuel) start_time timeout session_id late w
  = if now w - start_time <? timeout then
      match progress_pass remote py_str session_id w with
      | (Returns (Some m), w1) => (Returns m, w1)
      | (Returns None, w1) =>
          progress_loop remote py_str fuel start_time timeout session_id late w1
      | (Raises e, w1) => (Raises e, w1)
      | (OutOfFuel, w1) => (OutOfFuel, w1)
      end
    else (Returns late, w).
Proof.
  cbn [progress_loop]. unfold bind, time_time, ret.
  destruct (now w - start_time <? timeout); [|reflexivity].
  destruct (progress_pass remote py_str session_id w) as [[[m|]|e|] w1]; reflexivity.
Qed.

Lemma progress_loop_total (start_time timeout : Z) (session_id late : string)
    (fuel : nat) :
  forall w : world,
  (Z.to_nat (start_time + timeout - now w) < fuel)%nat ->
  exists m,
    fst (progress_loop remote py_str fuel start_time timeout session_id late w)
    = Returns m.
Proof.
  induction fuel as [|fuel IH]; intros w Hfuel; [lia|].
  rewrite progress_loop_unfold.
  destruct (now w - start_time <? timeout) eqn:Hlt; [|eexists; reflexivity].
  apply Z.ltb_lt in Hlt.
  pose proof (progress_pass_spec session_id w) as HI. cbv zeta in HI.
  destruct (progress_pass remote py_str session_id w) as [[[m|]|e|] w1];
    world_simpl; try contradiction.
  - eexists; reflexivity.
  - apply IH. lia.
Qed.

Lemma await_progress_total (session_id late : string) (w : world) :
  exists m, fst (await_progress remote py_str session_id late w) = Returns m.
Proof.
  exact (progress_loop_total (now w) 720 session_id late (wait_fuel 720) w
           (wait_fuel_enough 720 w)).
Qed.

Lemma start_failure_has_marker (f : start_failure) :
  contains "❌" (render_start_failure f) = true.
Proof. destruct f; reflexivity. Qed.

Lemma split_step (sep acc : string) (c : ascii) (s : string) :
  prefix sep (String c s) = false ->
  split_from sep 0 acc (String c s) = split_from sep 0 (acc ++ String c "") s.
Proof. intros H. cbn [split_from]. rewrite H. reflexivity. Qed.

Lemma split_found (sep acc : string) (c : ascii) (s : string) :
  prefix sep (String c s) = true ->
  split_from sep 0 acc (String c s)
  = acc :: split_from sep (String.length sep - 1) "" s.
Proof. intros H. cbn [split_from]. rewrite H. reflexivity. Qed.

Lemma split_skip (sep acc : string) (k : nat) (c : ascii) (s : string) :
  split_from sep (S k) acc (String c s) = split_from sep k acc s.
Proof. reflexivity. Qed.

Lemma append_cons_r (a : string) (c : ascii) (b : string) :
  (a ++ String c "") ++ b = a ++ String c b.
Proof. rewrite append_assoc. reflexivity. Qed.

Lemma split_uuid_text (c0 : ascii) (sep tail : string) :
  uuid_char c0 = false ->
  forall s acc, uuid_text s = true ->
  split_from (String c0 sep) 0 acc (s ++ tail)
  = split_from (String c0 sep) 0 (acc ++ s) tail.
Proof.
  intros Hc0. induction s as [|c s IH]; intros acc H.
  - rewrite append_nil_r. reflexivity.
  - cbn [uuid_text] in H. apply andb_true_iff in H as [H1 H2].
    cbn [append]. rewrite split_step.
    + rewrite IH by exact H2. rewrite append_cons_r. reflexivity.
    + cbn [prefix]. destruct (ascii_dec c0 c) as [E|E]; [|reflexivity].
      subst c. congruence.
Qed.

Lemma prefix_nil (s : string) : prefix "" s = true.
Proof. destruct s; reflexivity. Qed.

Lemma prefix_cons_same (c : ascii) (a b : string) :
  prefix (String c a) (String c b) = prefix a b.
Proof. cbn [prefix]. destruct (ascii_dec c c); [reflexivity | contradiction]. Qed.

(** The session id is read back from the text of a started session. *)
Lemma session_id_round_trip (sid : string) :
  uuid_text sid = true ->
  session_id_of (research_started_msg sid) = Ok sid
  /\ contains "❌" (research_started_msg sid) = false.
Proof.
  intros Hu. split.
  - unfold session_id_of, py_split, research_started_msg, nl. cbn [append].
    repeat first
      [ rewrite split_step by reflexivity
      | rewrite split_uuid_text by first [reflexivity | assumption] ].
    rewrite split_found by (rewrite !prefix_cons_same; apply prefix_nil).
    cbn [String.length Nat.sub].
    rewrite !split_skip.
    repeat first
      [ rewrite split_step by reflexivity
      | rewrite split_uuid_text by first [reflexivity | assumption] ].
    cbn [split_from].
    rewrite !append_assoc. cbn [append].
    rewrite split_uuid_text by first [reflexivity | assumption].
    rewrite split_found by reflexivity. reflexivity.
  - unfold research_started_msg, nl. marker_absent.
Qed.

Lemma get_assistant_draws (n : nat) : preserves (draws_are n) (get_assistant remote).
Proof. unfold get_assistant, search_assistant, create_assistant. frame. Qed.

Lemma create_thread_draws (n : nat) : preserves (draws_are n) (create_thread remote).
Proof. unfold create_thread. frame. Qed.

Ltac learn_draws :=
  repeat match goal with
    | H : get_assistant remote ?w = (_, ?w') |- _ =>
        lazymatch goal with
        | _ : uuids_drawn w' = uuids_drawn w |- _ => fail
        | _ => idtac
        end;
        let Hd := fresh "Hdraw" in
        pose proof (get_assistant_draws (uuids_drawn w) w eq_refl) as Hd;
        rewrite H in Hd; unfold draws_are in Hd; cbn [snd] in Hd
    | H : create_thread remote ?w = (_, ?w') |- _ =>
        lazymatch goal with
        | _ : uuids_drawn w' = uuids_drawn w |- _ => fail
        | _ => idtac
        end;
        let Hd := fresh "Hdraw" in
        pose proof (create_thread_draws (uuids_drawn w) w eq_refl) as Hd;
        rewrite H in Hd; unfold draws_are in Hd; cbn [snd] in Hd
    end.

Lemma start_research_names_session (question : string) (allow_clarification : bool)
    (w : world) :
  let out := start_research remote py_str uuid4 question allow_clarification w in
  let sid := take 8 (uuid4 (uuids_drawn w)) in
  (exists f, fst out = Returns (render_start_failure f)
             /\ active_sessions (snd out) = active_sessions w)
  \/ (fst out = Returns (research_started_msg sid)
      /\ exists s, assoc sid (active_sessions (snd out)) = Some s
                   /\ status s = Some "running").
Proof.
  unfold start_research, server_available. unfold_m. cbv zeta.
  run_cases; learn_draws; learn_frames; world_simpl; cbn [negb] in *;
    try discriminate; clean_eqs.
  all: try solve [left; eexists ServerUnavailable; split; [reflexivity|congruence]].
  all: try solve [left; eexists NoAssistant; split; [reflexivity|congruence]].
  all: try solve [left; eexists NoThread; split; [reflexivity|congruence]].
  all: try solve [left; eexists (SubmissionRejected _); split; [reflexivity|congruence]].
  all: try solve [left; eexists (SubmissionRaised _ ""); split; [reflexivity|congruence]].
  right.
  repeat match goal with
         | H : uuids_drawn _ = _ |- _ => rewrite H in *; clear H
         end.
  split; [reflexivity|].
  eexists. split; [apply assoc_dict_set_same | reflexivity].
Qed.

Lemma start_research_returns (question : string) (allow_clarification : bool)
    (w : world) :
  exists m,
    fst (start_research remote py_str uuid4 question allow_clarification w)
    = Returns m.
Proof.
  destruct (start_research_spec question allow_clarification w)
    as [(f & Hf & _) | (th & a & r & resp & body & older & sid & t & _ & _ & _ & _
                        & Hs & _)]; eauto.
Qed.

Lemma async_research_question_total (question : string)
    (allow_clarification : bool) (w : world) :
  exists m,
    fst (async_research_question remote py_str uuid4 question allow_clarification w)
    = Returns m.
Proof.
  unfold async_research_question, bind, ret.
  destruct (start_research_returns question allow_clarification w) as [m Hm].
  destruct (start_research remote py_str uuid4 question allow_clarification w)
    as [o w1].
  cbn [fst] in Hm. subst o.
  destruct (contains "❌" m); [eexists; reflexivity|].
  destruct (session_id_of m) as [sid|e]; [|eexists; reflexivity].
  apply await_progress_total.
Qed.

(** X18: [research_question] of [async_research_mcp.py], when the UUID
    drawn is in text form. Either [start_research] fails, and the tool
    returns that failure text with the registry as it was; or the session
    id read back from the text of [start_research] is the id the session
    was stored under, with status [running], and the tool returns what the
    polling of that session returns, which is always a text. *)
Theorem research_question_polls_started_session (question : string)
    (allow_clarification : bool) (w : world) :
  uuid_text (uuid4 (uuids_drawn w)) = true ->
  let started := start_research remote py_str uuid4 question allow_clarification w in
  let out := async_research_question remote py_str uuid4 question
               allow_clarification w in
  let sid := take 8 (uuid4 (uuids_drawn w)) in
  (exists f, fst started = Returns (render_start_failure f)
             /\ active_sessions (snd started) = active_sessions w
             /\ out = started)
  \/ (fst started = Returns (research_started_msg sid)
      /\ (exists s, assoc sid (active_sessions (snd started)) = Some s
                    /\ status s = Some "running")
      /\ out = await_progress remote py_str sid (taking_longer_msg sid)
                 (snd started)
      /\ exists m, fst out = Returns m).
Proof.
  intros Hu. cbv zeta.
  pose proof (async_research_question_total question allow_clarification w) as Htot.
  unfold async_research_question, bind, ret in *.
  destruct (start_research_names_session question
              allow_clarification w) as [(f & Hf & Hr) | (Hs & Hreg)];
    cbv zeta in *;
    destruct (start_research remote py_str uuid4 question allow_clarification w)
      as [o w1]; cbn [fst snd] in *; subst o.
  - left. exists f. rewrite start_failure_has_marker. auto.
  - right.
    destruct (session_id_round_trip (take 8 (uuid4 (uuids_drawn w)))
                (uuid_text_take 8 _ Hu)) as [Hid Hmark].
    rewrite Hmark, Hid in *. auto.
Qed.

Lemma latest_key_from_max (rest : dict session) :
  forall best : string * session,
  exists s,
    In (latest_key_from best rest, s) (best :: rest)
    /\ started_at (snd best) <= started_at s
    /\ forall p, In p rest -> started_at (snd p) <= started_at s.
Proof.
  induction rest as [|[k s] rest IH]; intros best; cbn [latest_key_from].
  - exists (snd best). split; [left; destruct best; reflexivity|].
    split; [lia | intros p []].
  - destruct (IH (if started_at (snd best) <? started_at s then (k, s) else best))
      as (l & Hin & Hle & Hall).
    exists l. destruct (started_at (snd best) <? started_at s) eqn:Hlt.
    + apply Z.ltb_lt in Hlt. cbn [snd] in Hle. split; [|split].
      * destruct Hin as [Hin | Hin]; [right; left; exact Hin | right; right; exact Hin].
      * lia.
      * intros p [<- | Hp]; [exact Hle | apply Hall; exact Hp].
    + apply Z.ltb_ge in Hlt. split; [|split].
      * destruct Hin as [Hin | Hin]; [left; exact Hin | right; right; exact Hin].
      * exact Hle.
      * intros p [<- | Hp]; [cbn [snd]; lia | apply Hall; exact Hp].
Qed.

Lemma continued_text_has_no_marker (sid : string) :
  uuid_text sid = true -> contains "❌" (continued_session_msg sid) = false.
Proof. intros Hu. unfold continued_session_msg, nl. marker_absent. Qed.

Lemma async_continue_unfold (clarification_answer : string)
    (first : string * session) (rest : dict session) (w : world) :
  active_sessions w = first :: rest ->
  async_continue_research_with_clarification remote py_str clarification_answer w
  = let k := latest_key_from first rest in
    match continue_research remote py_str k clarification_answer w with
    | (Returns m, w1) =>
        if contains "❌" m then (Returns m, w1)
        else await_progress remote py_str k (still_running_msg k) w1
    | (Raises e, w1) => (Raises e, w1)
    | (OutOfFuel, w1) => (OutOfFuel, w1)
    end.
Proof.
  intros Hd. unfold async_continue_research_with_clarification, bind at 1, get_sessions.
  rewrite Hd. unfold bind, ret. cbv zeta.
  destruct (continue_research remote py_str (latest_key_from first rest)
              clarification_answer w) as [[m| |] w1]; try reflexivity.
  destruct (contains "❌" m); reflexivity.
Qed.

(** X19: [continue_research_with_clarification] of
    [async_research_mcp.py] on a registry that is not empty: the session it
    continues is one of the registry than which none started later; the
    tool always returns a text; when [continue_research] fails the tool
    returns that failure text and the registry is as it was, and otherwise
    it returns what the polling of that session returns. *)
Theorem continuation_goes_to_latest_session (clarification_answer : string)
    (first : string * session) (rest : dict session) (w : world) :
  active_sessions w = first :: rest ->
  uuid_text (latest_key_from first rest) = true ->
  let k := latest_key_from first rest in
  let continued := continue_research remote py_str k clarification_answer w in
  let out := async_continue_research_with_clarification remote py_str
               clarification_answer w in
  (exists s, In (k, s) (active_sessions w)
             /\ forall p, In p (active_sessions w) -> started_at (snd p) <= started_at s)
  /\ (exists m, fst out = Returns m)
  /\ ((fst continued = Returns (continued_session_msg k)
       /\ out = await_progress remote py_str k (still_running_msg k) (snd continued))
      \/ (fst continued <> Returns (continued_session_msg k)
          /\ active_sessions (snd continued) = active_sessions w
          /\ out = continued)).
Proof.
  intros Hd Hu. cbv zeta. split; [|split].
  - destruct (latest_key_from_max rest first) as (s & Hin & Hle & Hall).
    exists s. rewrite Hd. split; [exact Hin|].
    intros p [<- | Hp]; [exact Hle | apply Hall; exact Hp].
  - rewrite (async_continue_unfold clarification_answer first rest w Hd). cbv zeta.
    destruct (continue_research_returns (latest_key_from first rest)
                clarification_answer w) as [m Hm].
    destruct (continue_research remote py_str (latest_key_from first rest)
                clarification_answer w) as [o w1].
    cbn [fst] in Hm. subst o.
    destruct (contains "❌" m); [eexists; reflexivity | apply await_progress_total].
  - rewrite (async_continue_unfold clarification_answer first rest w Hd). cbv zeta.
    pose proof (continued_text_has_no_marker _ Hu) as Hok.
    destruct (continue_research_texts (latest_key_from first rest)
                clarification_answer w) as [(m & Hm & Hmark & Hreg) | Hm];
      cbv zeta in *;
      destruct (continue_research remote py_str (latest_key_from first rest)
                  clarification_answer w) as [o w1];
      cbn [fst snd] in *; subst o.
    + right. rewrite Hmark. split; [|split; [exact Hreg | reflexivity]].
      intros E. inversion E as [E']. rewrite E' in Hmark. congruence.
    + left. rewrite Hok. split; reflexivity.
Qed.

(** X15: every record the tools of [async_research_mcp.py] leave in the
    registry has a status, one of [running], [completed] and [error]: the
    registry of a fresh process has the property, and each tool that
    writes the registry or polls keeps it. *)
Theorem session_tools_keep_statuses_known :
  (forall t, statuses_known (boot t))
  /\ (forall question allow_clarification,
        preserves statuses_known
          (start_research remote py_str uuid4 question allow_clarification))
  /\ (forall session_id,
        preserves statuses_known (check_research_progress remote py_str session_id))
  /\ (forall session_id,
        preserves statuses_known (get_research_results remote py_str session_id))
  /\ (forall session_id clarification_answer,
        preserves statuses_known
          (continue_research remote py_str session_id clarification_answer))
  /\ (forall question allow_clarification,
        preserves statuses_known
          (async_research_question remote py_str uuid4 question allow_clarification))
  /\ (forall question allow_clarification timeout,
        preserves statuses_known
          (research_question_sync remote py_str uuid4 question allow_clarification
             timeout))
  /\ (forall clarification_answer,
        preserves statuses_known
          (async_continue_research_with_clarification remote py_str
             clarification_answer)).
Proof.
  split; [intros t; reflexivity|].
  split; [intros; apply start_research_known|].
  split; [intros; apply check_research_progress_known|].
  split; [intros; apply get_research_results_known|].
  split; [intros; apply continue_research_known|].
  split; [intros; apply async_research_question_known|].
  split; [intros; apply async_research_question_known|].
  intros; apply async_continue_known.
Qed.

Lemma async_continue_total (clarification_answer : string) (w : world) :
  exists m,
    fst (async_continue_research_with_clarification remote py_str
           clarification_answer w) = Returns m.
Proof.
  destruct (active_sessions w) as [|first rest] eqn:Hd.
  - unfold async_continue_research_with_clarification, bind, get_sessions.
    rewrite Hd. eexists. reflexivity.
  - rewrite (async_continue_unfold clarification_answer first rest w Hd). cbv zeta.
    destruct (continue_research_returns (latest_key_from first rest)
                clarification_answer w) as [m Hm].
    destruct (continue_research remote py_str (latest_key_from first rest)
                clarification_answer w) as [o w1].
    cbn [fst] in Hm. subst o.
    destruct (contains "❌" m); [eexists; reflexivity | apply await_progress_total].
Qed.

(** X20: every tool of [async_research_mcp.py] that talks to the engine
    returns a text, whatever the engine answers and whatever the registry
    holds: no exception leaves it, and the polling of [research_question]
    and [continue_research_with_clarification] comes to an end.
    [research_question_sync] is [research_question], whatever its
    [timeout]. *)
Theorem session_tools_always_return (w : world) :
  (forall question allow_clarification,
     exists m,
       fst (start_research remote py_str uuid4 question allow_clarification w)
       = Returns m)
  /\ (forall session_id,
        exists m,
          fst (check_research_progress remote py_str session_id w) = Returns m)
  /\ (forall session_id,
        exists m,
          fst (get_research_results remote py_str session_id w) = Returns m)
  /\ (forall session_id clarification_answer,
        exists m,
          fst (continue_research remote py_str session_id clarification_answer w)
          = Returns m)
  /\ (forall question allow_clarification,
        exists m,
          fst (async_research_question remote py_str uuid4 question
                 allow_clarification w) = Returns m)
  /\ (forall question allow_clarification timeout,
        research_question_sync remote py_str uuid4 question allow_clarification
          timeout w
        = async_research_question remote py_str uuid4 question
            allow_clarification w)
  /\ (forall clarification_answer,
        exists m,
          fst (async_continue_research_with_clarification remote py_str
                 clarification_answer w) = Returns m)
  /\ exists m, fst (check_research_status remote w) = Returns m.
Proof.
  split; [intros; apply start_research_returns|].
  split; [intros; apply check_research_progress_returns|].
  split; [intros; apply get_research_results_returns|].
  split; [intros; apply continue_research_returns|].
  split; [intros; apply async_research_question_total|].
  split; [intros; reflexivity|].
  split; [intros; apply async_continue_total|].
  unfold check_research_status. unfold_m. run_cases; eexists; reflexivity.
Qed.

(* ------------------------------------------------------------------ *)
(** *** Totality of the final server, deadlines and the gate of the results *)

(** X21: every tool of [async_research_mcp_final.py] returns a text,
    whatever the engine answers and whatever the registry holds: no
    exception leaves it, and the wait inside [research_question] comes to
    an end for every [timeout]. *)
Theorem final_tools_always_return (w : world) :
  (forall question allow_clarification timeout,
     exists m,
       fst (research_question remote py_str uuid4 question allow_clarification
              timeout w) = Returns m)
  /\ (forall clarification_answer thread,
        exists m,
          fst (continue_research_with_clarification remote py_str
                 clarification_answer thread w) = Returns m)
  /\ (forall thread,
        exists m, fst (get_research_by_thread_id remote py_str thread w) = Returns m)
  /\ (exists m, fst (check_research_status remote w) = Returns m)
  /\ exists m, fst (list_active_sessions py_str w) = Returns m.
Proof.
  split; [|split; [|split; [|split]]].
  - intros question allow_clarification timeout.
    destruct (research_question_spec question
                allow_clarification timeout w)
      as [(f & Hf & _)
         | (th & a & r & resp & body & older & newer & sid & t & o & _ & _ & _ & _
            & Ho & _)]; eauto.
  - intros clarification_answer thread.
    unfold continue_research_with_clarification.
    destruct thread as [t|]; [destruct (String.eqb t "")|].
    + apply continue_latest_spec.
    + apply continue_on_thread_spec.
    + apply continue_latest_spec.
  - intros thread. unfold get_research_by_thread_id. unfold_m.
    run_cases; eexists; reflexivity.
  - unfold check_research_status. unfold_m. run_cases; eexists; reflexivity.
  - destruct (render_sessions_extends (active_sessions w) sessions_header w)
      as [tail Ht].
    unfold list_active_sessions, bind, get_sessions.
    destruct (active_sessions w); [eexists; reflexivity|].
    rewrite Ht. eexists. reflexivity.
Qed.

(** X22: with a deadline that is not positive neither wait issues a
    request: it returns its timed-out result with the world as it was. *)
Theorem nonpositive_timeout_never_polls (thread_id run_id : json)
    (session_id : string) (timeout : Z) (w : world) :
  timeout <= 0 ->
  wait_for_research_completion remote py_str thread_id run_id session_id timeout w
  = (Returns (wait_timed_out_msg timeout (to_text py_str thread_id)), w)
  /\ poll_for_completion remote py_str thread_id run_id timeout w
     = (Returns (poll_result "timeout" "message" (JStr "Research timed out")), w).
Proof.
  intros Hle.
  assert (Hlt : (now w - now w <? timeout) = false) by (apply Z.ltb_ge; lia).
  split.
  - rewrite wait_unfold. unfold wait_fuel. rewrite wait_loop_unfold, Hlt. reflexivity.
  - unfold poll_for_completion, bind at 1, time_time. unfold wait_fuel.
    rewrite poll_loop_unfold, Hlt. reflexivity.
Qed.

(** X23: [get_research_results] does not read the thread state before the
    run has succeeded: when the status fetch is answered with code 200 and
    a status other than [success], the function returns its "not yet
    complete" text, which names the status, after that one request, and
    the session stays in the registry. *)
Theorem results_wait_for_success (session_id : string) (s : session) (w : world)
    (resp : response) (st : json) :
  assoc session_id (active_sessions w) = Some s ->
  let q := GET (run_url (to_text py_str (thread_id s)) (to_text py_str (run_id s))) in
  let r := remote (now w) (log w) q in
  answer r = Ok resp ->
  status_code resp = 200 ->
  status_of (answer r) = Ok st ->
  is_str st "success" = false ->
  get_research_results remote py_str session_id w
  = (Returns (not_complete_msg session_id (to_text py_str st)), after_fetch w q r).
Proof.
  intros Hs q r Ha Hc Hst Hne. subst q r.
  unfold get_research_results, results_of, status_of, after_fetch in *.
  unfold_m. rewrite Hs. rewrite Ha in *. cbn [res_bind] in Hst. rewrite Hc.
  cbn [Z.eqb Pos.eqb].
  destruct (json_body resp) as [d|e]; cbn [res_bind] in Hst; [|discriminate].
  rewrite Hst, Hne. reflexivity.
Qed.

End ServerProperties.

(* ================================================================== *)
(** ** Concrete runs *)

(** The first scenario of the specification: the run succeeds at once and
    the state holds the report ["Paris."]; the tool returns the report and
    the session it had stored is gone from the registry. *)
Example capital_of_france :
  let asked := research_question success_engine str_of_scalar fixed_uuid
                 "What is the capital of France?" true default_timeout (boot 0) in
  fst asked = Returns (report_msg "Paris.")
  /\ active_sessions (snd asked) = []
  /\ assistant_id (snd asked) = JStr "a1".
Proof. cbv zeta. repeat split; vm_compute; reflexivity. Qed.

(** A message whose content is a list of blocks makes both extractors end
    in their diagnostic text: [list] has no [lower]. *)
Example content_blocks_raise :
  let blocks :=
    JDict [("values",
            JDict [("messages",
                    JList [JDict [("content",
                                   JList [JDict [("type", JStr "text");
                                                 ("text", JStr "Which region?")]])]])])] in
  let e := mock_engine (fun _ => JStr "success") (fun _ => blocks) in
  fst (get_research_by_thread_id e str_of_scalar "t1" (boot 0))
  = Returns (retrieve_error_msg "'list' object has no attribute 'lower'")
  /\ fst (wait_for_research_completion e str_of_scalar (JStr "t1") (JStr "r1")
            "01234567" 4 (boot 0))
     = Returns (wait_error_msg "'list' object has no attribute 'lower'" "t1").
Proof. cbv zeta. split; vm_compute; reflexivity. Qed.

Lemma report_has_priority_witness :
  final_report_of report_and_question = Ok (JStr "Paris.")
  /\ truthy (JStr "Paris.") = true
  /\ fst (wait_loop success_engine str_of_scalar 1 0 720 (JStr "t1") (JStr "r1")
            "01234567" (boot 0))
     = Returns (report_msg "Paris.")
  /\ fst (get_research_by_thread_id success_engine str_of_scalar "t1" (boot 0))
     = Returns (report_msg "Paris.").
Proof.
  destruct (report_has_priority success_engine str_of_scalar report_and_question
              (JStr "Paris.") eq_refl eq_refl) as [Hwait Hthread].
  split; [reflexivity|]. split; [reflexivity|]. split.
  - apply (Hwait (JStr "t1") (JStr "r1") "01234567" 0 720 0%nat (boot 0)
             (JDict [("status", JStr "success")])).
    + reflexivity.
    + eexists. repeat split; reflexivity.
    + reflexivity.
    + eexists. repeat split; reflexivity.
  - apply Hthread. eexists. repeat split; reflexivity.
Defined.

(** The scenario of the specification in the server that waits: deadline
    4, poll interval 2, a run that stays [running]; the session, stored as
    [research_question] stores it, keeps its record, which has no status. *)
Lemma wait_times_out_witness :
  let s := {| thread_id := JStr "t1"; run_id := JStr "r1";
              question := "What is the capital of France?";
              status := None; started_at := 0 |} in
  let w := with_sessions [("01234567", s)] (boot 0) in
  (forall t l, now w <= t < now w + 4 ->
     pending (answer (running_engine t l (status_fetch str_of_scalar (JStr "t1")
                                            (JStr "r1")))) = true)
  /\ fst (wait_for_research_completion running_engine str_of_scalar (JStr "t1")
            (JStr "r1") "01234567" 4 w)
     = Returns (wait_timed_out_msg 4 "t1")
  /\ assoc "01234567"
       (active_sessions
          (snd (wait_for_research_completion running_engine str_of_scalar
                  (JStr "t1") (JStr "r1") "01234567" 4 w)))
     = Some s
  /\ assoc "01234567"
       (active_sessions
          (snd (poll_for_completion running_engine str_of_scalar (JStr "t1")
                  (JStr "r1") 4 w)))
     = Some s.
Proof.
  intros s w.
  assert (Hpend : forall t l, now w <= t < now w + 4 ->
            pending (answer (running_engine t l
                               (status_fetch str_of_scalar (JStr "t1") (JStr "r1"))))
            = true) by (intros t l _; reflexivity).
  destruct (wait_times_out_and_keeps_session running_engine str_of_scalar
              fixed_uuid (JStr "t1") (JStr "r1") "01234567" 4 w Hpend)
    as (Hout & _ & _ & _ & Hkeep & _).
  destruct (Hkeep s eq_refl) as [Hfinal Hpolled].
  repeat split; assumption || reflexivity.
Defined.

(** C3 as stated fails. The engine never reports a terminal status and the
    deadline is 4; [research_question] of the server that waits returns
    the timed-out result and the session is still in the registry, but its
    record has no status: it is not [running]. *)
Lemma timed_out_session_has_no_status :
  let asked := research_question running_engine str_of_scalar fixed_uuid
                 "What is the capital of France?" true 4 (boot 0) in
  (forall t l,
     pending (answer (running_engine t l (status_fetch str_of_scalar (JStr "t1")
                                            (JStr "r1")))) = true)
  /\ fst asked = Returns (wait_timed_out_msg 4 "t1")
  /\ exists s,
       assoc "01234567" (active_sessions (snd asked)) = Some s
       /\ status s = None
       /\ status s <> Some "running".
Proof.
  cbv zeta. split; [intros t l; reflexivity|].
  split; [vm_compute; reflexivity|].
  eexists. split; [vm_compute; reflexivity|].
  split; [reflexivity | discriminate].
Qed.

Lemma clarification_iff_question_text_witness :
  fst (wait_loop clarifying_engine str_of_scalar 1 0 720 (JStr "t1") (JStr "r1")
         "01234567" (boot 0))
  = Returns (wait_clarification_msg "Could you clarify the target region?" "t1")
  /\ fst (get_research_by_thread_id clarifying_engine str_of_scalar "t1" (boot 0))
     = Returns (thread_clarification_msg "Could you clarify the target region?" "t1").
Proof.
  destruct (clarification_iff_question_text clarifying_engine str_of_scalar
              asks_region
              (JDict [("messages",
                       JList [JDict [("role", JStr "assistant");
                                     ("content",
                                      JStr "Could you clarify the target region?")]])])
              JNull
              (JDict [("role", JStr "assistant");
                      ("content", JStr "Could you clarify the target region?")])
              [] "Could you clarify the target region?"
              eq_refl eq_refl eq_refl eq_refl eq_refl)
    as (Hwait & Hthread & _).
  split.
  - apply (Hwait (JStr "t1") (JStr "r1") "01234567" 0 720 0%nat (boot 0)
             (JDict [("status", JStr "success")])).
    + reflexivity.
    + eexists. repeat split; reflexivity.
    + reflexivity.
    + eexists. repeat split; reflexivity.
  - apply Hthread. eexists. repeat split; reflexivity.
Defined.

(** C4 as stated fails: the snapshot has no final report, its last
    message asks nothing, and recovery by thread id answers "still in
    progress", which is not the "no results" text. *)
Lemma busy_thread_is_not_no_results :
  final_report_of busy_thread = Ok JNull
  /\ looks_like_question "Working on it." = false
  /\ fst (get_research_by_thread_id busy_engine str_of_scalar "t1" (boot 0))
     = Returns (in_progress_msg "t1")
  /\ in_progress_msg "t1" <> thread_no_results_msg "t1".
Proof.
  repeat split; try reflexivity. intros H. discriminate H.
Qed.

(** A status fetch answered 503 is followed by the sleep: the clock is
    two units further and the fetch is on the transcript. *)
Lemma failed_poll_retried_witness :
  yields_terminal
    (answer (unavailable_engine 0 []
               (status_fetch str_of_scalar (JStr "t1") (JStr "r1")))) = false
  /\ wait_iteration unavailable_engine str_of_scalar (JStr "t1") (JStr "r1")
       "01234567" (boot 0)
     = (Returns None,
        after_retry (boot 0) (status_fetch str_of_scalar (JStr "t1") (JStr "r1"))
          (http_error 503 "Service Unavailable")).
Proof.
  split; [reflexivity|].
  exact (proj1 (failed_poll_retried_or_diagnosed unavailable_engine str_of_scalar
                  (JStr "t1") (JStr "r1") "01234567" 4 (boot 0) eq_refl)).
Defined.

Lemma assistant_resolved_once_witness :
  fst (get_assistant running_engine (boot 0)) = Returns (JStr "a1")
  /\ truthy (JStr "a1") = true
  /\ get_assistant running_engine (snd (get_assistant running_engine (boot 0)))
     = (Returns (JStr "a1"), snd (get_assistant running_engine (boot 0))).
Proof.
  destruct (assistant_resolved_once running_engine str_of_scalar fixed_uuid
              (boot 0) (JStr "a1") eq_refl eq_refl) as (Hcache & Hagain & _).
  split; [reflexivity|]. split; [reflexivity|].
  apply Hagain. exact Hcache.
Defined.

(** C6 as stated fails: the wait of [research_question] times out, the
    run succeeds later, recovery by the thread id returns the report, and
    the session is still listed afterwards. *)
Lemma recovered_session_still_listed :
  let asked := research_question late_engine str_of_scalar fixed_uuid
                 "What is the capital of France?" true 4 (boot 0) in
  let recovered := get_research_by_thread_id late_engine str_of_scalar "t1"
                     (snd asked) in
  fst asked = Returns (wait_timed_out_msg 4 "t1")
  /\ fst recovered = Returns (report_msg "Paris.")
  /\ dict_in "01234567" (active_sessions (snd recovered)) = true
  /\ fst (list_active_sessions str_of_scalar (snd recovered))
     = Returns (sessions_header
                ++ session_entry "01234567" "t1" "What is the capital of France?" "4").
Proof.
  cbv zeta. repeat split; vm_compute; reflexivity.
Qed.

Lemma recovery_keeps_session_witness :
  let w := snd (start_research late_engine str_of_scalar fixed_uuid
                  "What is the capital of France?" true (boot 0)) in
  let s := {| thread_id := JStr "t1"; run_id := JStr "r1";
              question := "What is the capital of France?";
              status := Some "running"; started_at := 0 |} in
  let waited := wait_for_research_completion late_engine str_of_scalar (JStr "t1")
                  (JStr "r1") "01234567" 4 w in
  let recovered := get_research_by_thread_id late_engine str_of_scalar "t1"
                     (snd waited) in
  assoc "01234567" (active_sessions w) = Some s
  /\ fst waited = Returns (wait_timed_out_msg 4 "t1")
  /\ fst recovered = Returns (report_msg "Paris.")
  /\ assoc "01234567" (active_sessions (snd recovered)) = Some s.
Proof.
  intros w s waited recovered.
  assert (Htimed : fst waited = Returns (wait_timed_out_msg 4 "t1"))
    by (vm_compute; reflexivity).
  assert (Hfetch : fetch_yields late_engine (snd waited)
                     (GET (state_url "t1")) report_and_question).
  { eexists. repeat split; vm_compute; reflexivity. }
  destruct (recovery_returns_report_and_keeps_session late_engine str_of_scalar
              (JStr "t1") (JStr "r1") "01234567" 4 w s report_and_question
              (JStr "Paris.") eq_refl Htimed Hfetch eq_refl eq_refl)
    as (Hrep & _ & Hs & _).
  repeat split; assumption || reflexivity.
Defined.

(** C7: the property fails at a rejected run submission. The thread [t1]
    exists and the session id [01234567] has been drawn, and the text
    returned names neither, while the text for a submission that raises
    names the thread. *)
Lemma rejected_submission_names_no_thread :
  let asked := research_question rejecting_engine str_of_scalar fixed_uuid
                 "What is the capital of France?" true 720 (boot 0) in
  fst asked = Returns (failed_to_start_msg "Internal Server Error")
  /\ In (POST "http://localhost:2024/threads" (JDict []),
         answer (ok_json (JDict [("thread_id", JStr "t1")])))
        (log (snd asked))
  /\ contains "t1" (failed_to_start_msg "Internal Server Error") = false
  /\ contains "01234567" (failed_to_start_msg "Internal Server Error") = false
  /\ contains "t1" (research_error_msg "'run_id'" "t1") = true.
Proof.
  cbv zeta. repeat split; try (vm_compute; reflexivity).
  vm_compute. right. left. reflexivity.
Qed.

(* ------------------------------------------------------------------ *)
(** *** Concrete runs of the further properties *)

(** The listings cut the question by characters, not by bytes: of a
    question of 81 two-byte characters the first 80, and the first 60,
    are shown whole. *)
Example question_is_cut_by_characters :
  let w := with_sessions [("01234567", accented_session)] (boot 0) in
  String.length (question accented_session) = 162%nat
  /\ fst (list_active_sessions str_of_scalar w)
     = Returns (sessions_header
                ++ session_entry "01234567" "t1" (repeat_text 80 "é") "0")
  /\ fst (async_list_active_sessions w)
     = Returns (sessions_header
                ++ async_session_entry "01234567" "running" "0"
                     (repeat_text 60 "é")).
Proof. cbv zeta. repeat split; vm_compute; reflexivity. Qed.

(** The continuation without a thread id goes to the thread [t1] of the
    session that started at 5, not to [t0]. *)
Lemma continuation_targets_latest_session_witness :
  truthy (JStr "a1") = true
  /\ cache_is (JStr "a1") two_sessions
  /\ active_sessions two_sessions <> []
  /\ exists l,
       In l (map snd (active_sessions two_sessions))
       /\ (forall s, In s (map snd (active_sessions two_sessions)) ->
             started_at s <= started_at l)
       /\ let q := POST (runs_url (to_text str_of_scalar (thread_id l)))
                     (clarification_payload (JStr "a1") "Europe") in
          snd (continue_research_with_clarification running_engine str_of_scalar
                 "Europe" None two_sessions)
          = after_fetch two_sessions q
              (running_engine (now two_sessions) (log two_sessions) q).
Proof.
  assert (Hne : active_sessions two_sessions <> []) by discriminate.
  split; [reflexivity|]. split; [reflexivity|]. split; [exact Hne|].
  exact (continuation_targets_latest_session running_engine str_of_scalar "Europe"
           (JStr "a1") two_sessions eq_refl eq_refl Hne).
Defined.

(** A run that has failed ends the wait at the first status fetch. *)
Lemma failed_run_ends_wait_witness :
  let q := status_fetch str_of_scalar (JStr "t1") (JStr "r1") in
  run_status_seen (answer (failed_engine 0 [] q)) = Some "error"
  /\ is_failure_status "error" = true
  /\ wait_for_research_completion failed_engine str_of_scalar (JStr "t1")
       (JStr "r1") "01234567" 4 (boot 0)
     = (Returns (wait_failed_msg "error" "t1"),
        after_fetch (boot 0) q (failed_engine 0 [] q))
  /\ poll_for_completion failed_engine str_of_scalar (JStr "t1") (JStr "r1") 4
       (boot 0)
     = (Returns (poll_result "error" "message"
                   (JStr "Research failed with status: error")),
        after_fetch (boot 0) q (failed_engine 0 [] q)).
Proof.
  intros q. split; [reflexivity|]. split; [reflexivity|].
  exact (failed_run_ends_wait failed_engine str_of_scalar (JStr "t1") (JStr "r1")
           "01234567" 4 (boot 0) "error" eq_refl eq_refl eq_refl).
Defined.

(** The run has succeeded and the state fetch is answered 503: the pass
    sleeps. *)
Lemma refused_state_is_retried_witness :
  let q1 := status_fetch str_of_scalar (JStr "t1") (JStr "r1") in
  let w1 := after_fetch (boot 0) q1 (refusing_state_engine 0 [] q1) in
  let q2 := GET (state_url "t1") in
  run_status_seen (answer (refusing_state_engine 0 [] q1)) = Some "success"
  /\ answer (refusing_state_engine (now w1) (log w1) q2)
     = answer (http_error 503 "Service Unavailable")
  /\ wait_iteration refusing_state_engine str_of_scalar (JStr "t1") (JStr "r1")
       "01234567" (boot 0)
     = (Returns None, after_retry w1 q2 (refusing_state_engine (now w1) (log w1) q2)).
Proof.
  intros q1 w1 q2. split; [reflexivity|]. split; [reflexivity|].
  refine (proj1 (refused_state_is_retried refusing_state_engine str_of_scalar
                   (JStr "t1") (JStr "r1") "01234567" (boot 0) _ eq_refl eq_refl _)).
  discriminate.
Defined.

(** The status fetch is answered 503 and the state holds the report:
    [get_research_results] returns the report and deletes the session. *)
Lemma report_delivered_without_status_witness :
  let out := get_research_results flaky_status_engine str_of_scalar "01234567"
               two_sessions in
  assoc "01234567" (active_sessions two_sessions) = Some second_session
  /\ final_report_of report_and_question = Ok (JStr "Paris.")
  /\ fst out = Returns (results_report_msg "Paris.")
  /\ active_sessions (snd out) = [("0a1b2c3d", first_session)].
Proof.
  intros out. split; [reflexivity|]. split; [reflexivity|].
  refine (report_delivered_without_status flaky_status_engine str_of_scalar
            "01234567" second_session two_sessions _ report_and_question
            (JStr "Paris.") eq_refl eq_refl _ _ eq_refl eq_refl).
  - discriminate.
  - eexists. repeat split; reflexivity.
Defined.

(** The second session is listed with its status. *)
Lemma session_listing_shows_status_witness :
  statuses_known two_sessions
  /\ exists listing,
       async_list_active_sessions two_sessions = (Returns listing, two_sessions)
       /\ get_current_thread_info two_sessions = (Returns listing, two_sessions)
       /\ occurs_in (async_session_entry "01234567" "running" "5"
                       "What is the capital of France?") listing.
Proof.
  split; [reflexivity|].
  exact (session_listing_shows_status "01234567" second_session "running"
           two_sessions eq_refl (or_intror (or_introl eq_refl)) eq_refl).
Defined.

(** A run that is still [running]: the pass gives no result and sleeps. *)
Lemma polling_pass_dispatch_witness :
  let q := GET (run_url "t1" "r1") in
  uuid_text "01234567" = true
  /\ pending (answer (running_engine 10 [] q)) = true
  /\ progress_pass running_engine str_of_scalar "01234567" two_sessions
     = (Returns None, after_retry two_sessions q (running_engine 10 [] q)).
Proof.
  intros q. split; [reflexivity|]. split; [reflexivity|].
  exact (proj1 (polling_pass_dispatch running_engine str_of_scalar "01234567"
                  second_session two_sessions eq_refl eq_refl) eq_refl).
Defined.

(** The first UUID drawn is in text form, and the tool returns a text. *)
Lemma research_question_polls_started_session_witness :
  uuid_text (fixed_uuid 0) = true
  /\ exists m,
       fst (async_research_question success_engine str_of_scalar fixed_uuid
              "What is the capital of France?" true (boot 0)) = Returns m.
Proof.
  split; [reflexivity|].
  destruct (research_question_polls_started_session success_engine str_of_scalar
              fixed_uuid "What is the capital of France?" true (boot 0) eq_refl)
    as [(f & Hf & _ & Ho) | (_ & _ & _ & Hm)].
  - rewrite Ho. exists (render_start_failure f). exact Hf.
  - exact Hm.
Defined.

(** The session continued is the one that started at 5. *)
Lemma continuation_goes_to_latest_session_witness :
  latest_key_from ("0a1b2c3d", first_session) [("01234567", second_session)]
  = "01234567"
  /\ exists s,
       In ("01234567", s) (active_sessions two_sessions)
       /\ forall p, In p (active_sessions two_sessions) ->
            started_at (snd p) <= started_at s.
Proof.
  split; [reflexivity|].
  exact (proj1 (continuation_goes_to_latest_session running_engine str_of_scalar
                  "Europe" ("0a1b2c3d", first_session)
                  [("01234567", second_session)] two_sessions eq_refl eq_refl)).
Defined.

(** A deadline of 0: no request, and the world is the one before. *)
Lemma nonpositive_timeout_never_polls_witness :
  0 <= 0
  /\ wait_for_research_completion success_engine str_of_scalar (JStr "t1")
       (JStr "r1") "01234567" 0 (boot 0)
     = (Returns (wait_timed_out_msg 0 "t1"), boot 0).
Proof.
  split; [discriminate|].
  exact (proj1 (nonpositive_timeout_never_polls success_engine str_of_scalar
                  (JStr "t1") (JStr "r1") "01234567" 0 (boot 0)
                  (Z.le_refl 0))).
Defined.

(** The run is still [running]: one request, and the text names the status. *)
Lemma results_wait_for_success_witness :
  let q := GET (run_url "t1" "r1") in
  status_of (answer (running_engine 10 [] q)) = Ok (JStr "running")
  /\ get_research_results running_engine str_of_scalar "01234567" two_sessions
     = (Returns (not_complete_msg "01234567" "running"),
        after_fetch two_sessions q (running_engine 10 [] q)).
Proof.
  intros q. split; [reflexivity|].
  exact (results_wait_for_success running_engine str_of_scalar "01234567"
           second_session two_sessions _ (JStr "running") eq_refl eq_refl eq_refl
           eq_refl eq_refl).
Defined.
